(** * VNPay: signed payment URLs and verification of return queries

    A shallow embedding of [src/vnpay.ts] (class [VNPay]) together with the
    parts of the JavaScript platform the class relies on.

    Definitions:
    - [Crypto] : HMAC-SHA512 with hexadecimal output, as computed by
                 [crypto.createHmac('sha512', key).update(buf).digest('hex')];
    - [JS]     : primitive values, objects as insertion-ordered property
                 lists, [Array.prototype.sort], [URL] and [URLSearchParams];
                 what is left to the engine is the class [Platform];
    - [VNPay]  : promise executors as a state-and-completion monad with the
                 queue of [then] reactions, and the class method by method;
                 what comes from absent modules of the package is the class
                 [Imports];
    - [Demo]   : a platform and the instance of the class comment, to run
                 the methods on.

    Facts:
    - [JSFacts], [CryptoFacts] : sorting, entry lists, serialization, the
                 shape of a digest;
    - [Runs]   : what a call of either method leaves behind, case by case;
    - [Properties] : the properties of [buildPaymentUrl], [verifyReturnUrl]
                 and [getResponseByStatusCode];
    - [Coverage] : further properties: the verdict and the result of
                 [verifyReturnUrl], the parameters of [buildPaymentUrl],
                 the way from one method to the other, the order of fields,
                 the constructor and the defaults. *)

From Stdlib Require Import ZArith List String Ascii Bool Lia.
From Stdlib Require Import Sorting.Sorted Sorting.Permutation.
From Stdlib Require Import DecimalString DecimalPos DecimalZ.
Import ListNotations.

Local Open Scope string_scope.
Local Open Scope list_scope.
Local Open Scope Z_scope.

(* ================================================================== *)
(** ** HMAC-SHA512 (FIPS 180-4, RFC 2104) *)
(* ================================================================== *)

Module Crypto.

(** 64-bit words are integers in [0, 2^64); every operation that can leave
    that range keeps the low 64 bits. *)
Definition mask64 : Z := 0xffffffffffffffff.
Definition wmod (x : Z) : Z := Z.land x mask64.
Definition add64 (x y : Z) : Z := wmod (x + y).
Definition SHR (n x : Z) : Z := Z.shiftr x n.
Definition ROTR (n x : Z) : Z :=
  Z.lor (Z.shiftr x n) (wmod (Z.shiftl x (64 - n))).
Definition not64 (x : Z) : Z := Z.lxor x mask64.

Definition Ch (x y z : Z) : Z := Z.lxor (Z.land x y) (Z.land (not64 x) z).
Definition Maj (x y z : Z) : Z :=
  Z.lxor (Z.lxor (Z.land x y) (Z.land x z)) (Z.land y z).
Definition Sigma0 (x : Z) : Z := Z.lxor (Z.lxor (ROTR 28 x) (ROTR 34 x)) (ROTR 39 x).
Definition Sigma1 (x : Z) : Z := Z.lxor (Z.lxor (ROTR 14 x) (ROTR 18 x)) (ROTR 41 x).
Definition sigma0 (x : Z) : Z := Z.lxor (Z.lxor (ROTR 1 x) (ROTR 8 x)) (SHR 7 x).
Definition sigma1 (x : Z) : Z := Z.lxor (Z.lxor (ROTR 19 x) (ROTR 61 x)) (SHR 6 x).

Definition K : list Z :=
  [ 0x428a2f98d728ae22; 0x7137449123ef65cd; 0xb5c0fbcfec4d3b2f; 0xe9b5dba58189dbbc;
    0x3956c25bf348b538; 0x59f111f1b605d019; 0x923f82a4af194f9b; 0xab1c5ed5da6d8118;
    0xd807aa98a3030242; 0x12835b0145706fbe; 0x243185be4ee4b28c; 0x550c7dc3d5ffb4e2;
    0x72be5d74f27b896f; 0x80deb1fe3b1696b1; 0x9bdc06a725c71235; 0xc19bf174cf692694;
    0xe49b69c19ef14ad2; 0xefbe4786384f25e3; 0x0fc19dc68b8cd5b5; 0x240ca1cc77ac9c65;
    0x2de92c6f592b0275; 0x4a7484aa6ea6e483; 0x5cb0a9dcbd41fbd4; 0x76f988da831153b5;
    0x983e5152ee66dfab; 0xa831c66d2db43210; 0xb00327c898fb213f; 0xbf597fc7beef0ee4;
    0xc6e00bf33da88fc2; 0xd5a79147930aa725; 0x06ca6351e003826f; 0x142929670a0e6e70;
    0x27b70a8546d22ffc; 0x2e1b21385c26c926; 0x4d2c6dfc5ac42aed; 0x53380d139d95b3df;
    0x650a73548baf63de; 0x766a0abb3c77b2a8; 0x81c2c92e47edaee6; 0x92722c851482353b;
    0xa2bfe8a14cf10364; 0xa81a664bbc423001; 0xc24b8b70d0f89791; 0xc76c51a30654be30;
    0xd192e819d6ef5218; 0xd69906245565a910; 0xf40e35855771202a; 0x106aa07032bbd1b8;
    0x19a4c116b8d2d0c8; 0x1e376c085141ab53; 0x2748774cdf8eeb99; 0x34b0bcb5e19b48a8;
    0x391c0cb3c5c95a63; 0x4ed8aa4ae3418acb; 0x5b9cca4f7763e373; 0x682e6ff3d6b2b8a3;
    0x748f82ee5defb2fc; 0x78a5636f43172f60; 0x84c87814a1f0ab72; 0x8cc702081a6439ec;
    0x90befffa23631e28; 0xa4506cebde82bde9; 0xbef9a3f7b2c67915; 0xc67178f2e372532b;
    0xca273eceea26619c; 0xd186b8c721c0c207; 0xeada7dd6cde0eb1e; 0xf57d4f7fee6ed178;
    0x06f067aa72176fba; 0x0a637dc5a2c898a6; 0x113f9804bef90dae; 0x1b710b35131c471b;
    0x28db77f523047d84; 0x32caab7b40c72493; 0x3c9ebe0a15c9bebc; 0x431d67c49c100d4c;
    0x4cc5d4becb3e42b6; 0x597f299cfc657e2a; 0x5fcb6fab3ad6faec; 0x6c44198c4a475817 ].

(** The eight working variables, also the chaining value between blocks. *)
Record hash : Type := mkHash
  { ha : Z; hb : Z; hc : Z; hd : Z; he : Z; hf : Z; hg : Z; hh : Z }.

Definition H0 : hash :=
  mkHash 0x6a09e667f3bcc908 0xbb67ae8584caa73b 0x3c6ef372fe94f82b
         0xa54ff53a5f1d36f1 0x510e527fade682d1 0x9b05688c2b3e6c1f
         0x1f83d9abfb41bd6b 0x5be0cd19137e2179.

(** Padding: a [0x80] byte, zero bytes up to 112 modulo 128, then the bit
    length as a 128-bit big-endian integer. *)
Fixpoint be_bytes (n : nat) (x : Z) : list Z :=
  match n with
  | O => []
  | S k => (Z.shiftr x (8 * Z.of_nat k)) mod 256 :: be_bytes k x
  end.

Definition pad (msg : list Z) : list Z :=
  let len := Z.of_nat (List.length msg) in
  let k := (128 - (len + 17) mod 128) mod 128 in
  msg ++ [0x80] ++ repeat 0 (Z.to_nat k) ++ be_bytes 16 (8 * len).

Fixpoint be_words (bs : list Z) : list Z :=
  match bs with
  | b0 :: b1 :: b2 :: b3 :: b4 :: b5 :: b6 :: b7 :: rest =>
      fold_left (fun acc b => acc * 256 + b) [b0; b1; b2; b3; b4; b5; b6; b7] 0
      :: be_words rest
  | _ => []
  end.

(** The message schedule, kept most recent word first while it is extended:
    [W_t = sigma1 W_(t-2) + W_(t-7) + sigma0 W_(t-15) + W_(t-16)]. *)
Definition next_W (rev_w : list Z) : Z :=
  add64 (add64 (sigma1 (nth 1 rev_w 0)) (nth 6 rev_w 0))
        (add64 (sigma0 (nth 14 rev_w 0)) (nth 15 rev_w 0)).

Fixpoint extend_W (n : nat) (rev_w : list Z) : list Z :=
  match n with
  | O => rev_w
  | S k => extend_W k (next_W rev_w :: rev_w)
  end.

Definition schedule (block : list Z) : list Z :=
  rev (extend_W 64 (rev block)).

Definition round (s : hash) (kw : Z * Z) : hash :=
  let (k, w) := kw in
  let T1 := add64 (add64 (add64 (add64 (hh s) (Sigma1 (he s)))
                                (Ch (he s) (hf s) (hg s))) k) w in
  let T2 := add64 (Sigma0 (ha s)) (Maj (ha s) (hb s) (hc s)) in
  mkHash (add64 T1 T2) (ha s) (hb s) (hc s) (add64 (hd s) T1) (he s) (hf s) (hg s).

Definition compress (h : hash) (block : list Z) : hash :=
  let s := fold_left round (combine K (schedule block)) h in
  mkHash (add64 (ha h) (ha s)) (add64 (hb h) (hb s)) (add64 (hc h) (hc s))
         (add64 (hd h) (hd s)) (add64 (he h) (he s)) (add64 (hf h) (hf s))
         (add64 (hg h) (hg s)) (add64 (hh h) (hh s)).

Fixpoint blocks (n : nat) (ws : list Z) (h : hash) : hash :=
  match n with
  | O => h
  | S k => blocks k (skipn 16 ws) (compress h (firstn 16 ws))
  end.

Definition sha512 (msg : list Z) : hash :=
  let ws := be_words (pad msg) in
  blocks (Nat.div (List.length ws) 16) ws H0.

Definition hash_words (h : hash) : list Z :=
  [ha h; hb h; hc h; hd h; he h; hf h; hg h; hh h].

Definition hash_bytes (h : hash) : list Z :=
  flat_map (be_bytes 8) (hash_words h).

(** HMAC with block size 128: longer keys are hashed first, shorter ones are
    zero-padded. *)
Definition hmac_key (key : list Z) : list Z :=
  let k := if (128 <? Z.of_nat (List.length key)) then hash_bytes (sha512 key) else key in
  k ++ repeat 0 (128 - List.length k)%nat.

Definition hmac_sha512 (key msg : list Z) : hash :=
  let k := hmac_key key in
  let inner := sha512 (map (Z.lxor 0x36) k ++ msg) in
  sha512 (map (Z.lxor 0x5c) k ++ hash_bytes inner).

(** [digest('hex')]: two lowercase hexadecimal digits per byte. *)
Definition hex_digit (n : Z) : ascii :=
  if n <? 10 then ascii_of_N (Z.to_N (48 + n)) else ascii_of_N (Z.to_N (87 + n)).

Fixpoint hex_nibbles (n : nat) (x : Z) : string :=
  match n with
  | O => EmptyString
  | S k => String (hex_digit ((Z.shiftr x (4 * Z.of_nat k)) mod 16)) (hex_nibbles k x)
  end.

Definition hex_of_hash (h : hash) : string :=
  fold_right (fun wd acc => (hex_nibbles 16 wd ++ acc)%string) EmptyString (hash_words h).

(** [Buffer.from(s, 'utf-8')]: strings are held as their UTF-8 bytes, so the
    buffer is the byte sequence of the string. *)
Definition bytes_of_string (s : string) : list Z :=
  map (fun c => Z.of_N (N_of_ascii c)) (list_ascii_of_string s).

Definition hmac_sha512_hex (key msg : string) : string :=
  hex_of_hash (hmac_sha512 (bytes_of_string key) (bytes_of_string msg)).

End Crypto.

(* ================================================================== *)
(** ** The JavaScript platform, as far as the class uses it *)
(* ================================================================== *)

Module JS.

(** Strings are held as their UTF-8 bytes (a [string] of [ascii]); equality
    of well-formed strings is equality of these bytes. *)

(** Numbers.  [NInt z] is the number with integer value [z]; arithmetic on
    it is exact while magnitudes stay within [MAX_SAFE_INTEGER].  [NOther]
    stands for every other non-zero, non-NaN number (fractions, magnitudes
    beyond the safe range, the infinities) and carries the text that
    [Number.prototype.toString] prints for it, first character apart since
    that text is never empty. *)
Inductive number : Type :=
| NInt (z : Z)
| NNaN
| NOther (c : ascii) (s : string).

(** Primitive values (objects, symbols and bigints never occur as property
    values of the payloads and queries of this class). *)
Inductive value : Type :=
| VUndefined
| VNull
| VBool (b : bool)
| VNum (n : number)
| VStr (s : string).

Definition MAX_SAFE_INTEGER : Z := 2 ^ 53 - 1.
Definition safe_integer (z : Z) : bool := Z.abs z <=? MAX_SAFE_INTEGER.

(** ToBoolean; [!v] is [negb (truthy v)]. *)
Definition truthy (v : value) : bool :=
  match v with
  | VUndefined | VNull => false
  | VBool b => b
  | VNum (NInt z) => negb (z =? 0)
  | VNum NNaN => false
  | VNum (NOther _ _) => true
  | VStr s => negb (s =? "")%string
  end.

Definition number_eq (a b : number) : bool :=
  match a, b with
  | NInt x, NInt y => x =? y
  | NOther c s, NOther d t => (String c s =? String d t)%string
  | _, _ => false
  end.

(** [a === b] *)
Definition strict_eq (a b : value) : bool :=
  match a, b with
  | VUndefined, VUndefined => true
  | VNull, VNull => true
  | VBool x, VBool y => Bool.eqb x y
  | VNum x, VNum y => number_eq x y
  | VStr x, VStr y => (x =? y)%string
  | _, _ => false
  end.

Definition decimal (z : Z) : string := NilEmpty.string_of_int (Z.to_int z).

Definition Number_toString (n : number) : string :=
  match n with
  | NInt z => decimal z
  | NNaN => "NaN"
  | NOther c s => String c s
  end.

(** [v.toString()]: [None] is the TypeError raised when a property is read
    from [undefined] or [null]. *)
Definition toString (v : value) : option string :=
  match v with
  | VUndefined | VNull => None
  | VBool true => Some "true"
  | VBool false => Some "false"
  | VNum n => Some (Number_toString n)
  | VStr s => Some s
  end.

(** [String(v)] *)
Definition String_ (v : value) : string :=
  match v with
  | VUndefined => "undefined"
  | VNull => "null"
  | VBool true => "true"
  | VBool false => "false"
  | VNum n => Number_toString n
  | VStr s => s
  end.

(** [a ?? b] *)
Definition nullish (a b : value) : value :=
  match a with
  | VUndefined | VNull => b
  | _ => a
  end.

(** [s.slice(1)] *)
Definition slice1 (s : string) : string :=
  match s with
  | EmptyString => EmptyString
  | String _ t => t
  end.

(** *** Objects and [Map]s: string-keyed entries in insertion order

    An object is the list of its own enumerable properties in the order
    [Object.entries] lists them (property names of the payloads and queries
    are identifier-like, so this is the order of creation).  A [Map] with
    string keys has the same shape. *)

Section Entries.
Context {V : Type}.

Fixpoint lookup (k : string) (o : list (string * V)) : option V :=
  match o with
  | [] => None
  | (k', v) :: t => if (k' =? k)%string then Some v else lookup k t
  end.

(** [o.k = v] and [map.set(k, v)]: an existing entry keeps its position,
    a new one goes last. *)
Fixpoint set (k : string) (v : V) (o : list (string * V)) : list (string * V) :=
  match o with
  | [] => [(k, v)]
  | (k', v') :: t => if (k' =? k)%string then (k, v) :: t else (k', v') :: set k v t
  end.

(** [delete o.k] *)
Fixpoint delete (k : string) (o : list (string * V)) : list (string * V) :=
  match o with
  | [] => []
  | (k', v') :: t => if (k' =? k)%string then delete k t else (k', v') :: delete k t
  end.

(** [Object.assign(target, source)]; also [{...target, ...source}] and
    [new Map(source)], which start from a fresh [target]. *)
Definition assign (target source : list (string * V)) : list (string * V) :=
  fold_left (fun acc kv => set (fst kv) (snd kv) acc) source target.
End Entries.

Definition obj : Type := list (string * value).

(** [o.k]; reading a missing property yields [undefined]. *)
Definition get (k : string) (o : obj) : value :=
  match lookup k o with
  | Some v => v
  | None => VUndefined
  end.

Definition entries (o : obj) : list (string * value) := o.

(** [Object.fromEntries(pairs)] for string-valued pairs, as obtained from a
    [URLSearchParams]. *)
Definition fromEntries (l : list (string * string)) : obj :=
  assign [] (map (fun kv => (fst kv, VStr (snd kv))) l).

Definition keys (o : obj) : list string := map fst o.

(** *** [Array.prototype.sort(compareFn)]

    The sort is stable; it is written here as insertion from the right,
    which places an element before the first element it does not exceed. *)

Section Sort.
Context {A : Type} (cmp : A -> A -> comparison).

Fixpoint insert (x : A) (l : list A) : list A :=
  match l with
  | [] => [x]
  | y :: t =>
      match cmp x y with
      | Gt => y :: insert x t
      | _ => x :: y :: t
      end
  end.

Definition Array_sort (l : list A) : list A := fold_right insert [] l.

(** "[x] does not come after [y]" *)
Definition le (x y : A) : Prop := cmp x y <> Gt.
End Sort.

(** *** [URL] and [URLSearchParams] (WHATWG URL standard) *)

Record URL : Type := mkURL
  { url_base : string            (* scheme, authority and path, serialized *)
  ; url_query : option string    (* [None] is the null query *)
  ; url_fragment : option string
  ; url_searchParams : list (string * string) (* the query object's list *)
  }.

(** The application/x-www-form-urlencoded byte serializer: alphanumerics and
    [*-._] stay, a space becomes [+], every other byte is percent-encoded
    with uppercase digits. *)
Definition unreserved (c : ascii) : bool :=
  let n := Z.of_N (N_of_ascii c) in
  ((48 <=? n) && (n <=? 57)) || ((65 <=? n) && (n <=? 90)) ||
  ((97 <=? n) && (n <=? 122)) ||
  (n =? 42) || (n =? 45) || (n =? 46) || (n =? 95).

Definition HEX_digit (n : Z) : ascii :=
  if n <? 10 then ascii_of_N (Z.to_N (48 + n)) else ascii_of_N (Z.to_N (55 + n)).

Definition urlencoded_byte (c : ascii) : string :=
  let n := Z.of_N (N_of_ascii c) in
  if unreserved c then String c EmptyString
  else if n =? 32 then "+"
  else String "%" (String (HEX_digit (n / 16)) (String (HEX_digit (n mod 16)) EmptyString)).

Fixpoint urlencoded_string (s : string) : string :=
  match s with
  | EmptyString => EmptyString
  | String c t => (urlencoded_byte c ++ urlencoded_string t)%string
  end.

Definition urlencoded_pair (kv : string * string) : string :=
  (urlencoded_string (fst kv) ++ "=" ++ urlencoded_string (snd kv))%string.

Fixpoint urlencoded_serialize (l : list (string * string)) : string :=
  match l with
  | [] => EmptyString
  | [kv] => urlencoded_pair kv
  | kv :: t => (urlencoded_pair kv ++ "&" ++ urlencoded_serialize t)%string
  end.

(** [url.searchParams.append(name, value)]: the pair goes last in the list
    and the URL's query is replaced by the serialization of the list (an
    empty serialization gives the null query). *)
Definition searchParams_append (name val : string) (u : URL) : URL :=
  let l := url_searchParams u ++ [(name, val)] in
  let q := urlencoded_serialize l in
  mkURL (url_base u)
        (if (q =? "")%string then None else Some q)
        (url_fragment u) l.

(** [url.search] *)
Definition URL_search (u : URL) : string :=
  match url_query u with
  | None => ""
  | Some q => if (q =? "")%string then "" else ("?" ++ q)%string
  end.

(** [url.toString()], the href *)
Definition URL_toString (u : URL) : string :=
  (url_base u
   ++ match url_query u with None => "" | Some q => "?" ++ q end
   ++ match url_fragment u with None => "" | Some f => "#" ++ f end)%string.

(** What the class takes from the engine and its libraries without this
    development fixing it: the collation behind [localeCompare], the URL
    parser, numeric conversion of strings and floating-point products
    outside the exact integer range.  A comparator handed to [sort] has to
    be a consistent one; for [localeCompare] that is totality and
    transitivity of "does not come after". *)
Class Platform : Type :=
  { localeCompare : string -> string -> comparison
  ; localeCompare_total :
      forall a b, localeCompare a b = Gt -> localeCompare b a <> Gt
  ; localeCompare_trans :
      forall a b c, localeCompare a b <> Gt -> localeCompare b c <> Gt ->
                    localeCompare a c <> Gt
  ; URL_parse : string -> option URL     (* [new URL(s)]; [None]: TypeError *)
  ; StringToNumber : string -> number
  ; float_mul : number -> number -> number
  }.

(** ToNumber *)
Definition ToNumber `{Platform} (v : value) : number :=
  match v with
  | VUndefined => NNaN
  | VNull => NInt 0
  | VBool true => NInt 1
  | VBool false => NInt 0
  | VNum n => n
  | VStr s => StringToNumber s
  end.

(** [a * b]: exact on integers whose product is a safe integer, NaN as soon
    as an operand is NaN, left to the platform otherwise. *)
Definition number_mul `{Platform} (a b : number) : number :=
  match a, b with
  | NNaN, _ | _, NNaN => NNaN
  | NInt x, NInt y =>
      if safe_integer x && safe_integer y && safe_integer (x * y)
      then NInt (x * y) else float_mul a b
  | _, _ => float_mul a b
  end.

Definition mul `{Platform} (a b : value) : value :=
  VNum (number_mul (ToNumber a) (ToNumber b)).


(** *** Notions used to state properties *)

(** [all_chars p s]: every character of [s] satisfies [p]. *)
Fixpoint all_chars (p : ascii -> bool) (s : string) : bool :=
  match s with
  | EmptyString => true
  | String c t => p c && all_chars p t
  end.

(** Lowercase hexadecimal digits *)
Definition lower_hex (c : ascii) : bool :=
  let n := Z.of_N (N_of_ascii c) in
  ((48 <=? n) && (n <=? 57)) || ((97 <=? n) && (n <=? 102)).

(** The values the property loops leave out: the condition of lines 161
    and 215, [!value || value === '' || value === undefined || value ===
    null], spelled out by cases. *)
Definition empty_value (v : value) : bool :=
  match v with
  | VUndefined | VNull => true
  | VBool b => negb b
  | VNum (NInt z) => z =? 0
  | VNum NNaN => true
  | VNum (NOther _ _) => false
  | VStr s => (s =? "")%string
  end.

(** Several [append] calls in a row *)
Definition append_all (l : list (string * string)) (u : URL) : URL :=
  fold_left (fun u kv => searchParams_append (fst kv) (snd kv) u) l u.

(** The keys of an entry list are pairwise distinct, as those of an object
    are. *)
Fixpoint unique_keys {V : Type} (o : list (string * V)) : bool :=
  match o with
  | [] => true
  | (k, _) :: t =>
      match lookup k t with
      | None => unique_keys t
      | Some _ => false
      end
  end.

End JS.

(* ================================================================== *)
(** ** The class [VNPay] *)
(* ================================================================== *)

Module VNPay.
Import JS.

(** An element of the array that class-validator's [validate] resolves to. *)
Record ValidationError : Type := mkValidationError
  { property : string; constraints : list string }.

(** What a promise of this class can be rejected with. *)
Inductive error : Type :=
| Error (message : string)                        (* [new Error(message)] *)
| TypeError (message : string)                    (* raised by the platform *)
| ValidationErrors (errs : list ValidationError). (* [reject(err)], line 152 *)

(** [enum VnpLocale]; its members are the keys [vn] and [en] of the records
    in the response table. *)
Inductive VnpLocale : Type := VN | EN.

Definition VnpLocale_value (l : VnpLocale) : string :=
  match l with VN => "vn" | EN => "en" end.

(** The fields of [ConfigVnpayDTO] the class reads; an absent field is
    [None] ([undefined]). *)
Record ConfigVnpayDTO : Type := mkConfig
  { paymentGateway : option string
  ; tmnCode : option string
  ; secureSecret : option string
  ; returnUrl : option string }.

(** The private fields of an instance ([CRYPTO_ALGORITHM] and
    [CRYPTO_ENCODING] are never assigned after their initializers and are
    read as ['sha512'] and ['utf-8']). *)
Record VNPay : Type := mkVNPay
  { globalConfig : ConfigVnpayDTO
  ; vnp_Version : string
  ; vnp_Command : string
  ; vnp_CurrCode : string
  ; vnp_Locale : VnpLocale
  ; vnp_OrderType : string }.

(** Names imported from modules of the package that are not part of the
    verified file: the constants of [./constants] and [./enums], and the
    result of class-validator's [validate] on a [BuildPaymentUrlDTO], which
    is decided by the decorators of [./dtos]. *)
Class Imports : Type :=
  { VNP_VERSION : string
  ; VNP_DEFAULT_COMMAND : string
  ; CURR_CODE_VND : string
  ; PAYMENT_GATEWAY_SANDBOX : string
  ; VnpOrderType_OTHER : string
  ; validate : obj -> list ValidationError }.

(** Modelled from the spec: the constructors of [BuildPaymentUrlDTO],
    [ReturnQueryFromVNPayDTO] and [VerifyReturnUrlDTO] ([./dtos], absent).
    The spec describes the return query as the raw mapping of all received
    fields and the result as carrying every one of them but the two
    signature fields: each constructor yields a fresh object with the
    properties of its argument. *)
Definition BuildPaymentUrlDTO (data : obj) : obj := data.
Definition ReturnQueryFromVNPayDTO (data : obj) : obj := data.
Definition VerifyReturnUrlDTO (data : obj) : obj := data.

Definition field (s : option string) : value :=
  match s with
  | Some x => VStr x
  | None => VUndefined
  end.

(** *** Promise executors

    The body handed to [new Promise] runs at once, against the instance and
    the caller's argument object (both shared with the caller), and may
    call [resolve] and [reject]; only the first such call settles the
    promise.  [then] reactions are queued and run after the body. *)

Inductive settlement (A : Type) : Type :=
| Fulfilled (a : A)
| Rejected (e : error).
Arguments Fulfilled {A} a.
Arguments Rejected {A} e.

Inductive event (A : Type) : Type :=
| EvHmac (key msg digest : string)          (* a digest was computed *)
| EvResolve (a : A)                         (* [resolve(a)] was called *)
| EvReject (e : error)                      (* [reject(e)] was called *)
| EvValidated (errs : list ValidationError) (* the [then] callback ran *).
Arguments EvHmac {A} key msg digest.
Arguments EvResolve {A} a.
Arguments EvReject {A} e.
Arguments EvValidated {A} errs.

Record state (A : Type) : Type := mkState
  { st_this : VNPay                          (* [this] *)
  ; st_arg : obj                             (* the caller's argument object *)
  ; st_promise : option (settlement A)       (* [None]: pending *)
  ; st_jobs : list (list ValidationError)    (* resolved [validate] promises *)
  ; st_trace : list (event A) }.
Arguments mkState {A}.
Arguments st_this {A}.
Arguments st_arg {A}.
Arguments st_promise {A}.
Arguments st_jobs {A}.
Arguments st_trace {A}.

Inductive completion (X : Type) : Type :=
| Normal (x : X)
| Returned                                   (* a [return] statement *)
| Thrown (e : error).
Arguments Normal {X} x.
Arguments Returned {X}.
Arguments Thrown {X} e.

Definition exec (A X : Type) : Type := state A -> completion X * state A.

Section Exec.
Context {A : Type}.

Definition ret {X} (x : X) : exec A X := fun s => (Normal x, s).

Definition bind {X Y} (m : exec A X) (k : X -> exec A Y) : exec A Y :=
  fun s =>
    match m s with
    | (Normal x, s') => k x s'
    | (Returned, s') => (Returned, s')
    | (Thrown e, s') => (Thrown e, s')
    end.

Definition return_ {X} : exec A X := fun s => (Returned, s).
Definition throw {X} (e : error) : exec A X := fun s => (Thrown e, s).

Definition get_this : exec A VNPay := fun s => (Normal (st_this s), s).
Definition get_arg : exec A obj := fun s => (Normal (st_arg s), s).
Definition put_arg (o : obj) : exec A unit :=
  fun s => (Normal tt, mkState (st_this s) o (st_promise s) (st_jobs s) (st_trace s)).

Definition log (e : event A) (s : state A) : state A :=
  mkState (st_this s) (st_arg s) (st_promise s) (st_jobs s) (st_trace s ++ [e]).

Definition settle (r : settlement A) (s : state A) : state A :=
  match st_promise s with
  | None => mkState (st_this s) (st_arg s) (Some r) (st_jobs s) (st_trace s)
  | Some _ => s
  end.

Definition resolve (a : A) : exec A unit :=
  fun s => (Normal tt, settle (Fulfilled a) (log (EvResolve a) s)).
Definition reject (e : error) : exec A unit :=
  fun s => (Normal tt, settle (Rejected e) (log (EvReject e) s)).

(** [p.then(callback)] on the promise of [validate]: the callback runs as
    a job once the body has finished. *)
Definition then_validated (errs : list ValidationError) : exec A unit :=
  fun s => (Normal tt,
            mkState (st_this s) (st_arg s) (st_promise s) (st_jobs s ++ [errs]) (st_trace s)).

(** [crypto.createHmac('sha512', key).update(Buffer.from(msg, 'utf-8')).digest('hex')] *)
Definition createHmac_digest (key : option string) (msg : string) : exec A string :=
  match key with
  | None => throw (TypeError "The key argument must be of type string")
  | Some k =>
      fun s => let d := Crypto.hmac_sha512_hex k msg in
               (Normal d, log (EvHmac k msg d) s)
  end.

Definition new_URL `{Platform} (s : string) : exec A URL :=
  match URL_parse s with
  | Some u => ret u
  | None => throw (TypeError "Invalid URL")
  end.

(** [v.toString()] *)
Definition toString_ (v : value) : exec A string :=
  match toString v with
  | Some s => ret s
  | None => throw (TypeError "Cannot read properties of undefined")
  end.

(** [list.forEach(callback)], the callback acting on the state and on a
    local [acc] *)
Fixpoint forEach {X S} (l : list X) (f : X -> S -> exec A S) (acc : S) : exec A S :=
  match l with
  | [] => ret acc
  | x :: t => bind (f x acc) (fun acc' => forEach t f acc')
  end.

(** The callback of [validate(...).then], lines 150-154 *)
Definition validated_callback (err : list ValidationError) : exec A unit :=
  if (0 <? Z.of_nat (List.length err)) then reject (ValidationErrors err) else ret tt.

Definition run_job (s : state A) (err : list ValidationError) : state A :=
  snd (validated_callback err (log (EvValidated err) s)).

(** [new Promise(executor)], followed by the queued jobs: a throw from the
    body rejects the promise. *)
Definition new_Promise (executor : exec A unit) (s0 : state A) : state A :=
  let (c, s1) := executor s0 in
  let s2 := match c with
            | Thrown e => settle (Rejected e) s1
            | _ => s1
            end in
  fold_left run_job (st_jobs s2)
            (mkState (st_this s2) (st_arg s2) (st_promise s2) [] (st_trace s2)).
End Exec.

Notation "x <- c1 ;; c2" := (bind c1 (fun x => c2))
  (at level 61, c1 at next level, right associativity).
Notation "c1 ;; c2" := (bind c1 (fun _ => c2))
  (at level 61, right associativity).

(** *** Methods *)

Section Methods.
Context `{Platform} `{Imports}.

(** [constructor({ paymentGateway = PAYMENT_GATEWAY_SANDBOX, ...init })] *)
Definition new_VNPay (init : ConfigVnpayDTO) : VNPay :=
  mkVNPay
    (mkConfig (match paymentGateway init with
               | None => Some PAYMENT_GATEWAY_SANDBOX
               | Some g => Some g
               end)
              (tmnCode init) (secureSecret init) (returnUrl init))
    VNP_VERSION VNP_DEFAULT_COMMAND CURR_CODE_VND VN VnpOrderType_OTHER.

(** [static async setup(init)], lines 67-74: [validateConfig] stands for
    class-validator's [validate] on a [ConfigVnpayDTO], decided by the
    decorators of [./dtos]; the result is what the returned promise settles
    to. *)
Definition setup (validateConfig : ConfigVnpayDTO -> list ValidationError)
    (init : ConfigVnpayDTO) : settlement VNPay :=
  let initValid := init in
  let err := validateConfig initValid in
  if 0 <? Z.of_nat (List.length err) then Rejected (ValidationErrors err)
  else Fulfilled (new_VNPay initValid).

(** [get configDefault()] *)
Definition configDefault (this : VNPay) : obj :=
  [ ("vnp_Version", VStr (vnp_Version this));
    ("vnp_Command", VStr (vnp_Command this));
    ("vnp_CurrCode", VStr (vnp_CurrCode this));
    ("vnp_Locale", VStr (VnpLocale_value (vnp_Locale this)));
    ("vnp_OrderType", VStr (vnp_OrderType this)) ].

(** The argument of [set configDefault(config)]: every field optional *)
Record ConfigDefault : Type := mkConfigDefault
  { cd_Version : option string
  ; cd_Command : option string
  ; cd_CurrCode : option string
  ; cd_Locale : option VnpLocale
  ; cd_OrderType : option string }.

(** The argument of [set configDefault(config)] as the object it is: the
    fields that are given, in the order of the type. *)
Definition ConfigDefault_fields (config : ConfigDefault) : obj :=
  let given (k : string) (v : option string) : obj :=
    match v with Some x => [(k, VStr x)] | None => [] end in
  given "vnp_Version" (cd_Version config)
  ++ given "vnp_Command" (cd_Command config)
  ++ given "vnp_CurrCode" (cd_CurrCode config)
  ++ given "vnp_Locale" (option_map VnpLocale_value (cd_Locale config))
  ++ given "vnp_OrderType" (cd_OrderType config).

(** [config.f ?? this.f] *)
Definition or_current {X : Type} (given : option X) (current : X) : X :=
  match given with
  | Some x => x
  | None => current
  end.

(** [set configDefault(config)] *)
Definition set_configDefault (this : VNPay) (config : ConfigDefault) : VNPay :=
  mkVNPay (globalConfig this)
          (or_current (cd_Version config) (vnp_Version this))
          (or_current (cd_Command config) (vnp_Command this))
          (or_current (cd_CurrCode config) (vnp_CurrCode this))
          (or_current (cd_Locale config) (vnp_Locale this))
          (or_current (cd_OrderType config) (vnp_OrderType this)).

(** [validateGlobalConfig()]: [Some e] is the returned [Error], [None] the
    returned [true]. *)
Definition validateGlobalConfig (this : VNPay) : option error :=
  if negb (truthy (field (secureSecret (globalConfig this)))) then
    Some (Error "Missing secure secret")
  else if negb (truthy (field (tmnCode (globalConfig this)))) then
    Some (Error "Missing merchant code")
  else if negb (truthy (field (paymentGateway (globalConfig this)))) then
    Some (Error "Missing payment gateway")
  else None.

(** The comparator of lines 158 and 212 *)
Definition by_key (e1 e2 : string * value) : comparison :=
  localeCompare (fst e1) (fst e2).

(** The [forEach] callback of lines 159-166 *)
Definition build_param (e : string * value) (redirectUrl : URL) : exec string URL :=
  let (key, value) := e in
  if negb (truthy value) || strict_eq value (VStr "")
     || strict_eq value VUndefined || strict_eq value VNull
  then ret redirectUrl
  else
    s <- toString_ value ;;
    ret (searchParams_append key s redirectUrl).

(** The body of the promise of [buildPaymentUrl], lines 133-175; [clock]
    is the value of [dateFormat(new Date(timeGMT7), 'yyyyMMddHHmmss')] at
    the time of the call. *)
Definition buildPaymentUrl_executor (clock : value) : exec string unit :=
  this <- get_this ;;
  match validateGlobalConfig this with
  | Some err => reject err ;; return_
  | None =>
      payload <- get_arg ;;
      (if negb (truthy (get "vnp_ReturnUrl" payload))
       then put_arg (set "vnp_ReturnUrl" (field (returnUrl (globalConfig this))) payload)
       else ret tt) ;;
      payload <- get_arg ;;
      let data := assign (assign [] (configDefault this)) payload in
      let data := set "vnp_CreateDate" clock data in
      let data := set "vnp_Amount" (mul (get "vnp_Amount" data) (VNum (NInt 100))) data in
      let data := set "vnp_TmnCode" (field (tmnCode (globalConfig this))) data in
      let dataValidate := BuildPaymentUrlDTO data in
      then_validated (validate dataValidate) ;;
      redirectUrl <- new_URL (String_ (field (paymentGateway (globalConfig this)))) ;;
      redirectUrl <- forEach (Array_sort by_key (entries data)) build_param redirectUrl ;;
      signed <- createHmac_digest (secureSecret (globalConfig this))
                                  (slice1 (URL_search redirectUrl)) ;;
      let redirectUrl := searchParams_append "vnp_SecureHash" signed redirectUrl in
      resolve (URL_toString redirectUrl) ;;
      return_
  end.

(** [buildPaymentUrl(payload)]: the state in which the call leaves the
    promise, the instance and the caller's [payload]. *)
Definition buildPaymentUrl (this : VNPay) (payload : obj) (clock : value) : state string :=
  new_Promise (buildPaymentUrl_executor clock) (mkState this payload None [] []).

(** [Record<VnpLocale, string>] *)
Record LocaleText : Type := mkText { vn : string; en : string }.

Definition at_locale (t : LocaleText) (l : VnpLocale) : string :=
  match l with VN => vn t | EN => en t end.

Definition responseMap : list (string * LocaleText) :=
  assign [] [
  ("00", mkText
     "Giao dịch thành công"
     "Approved");
  ("01", mkText
     "Giao dịch đã tồn tại"
     "Transaction is already exist");
  ("02", mkText
     "Merchant không hợp lệ (kiểm tra lại vnp_TmnCode)"
     "Invalid merchant (check vnp_TmnCode value)");
  ("03", mkText
     "Dữ liệu gửi sang không đúng định dạng"
     "Sent data is not in the right format");
  ("04", mkText
     "Khởi tạo GD không thành công do Website đang bị tạm khoá"
     "Payment website is not available");
  ("05", mkText
     "Giao dịch không thành công do: Quý khách nhập sai mật khẩu thanh toán quá số lần quy định. Xin quý khách vui lòng thực hiện lại giao dịch"
     "Transaction failed: Too many wrong password input");
  ("06", mkText
     "Giao dịch không thành công do Quý khách nhập sai mật khẩu xác thực giao dịch (OTP). Xin quý khách vui lòng thực hiện lại giao dịch."
     "Transaction failed: Wrong OTP input");
  ("07", mkText
     "Trừ tiền thành công. Giao dịch bị nghi ngờ (liên quan tới lừa đảo, giao dịch bất thường). Đối với giao dịch này cần merchant xác nhận thông qua merchant admin: Từ chối/Đồng ý giao dịch"
     "This transaction is suspicious");
  ("08", mkText
     "Giao dịch không thành công do: Hệ thống Ngân hàng đang bảo trì. Xin quý khách tạm thời không thực hiện giao dịch bằng thẻ/tài khoản của Ngân hàng này."
     "Transaction failed: The banking system is under maintenance. Please do not temporarily make transactions by card / account of this Bank.");
  ("09", mkText
     "Giao dịch không thành công do: Thẻ/Tài khoản của khách hàng chưa đăng ký dịch vụ InternetBanking tại ngân hàng."
     "Transaction failed: Cards / accounts of customer who has not yet registered for Internet Banking service.");
  ("10", mkText
     "Giao dịch không thành công do: Khách hàng xác thực thông tin thẻ/tài khoản không đúng quá 3 lần"
     "Transaction failed: Customer incorrectly validate the card / account information more than 3 times");
  ("11", mkText
     "Giao dịch không thành công do: Đã hết hạn chờ thanh toán. Xin quý khách vui lòng thực hiện lại giao dịch."
     "Transaction failed: Pending payment is expired. Please try again.");
  ("24", mkText
     "Giao dịch không thành công do: Khách hàng hủy giao dịch"
     "Transaction canceled");
  ("51", mkText
     "Giao dịch không thành công do: Tài khoản của quý khách không đủ số dư để thực hiện giao dịch."
     "Transaction failed: Your account is not enough balance to make the transaction.");
  ("65", mkText
     "Giao dịch không thành công do: Tài khoản của Quý khách đã vượt quá hạn mức giao dịch trong ngày."
     "Transaction failed: Your account has exceeded the daily limit.");
  ("75", mkText
     "Ngân hàng thanh toán đang bảo trì"
     "Banking system is under maintenance");
  ("default", mkText
     "Giao dịch thất bại"
     "Failure") ].

(** [static getResponseByStatusCode(responseCode, locale = VnpLocale.VN)];
    [None] would be the TypeError of indexing [undefined]. *)
Definition getResponseByStatusCode (responseCode : string) (locale : option VnpLocale)
  : option string :=
  let locale := match locale with Some l => l | None => VN end in
  let respondText :=
    match lookup responseCode responseMap with
    | Some t => Some t
    | None => lookup "default" responseMap
    end in
  match respondText with
  | Some t => Some (at_locale t locale)
  | None => None
  end.

(** The [forEach] callback of lines 213-220 *)
Definition verify_param (e : string * value) (urlReturn : URL) : exec obj URL :=
  let (key, value) := e in
  if negb (truthy value) || strict_eq value (VStr "")
     || strict_eq value VUndefined || strict_eq value VNull
  then ret urlReturn
  else
    s <- toString_ value ;;
    ret (searchParams_append key s urlReturn).

(** The body of the promise of [verifyReturnUrl], lines 189-243 *)
Definition verifyReturnUrl_executor : exec obj unit :=
  this <- get_this ;;
  match validateGlobalConfig this with
  | Some err => reject err ;; return_
  | None =>
      vnpayReturnQuery1 <- get_arg ;;
      let vnpayReturnQuery := ReturnQueryFromVNPayDTO vnpayReturnQuery1 in
      let secureHash := get "vnp_SecureHash" vnpayReturnQuery in
      let secretKey := secureSecret (globalConfig this) in
      let vnpayReturnQuery := delete "vnp_SecureHash" vnpayReturnQuery in
      let vnpayReturnQuery := delete "vnp_SecureHashType" vnpayReturnQuery in
      let isSuccess := strict_eq (get "vnp_ResponseCode" vnpayReturnQuery) (VStr "00") in
      code <- toString_ (get "vnp_ResponseCode" vnpayReturnQuery) ;;
      message <- match getResponseByStatusCode code (Some (vnp_Locale this)) with
                 | Some m => ret m
                 | None => throw (TypeError "Cannot read properties of undefined")
                 end ;;
      let outputResults := [("isSuccess", VBool isSuccess); ("message", VStr message)] in
      urlReturn <- new_URL (String_ (nullish (field (paymentGateway (globalConfig this)))
                                             (VStr PAYMENT_GATEWAY_SANDBOX))) ;;
      urlReturn <- forEach (Array_sort by_key (entries vnpayReturnQuery))
                           verify_param urlReturn ;;
      signed <- createHmac_digest secretKey (slice1 (URL_search urlReturn)) ;;
      let outputResults :=
        if strict_eq secureHash (VStr signed) then
          assign outputResults
            [("isSuccess",
              VBool (strict_eq (get "vnp_ResponseCode" vnpayReturnQuery) (VStr "00")))]
        else
          assign outputResults
            [("isSuccess", VBool false); ("message", VStr "Wrong checksum")] in
      let returnObject :=
        VerifyReturnUrlDTO (assign (assign [] vnpayReturnQuery) outputResults) in
      resolve returnObject
  end.

Definition verifyReturnUrl (this : VNPay) (vnpayReturnQuery1 : obj) : state obj :=
  new_Promise verifyReturnUrl_executor (mkState this vnpayReturnQuery1 None [] []).
End Methods.

(** *** Notions used to state what the methods do *)

Section Outcomes.
Context `{Platform} `{Imports}.

(** The parameters a property loop appends for a list of entries: the
    entries that are not left out, each with the text of its value. *)
Definition canonical (l : list (string * value)) : list (string * string) :=
  map (fun e => (fst e, String_ (snd e))) (filter (fun e => truthy (snd e)) l).

(** The caller's payload after lines 138-140 *)
Definition defaulted (this : VNPay) (payload : obj) : obj :=
  if negb (truthy (get "vnp_ReturnUrl" payload))
  then set "vnp_ReturnUrl" (field (returnUrl (globalConfig this))) payload
  else payload.

(** The merged field set [data] after lines 142-147 *)
Definition build_data (this : VNPay) (payload : obj) (clock : value) : obj :=
  let data := assign (assign [] (configDefault this)) (defaulted this payload) in
  let data := set "vnp_CreateDate" clock data in
  let data := set "vnp_Amount" (mul (get "vnp_Amount" data) (VNum (NInt 100))) data in
  set "vnp_TmnCode" (field (tmnCode (globalConfig this))) data.

(** The URL object after a property loop over [fields] *)
Definition with_params (u0 : URL) (fields : obj) : URL :=
  append_all (canonical (Array_sort by_key (entries fields))) u0.

(** The parameters the loop of [buildPaymentUrl] appends, lines 157-166 *)
Definition build_params (this : VNPay) (payload : obj) (clock : value)
  : list (string * string) :=
  canonical (Array_sort by_key (entries (build_data this payload clock))).

(** The text that is signed: [url.search.slice(1)] *)
Definition signed_text (u : URL) : string := slice1 (URL_search u).

(** [redirectUrl] when it is serialized at line 175 *)
Definition built_URL (this : VNPay) (payload : obj) (clock : value) : option URL :=
  match secureSecret (globalConfig this),
        URL_parse (String_ (field (paymentGateway (globalConfig this)))) with
  | Some k, Some u0 =>
      let u1 := with_params u0 (build_data this payload clock) in
      Some (searchParams_append "vnp_SecureHash"
              (Crypto.hmac_sha512_hex k (signed_text u1)) u1)
  | _, _ => None
  end.

Definition validated_events (errs : list ValidationError) : list (event string) :=
  EvValidated errs ::
  (if 0 <? Z.of_nat (List.length errs) then [EvReject (ValidationErrors errs)] else []).

(** The entry the table answers with: the one of the code, or else the
    one stored under ["default"]. *)
Definition catalog_entry (responseCode : string) : LocaleText :=
  match lookup responseCode responseMap with
  | Some t => t
  | None => mkText "Giao dịch thất bại" "Failure"
  end.

(** The working field set of [verifyReturnUrl] after lines 194-200 *)
Definition stripped (q : obj) : obj :=
  delete "vnp_SecureHashType" (delete "vnp_SecureHash" (ReturnQueryFromVNPayDTO q)).

(** [outputResults] after lines 227-236 *)
Definition output_results (this : VNPay) (q : obj) (code signed : string) : obj :=
  let first :=
    [ ("isSuccess", VBool (strict_eq (get "vnp_ResponseCode" (stripped q)) (VStr "00")));
      ("message", VStr (at_locale (catalog_entry code) (vnp_Locale this))) ] in
  if strict_eq (get "vnp_SecureHash" (ReturnQueryFromVNPayDTO q)) (VStr signed) then
    assign first
      [("isSuccess", VBool (strict_eq (get "vnp_ResponseCode" (stripped q)) (VStr "00")))]
  else
    assign first [("isSuccess", VBool false); ("message", VStr "Wrong checksum")].

(** The signature [verifyReturnUrl] recomputes for a query *)
Definition recomputed (k : string) (u0 : URL) (q : obj) : string :=
  Crypto.hmac_sha512_hex k (signed_text (with_params u0 (stripped q))).

(** The digests computed in the course of a call, oldest first *)
Definition digests {A : Type} (trace : list (event A)) : list (string * string * string) :=
  flat_map (fun e => match e with
                     | EvHmac k m d => [(k, m, d)]
                     | _ => []
                     end) trace.

(** A configuration field that fails the test [!field] *)
Definition missing (f : option string) : bool := negb (truthy (field f)).

(** Order of parameters by key *)
Definition key_le (a b : string * string) : Prop :=
  localeCompare (fst a) (fst b) <> Gt.

(** The entries of a query object read off a list of URL parameters *)
Definition as_fields (l : list (string * string)) : list (string * value) :=
  map (fun kv => (fst kv, VStr (snd kv))) l.

(** Two objects with the same properties, in whatever order *)
Definition same_fields (o o' : obj) : Prop := forall k, lookup k o = lookup k o'.

(** Two settlements of [verifyReturnUrl] that differ at most in the order
    of the fields of the result *)
Definition same_outcome (a b : option (settlement obj)) : Prop :=
  match a, b with
  | Some (Fulfilled r), Some (Fulfilled r') => same_fields r r'
  | Some (Rejected e), Some (Rejected e') => e = e'
  | None, None => True
  | _, _ => False
  end.

(** [localeCompare] tells the given keys apart *)
Definition distinguishes (keys : list string) : Prop :=
  forall a b, In a keys -> In b keys ->
              localeCompare a b <> Gt -> localeCompare b a <> Gt -> a = b.
End Outcomes.

End VNPay.

(* ================================================================== *)
(** ** A platform to run the methods on *)
(* ================================================================== *)

Module Demo.
Import JS VNPay.

(** Keys compared by their bytes. *)
Lemma ascii_compare_lt_trans (x y z : ascii) :
  Ascii.compare x y = Lt -> Ascii.compare y z = Lt -> Ascii.compare x z = Lt.
Proof.
  unfold Ascii.compare. rewrite !N.compare_lt_iff. intros; etransitivity; eauto.
Qed.

Lemma string_compare_total (a b : string) :
  String.compare a b = Gt -> String.compare b a <> Gt.
Proof.
  intros Hab. rewrite String.compare_antisym, Hab. discriminate.
Qed.

Lemma string_compare_trans (a b c : string) :
  String.compare a b <> Gt -> String.compare b c <> Gt -> String.compare a c <> Gt.
Proof.
  revert b c. induction a as [|x a IH]; intros [|y b] [|z c]; simpl;
    try congruence.
  destruct (Ascii.compare x y) eqn:Exy; [| |congruence].
  - apply Ascii.compare_eq_iff in Exy. subst y.
    destruct (Ascii.compare x z); [apply IH | congruence | congruence].
  - intros _. destruct (Ascii.compare y z) eqn:Eyz; [| |congruence].
    + apply Ascii.compare_eq_iff in Eyz. subst z. rewrite Exy. congruence.
    + intros _. rewrite (ascii_compare_lt_trans _ _ _ Exy Eyz). congruence.
Qed.

(** A parser for URLs that are already in serialized form and whose query,
    if there is one, is made of unreserved characters, [=] and [&]; on
    these it gives what the standard's parser gives. *)
Fixpoint split_at (c : ascii) (s : string) : string * option string :=
  match s with
  | EmptyString => (EmptyString, None)
  | String x t =>
      if Ascii.eqb x c then (EmptyString, Some t)
      else let (a, b) := split_at c t in (String x a, b)
  end.

Fixpoint pieces (c : ascii) (s : string) : list string :=
  match s with
  | EmptyString => [EmptyString]
  | String x t =>
      if Ascii.eqb x c then EmptyString :: pieces c t
      else match pieces c t with
           | p :: r => String x p :: r
           | [] => [String x EmptyString]
           end
  end.

Definition parse_query (q : string) : list (string * string) :=
  flat_map (fun p => if (p =? "")%string then []
                     else let (n, v) := split_at "=" p in
                          [(n, match v with Some v => v | None => "" end)])
           (pieces "&" q).

Definition parse_URL (s : string) : option URL :=
  if String.prefix "http://" s || String.prefix "https://" s then
    let (front, fragment) := split_at "#" s in
    let (base, query) := split_at "?" front in
    Some (mkURL base query fragment
                (match query with Some q => parse_query q | None => [] end))
  else None.

(** Decimal integer literals in the safe range; the examples multiply
    nothing else. *)
Definition parse_number (s : string) : number :=
  match NilEmpty.int_of_string s with
  | Some d => if safe_integer (Z.of_int d) then NInt (Z.of_int d) else NNaN
  | None => NNaN
  end.

(** Products of safe integers that leave the safe range, as IEEE 754
    binary64 arithmetic gives them: the exact product is rounded to the
    nearest number with a 53-bit significand, ties to the even one
    ([nearest_double], on magnitudes), and [Number.prototype.toString]
    prints the decimal with the fewest significant digits that reads back
    as that number, the closest one if there are several ([double_text]):
    all its digits up to 21 of them, in exponent form beyond. *)
Definition nearest_double (a : Z) : Z :=
  let e := Z.log2 a - 52 in
  if e <=? 0 then a
  else
    let q := Z.shiftr a e in
    let r := a - Z.shiftl q e in
    let half := Z.shiftl 1 (e - 1) in
    Z.shiftl (if (half <? r) || ((half =? r) && Z.odd q) then q + 1 else q) e.

Definition digits (a : Z) : Z := Z.of_nat (String.length (decimal a)).

(** The decimal with [k] significant digits that reads back as [a], if
    there is one: [a] cut after [k] digits, or the next one up. *)
Definition shortest_at (a k : Z) : option Z :=
  let unit := 10 ^ (digits a - k) in
  let lo := a / unit * unit in
  let hi := lo + unit in
  match nearest_double lo =? a, nearest_double hi =? a with
  | true, true =>
      if a - lo <? hi - a then Some lo
      else if hi - a <? a - lo then Some hi
      else Some (if Z.even (lo / unit) then lo else hi)
  | true, false => Some lo
  | false, true => Some hi
  | false, false => None
  end.

Fixpoint shortest_from (fuel : nat) (a k : Z) : Z :=
  match fuel with
  | O => a
  | S f => match shortest_at a k with
           | Some c => c
           | None => shortest_from f a (k + 1)
           end
  end.

Fixpoint strip_zeros (fuel : nat) (c : Z) : Z :=
  match fuel with
  | O => c
  | S f => if (c mod 10 =? 0) && negb (c =? 0) then strip_zeros f (c / 10) else c
  end.

Definition double_text (a : Z) : string :=
  let c := shortest_from 17 a 1 in
  let n := digits c in
  if n <=? 21 then decimal c
  else
    match decimal (strip_zeros 400 c) with
    | String d EmptyString => String d ("e+" ++ decimal (n - 1))
    | String d rest => String d ("." ++ rest ++ "e+" ++ decimal (n - 1))
    | EmptyString => EmptyString
    end%string.

(** [a * b] where [number_mul] leaves it to the engine; the examples
    multiply safe integers only. *)
Definition integer_product (a b : number) : number :=
  match a, b with
  | NInt x, NInt y =>
      if safe_integer x && safe_integer y then
        let d := nearest_double (Z.abs (x * y)) in
        if safe_integer d then NInt (Z.sgn (x * y) * d)
        else match double_text d with
             | String c s => if x * y <? 0 then NOther "-" (String c s) else NOther c s
             | EmptyString => NNaN
             end
      else NNaN
  | _, _ => NNaN
  end.

#[export] Instance platform : Platform :=
  {| localeCompare := String.compare
   ; localeCompare_total := string_compare_total
   ; localeCompare_trans := string_compare_trans
   ; URL_parse := parse_URL
   ; StringToNumber := parse_number
   ; float_mul := integer_product |}.

(** A schema in the place of the decorators of [BuildPaymentUrlDTO]: the
    amount is a positive integer, the reference, the order text and the
    address are non-empty strings. *)
Definition required_string (name : string) (o : obj) : list ValidationError :=
  match get name o with
  | VStr s => if (s =? "")%string then [mkValidationError name ["isNotEmpty"]] else []
  | _ => [mkValidationError name ["isString"]]
  end.

Definition positive_integer (name : string) (o : obj) : list ValidationError :=
  match get name o with
  | VNum (NInt z) => if 0 <? z then [] else [mkValidationError name ["min"]]
  | _ => [mkValidationError name ["isInt"]]
  end.

Definition check_payload (o : obj) : list ValidationError :=
  positive_integer "vnp_Amount" o ++ required_string "vnp_TxnRef" o
  ++ required_string "vnp_OrderInfo" o ++ required_string "vnp_IpAddr" o.

#[export] Instance imports : Imports :=
  {| VNP_VERSION := "2.1.0"
   ; VNP_DEFAULT_COMMAND := "pay"
   ; CURR_CODE_VND := "VND"
   ; PAYMENT_GATEWAY_SANDBOX := "https://sandbox.vnpayment.vn/paymentv2/vpcpay.html"
   ; VnpOrderType_OTHER := "other"
   ; validate := check_payload |}.

(** The instance and the payload of the example in the class comment. *)
Definition vnpay : VNPay :=
  new_VNPay (mkConfig (Some "https://sandbox.vnpayment.vn/paymentv2/vpcpay.html")
                      (Some "TMNCODE") (Some "SERCRET") None).

Definition payload : obj :=
  [ ("vnp_Amount", VNum (NInt 100000));
    ("vnp_IpAddr", VStr "192.168.0.1");
    ("vnp_ReturnUrl", VStr "http://localhost:8888/order/vnpay_return");
    ("vnp_TxnRef", VStr "12345678");
    ("vnp_OrderInfo", VStr "Thanh toan cho ma GD: 12345678") ].

Definition clock : value := VStr "20231104153000".

Definition gateway : string := "https://sandbox.vnpayment.vn/paymentv2/vpcpay.html".

(** [new URL(gateway)] *)
Definition gateway_URL : URL := mkURL gateway None None [].

(** The same payload with the response code among its fields *)
Definition paid_payload : obj := payload ++ [("vnp_ResponseCode", VStr "00")].


(** A payload whose amount is NaN *)
Definition nan_payload : obj := set "vnp_Amount" (VNum NNaN) payload.

(** A payload with an empty transaction reference *)
Definition unreferenced_payload : obj := set "vnp_TxnRef" (VStr "") payload.

(** A payload that leaves the return URL to the configuration *)
Definition bare_payload : obj := delete "vnp_ReturnUrl" payload.

(** Instances: without a merchant code, with a return URL of its own, and
    with a gateway URL that has a query. *)
Definition vnpay_without_tmnCode : VNPay :=
  new_VNPay (mkConfig (Some gateway) None (Some "SERCRET") None).

Definition vnpay_with_returnUrl : VNPay :=
  new_VNPay (mkConfig (Some gateway) (Some "TMNCODE") (Some "SERCRET")
                      (Some "http://localhost:8888/order/vnpay_return")).

Definition vnpay_with_query : VNPay :=
  new_VNPay (mkConfig (Some "https://sandbox.vnpayment.vn/paymentv2/vpcpay.html?zone=1")
                      (Some "TMNCODE") (Some "SERCRET") None).

(** Return queries: one with a response code and a signature that is not
    the recomputed one, the same without the response code, and the first
    with an empty bank code besides. *)
Definition tampered_query : obj :=
  [ ("vnp_Amount", VStr "10000000");
    ("vnp_ResponseCode", VStr "00");
    ("vnp_TxnRef", VStr "12345678");
    ("vnp_SecureHash", VStr "00") ].

Definition codeless_query : obj := delete "vnp_ResponseCode" tampered_query.

Definition query_with_empty_field : obj := set "vnp_BankCode" (VStr "") tampered_query.

(** Return queries that carry the digest of their other fields under the
    secret of [vnpay]: one with the response code "00", one with a response
    code that the table does not have. *)
Definition signed_query : obj :=
  [ ("vnp_Amount", VStr "10000000");
    ("vnp_ResponseCode", VStr "00");
    ("vnp_TxnRef", VStr "12345678");
    ("vnp_SecureHash", VStr "161f5d86b2ec11e8c5733e73a5bd58f77f01ba7d3cd15aa26ee4286f1d72da616e4534799a171301349c4e5ab8cfbed71317dd7ac43306b0ceb67b395e0e139c") ].

Definition unknown_code_query : obj :=
  [ ("vnp_Amount", VStr "10000000");
    ("vnp_ResponseCode", VStr "9999");
    ("vnp_TxnRef", VStr "12345678");
    ("vnp_SecureHash", VStr "6ab394c216c0c13191529852f2b785c8f8dd675c4d7a3fec091094a05464f3dbba37408e75e748c6ac1e773da106ad1ab8e2494b639a87d5fbad43d69d9d35aa") ].

(** Payloads: one that names a merchant code, a creation date and a locale
    of its own, one without an amount, one that carries the response code
    of a cancelled payment. *)
Definition foreign_payload : obj :=
  payload ++ [ ("vnp_TmnCode", VStr "OTHER");
               ("vnp_CreateDate", VStr "19700101000000");
               ("vnp_Locale", VStr "en") ].


Definition cancelled_payload : obj := payload ++ [("vnp_ResponseCode", VStr "24")].

(** An instance whose gateway lacks the scheme, and a configuration whose
    gateway is the empty string. *)
Definition vnpay_with_bad_gateway : VNPay :=
  new_VNPay (mkConfig (Some "sandbox.vnpayment.vn/paymentv2/vpcpay.html")
                      (Some "TMNCODE") (Some "SERCRET") None).

Definition config_with_empty_gateway : ConfigVnpayDTO :=
  mkConfig (Some "") (Some "TMNCODE") (Some "SERCRET") None.

(** Defaults that switch the locale to English *)
Definition english : ConfigDefault := mkConfigDefault None None None (Some EN) None.

End Demo.

(* ================================================================== *)
(** ** Facts about the platform model *)
(* ================================================================== *)

Module JSFacts.
Import JS.

(** *** Stable sorting with a consistent comparator *)

Section SortFacts.
Context {A : Type} (cmp : A -> A -> comparison).
Local Abbreviation le := (JS.le cmp).

Hypothesis cmp_total : forall a b, cmp a b = Gt -> le b a.
Hypothesis cmp_trans : forall a b c, le a b -> le b c -> le a c.

Lemma insert_perm x l : Permutation (insert cmp x l) (x :: l).
Proof.
  induction l as [|y t IH]; simpl; [reflexivity|].
  destruct (cmp x y); try reflexivity.
  rewrite IH. apply perm_swap.
Qed.

Lemma Array_sort_perm l : Permutation (Array_sort cmp l) l.
Proof.
  induction l as [|x t IH]; simpl; [constructor|].
  rewrite insert_perm. now constructor.
Qed.

Lemma Array_sort_In x l : In x (Array_sort cmp l) <-> In x l.
Proof.
  split; apply Permutation_in;
    [apply Array_sort_perm | symmetry; apply Array_sort_perm].
Qed.

Lemma insert_head x l : Forall (le x) l -> insert cmp x l = x :: l.
Proof.
  destruct l as [|y t]; simpl; [reflexivity|].
  intros F. inversion F as [|? ? Hxy _]; subst.
  unfold le in Hxy. destruct (cmp x y); congruence.
Qed.

Lemma insert_sorted x l :
  StronglySorted le l -> StronglySorted le (insert cmp x l).
Proof.
  induction 1 as [|y t St IH Fy]; simpl.
  - repeat constructor.
  - destruct (cmp x y) eqn:E.
    + constructor; [now constructor|].
      assert (Hxy : le x y) by (unfold le; congruence).
      constructor; [exact Hxy|].
      eapply Forall_impl; [|exact Fy]. intros z Hz. now apply cmp_trans with y.
    + constructor; [now constructor|].
      assert (Hxy : le x y) by (unfold le; congruence).
      constructor; [exact Hxy|].
      eapply Forall_impl; [|exact Fy]. intros z Hz. now apply cmp_trans with y.
    + constructor; [exact IH|].
      rewrite Forall_forall. intros z Hz.
      apply (Permutation_in _ (insert_perm x t)) in Hz.
      destruct Hz as [<-|Hz]; [now apply cmp_total|].
      rewrite Forall_forall in Fy. now apply Fy.
Qed.

Lemma Array_sort_sorted l : StronglySorted le (Array_sort cmp l).
Proof.
  induction l; simpl; [constructor | now apply insert_sorted].
Qed.

(** Sorting a list that is in order leaves it as it is. *)
Lemma Array_sort_id l : StronglySorted le l -> Array_sort cmp l = l.
Proof.
  induction 1 as [|x t St IH Fx]; simpl; [reflexivity|].
  rewrite IH. now apply insert_head.
Qed.

Lemma filter_insert_drop p x l :
  p x = false -> filter p (insert cmp x l) = filter p l.
Proof.
  intros Hx. induction l as [|y t IH]; simpl; [now rewrite Hx|].
  destruct (cmp x y); simpl; rewrite ?Hx, ?IH; reflexivity.
Qed.

Lemma filter_insert_keep p x l :
  StronglySorted le l -> p x = true ->
  filter p (insert cmp x l) = insert cmp x (filter p l).
Proof.
  intros St Hx. induction St as [|y t St IH Fy]; simpl; [now rewrite Hx|].
  destruct (cmp x y) eqn:E.
  1,2: simpl; rewrite Hx;
    assert (Hxy : le x y) by (unfold le; congruence);
    symmetry; apply insert_head;
    apply Forall_forall; intros z Hz;
    change (In z (filter p (y :: t))) in Hz;
    apply filter_In in Hz; destruct Hz as [[<-|Hz] _]; [exact Hxy|];
    rewrite Forall_forall in Fy; apply cmp_trans with y; auto.
  simpl. destruct (p y); simpl; rewrite ?E, IH; reflexivity.
Qed.

(** Dropping entries after sorting is sorting what is left. *)
Lemma filter_Array_sort p l :
  filter p (Array_sort cmp l) = Array_sort cmp (filter p l).
Proof.
  induction l as [|x t IH]; simpl; [reflexivity|].
  destruct (p x) eqn:Hx; simpl.
  - rewrite filter_insert_keep by (apply Array_sort_sorted || exact Hx).
    now rewrite IH.
  - rewrite filter_insert_drop by exact Hx. exact IH.
Qed.

Lemma StronglySorted_filter p l :
  StronglySorted le l -> StronglySorted le (filter p l).
Proof.
  induction 1 as [|x t St IH Fx]; simpl; [constructor|].
  destruct (p x); [|exact IH].
  constructor; [exact IH|].
  apply Forall_forall. intros z Hz. apply filter_In in Hz.
  rewrite Forall_forall in Fx. now apply Fx.
Qed.
End SortFacts.

(** *** Entry lists *)

Section EntryFacts.
Context {V : Type}.
Implicit Types (o t s : list (string * V)) (k : string) (v : V).

Lemma lookup_None k o : lookup k o = None <-> ~ In k (map fst o).
Proof.
  induction o as [|[k' v'] r IH]; simpl; [tauto|].
  destruct (String.eqb_spec k' k) as [->|Hne].
  - split; [discriminate | intros Hn; exfalso; apply Hn; now left].
  - rewrite IH. tauto.
Qed.

Lemma lookup_In k v o : lookup k o = Some v -> In (k, v) o.
Proof.
  induction o as [|[k' v'] r IH]; simpl; [discriminate|].
  destruct (String.eqb_spec k' k) as [->|Hne].
  - intros [= ->]. now left.
  - intros Hl. right. now apply IH.
Qed.

Lemma In_lookup k v o : NoDup (map fst o) -> In (k, v) o -> lookup k o = Some v.
Proof.
  induction o as [|[k' v'] r IH]; simpl; [tauto|].
  intros Hnd [Heq|Hin].
  - injection Heq as -> ->. now rewrite String.eqb_refl.
  - inversion Hnd as [|? ? Hnotin Hnd']; subst.
    destruct (String.eqb_spec k' k) as [->|Hne].
    + exfalso. apply Hnotin. now apply (in_map fst) in Hin.
    + now apply IH.
Qed.

Lemma lookup_set_eq k v o : lookup k (set k v o) = Some v.
Proof.
  induction o as [|[k' v'] r IH]; simpl.
  - now rewrite String.eqb_refl.
  - destruct (String.eqb_spec k' k) as [->|Hne]; simpl.
    + now rewrite String.eqb_refl.
    + destruct (String.eqb_spec k' k); [contradiction | exact IH].
Qed.

Lemma lookup_set_neq k k' v o : k <> k' -> lookup k (set k' v o) = lookup k o.
Proof.
  intros Hne. induction o as [|[k1 v1] r IH]; simpl.
  - destruct (String.eqb_spec k' k); [congruence | reflexivity].
  - destruct (String.eqb_spec k1 k') as [->|Hne1]; simpl.
    + destruct (String.eqb_spec k' k); [congruence | reflexivity].
    + destruct (String.eqb_spec k1 k); [reflexivity | exact IH].
Qed.

Lemma set_new k v o : ~ In k (map fst o) -> set k v o = o ++ [(k, v)].
Proof.
  induction o as [|[k' v'] r IH]; simpl; [reflexivity|].
  intros Hn. destruct (String.eqb_spec k' k) as [->|Hne]; [tauto|].
  rewrite IH; [reflexivity | tauto].
Qed.

Lemma keys_set k v o x :
  In x (map fst (set k v o)) <-> x = k \/ In x (map fst o).
Proof.
  induction o as [|[k' v'] r IH]; simpl.
  - intuition.
  - destruct (String.eqb_spec k' k) as [->|Hne]; simpl.
    + intuition.
    + rewrite IH. intuition.
Qed.

Lemma NoDup_set k v o : NoDup (map fst o) -> NoDup (map fst (set k v o)).
Proof.
  induction o as [|[k' v'] r IH]; simpl.
  - intros _. repeat constructor. tauto.
  - intros Hnd. inversion Hnd as [|? ? Hnotin Hnd']; subst.
    destruct (String.eqb_spec k' k) as [->|Hne]; simpl.
    + now constructor.
    + constructor; [|now apply IH].
      rewrite keys_set. intros [->|Hin]; tauto.
Qed.

Lemma keys_assign t s x :
  In x (map fst (assign t s)) <-> In x (map fst t) \/ In x (map fst s).
Proof.
  unfold assign. revert t.
  induction s as [|[k v] r IH]; intros t; simpl; [tauto|].
  rewrite IH, keys_set. intuition.
Qed.

Lemma NoDup_assign t s : NoDup (map fst t) -> NoDup (map fst (assign t s)).
Proof.
  unfold assign. revert t.
  induction s as [|[k v] r IH]; intros t Hnd; simpl; [exact Hnd|].
  apply IH. now apply NoDup_set.
Qed.

Lemma lookup_assign_other k t s :
  ~ In k (map fst s) -> lookup k (assign t s) = lookup k t.
Proof.
  unfold assign. revert t.
  induction s as [|[k' v] r IH]; intros t Hn; simpl in *; [reflexivity|].
  rewrite IH by tauto. apply lookup_set_neq. intros ->. tauto.
Qed.

Lemma lookup_assign k v t s :
  NoDup (map fst s) -> lookup k s = Some v -> lookup k (assign t s) = Some v.
Proof.
  unfold assign. revert t.
  induction s as [|[k' v'] r IH]; intros t Hnd Hl; simpl in *; [discriminate|].
  inversion Hnd as [|? ? Hnotin Hnd']; subst.
  destruct (String.eqb_spec k' k) as [->|Hne].
  - injection Hl as ->.
    change (lookup k (assign (set k v t) r) = Some v).
    rewrite lookup_assign_other by exact Hnotin. apply lookup_set_eq.
  - now apply IH.
Qed.

(** Entries with distinct keys, assigned to a fresh object, come out as
    they went in. *)
Lemma assign_app t s : NoDup (map fst (t ++ s)) -> assign t s = t ++ s.
Proof.
  unfold assign. revert t.
  induction s as [|[k v] r IH]; intros t Hnd; simpl.
  - now rewrite app_nil_r.
  - assert (Hk : ~ In k (map fst t)).
    { rewrite map_app in Hnd. simpl in Hnd.
      apply NoDup_remove_2 in Hnd. rewrite in_app_iff in Hnd. tauto. }
    rewrite (set_new _ _ _ Hk).
    rewrite IH; rewrite <- app_assoc; [reflexivity | exact Hnd].
Qed.

Lemma assign_fresh s : NoDup (map fst s) -> assign [] s = s.
Proof. intros Hnd. now apply (assign_app []). Qed.

Lemma delete_absent k o : ~ In k (map fst o) -> delete k o = o.
Proof.
  induction o as [|[k' v'] r IH]; simpl; [reflexivity|].
  intros Hn. destruct (String.eqb_spec k' k) as [->|Hne]; [tauto|].
  rewrite IH; [reflexivity | tauto].
Qed.

Lemma lookup_delete_neq k k' o : k <> k' -> lookup k (delete k' o) = lookup k o.
Proof.
  intros Hne. induction o as [|[k1 v1] r IH]; simpl; [reflexivity|].
  destruct (String.eqb_spec k1 k') as [->|Hne1]; simpl.
  - destruct (String.eqb_spec k' k); [congruence | exact IH].
  - destruct (String.eqb_spec k1 k); [reflexivity | exact IH].
Qed.

Lemma lookup_app_last k v o :
  ~ In k (map fst o) -> lookup k (o ++ [(k, v)]) = Some v.
Proof.
  induction o as [|[k' v'] r IH]; simpl.
  - now rewrite String.eqb_refl.
  - intros Hn. destruct (String.eqb_spec k' k) as [->|Hne]; [tauto|].
    apply IH. tauto.
Qed.

Lemma delete_app_last k v o :
  ~ In k (map fst o) -> delete k (o ++ [(k, v)]) = o.
Proof.
  induction o as [|[k' v'] r IH]; simpl.
  - now rewrite String.eqb_refl.
  - intros Hn. destruct (String.eqb_spec k' k) as [->|Hne]; [tauto|].
    rewrite IH; [reflexivity | tauto].
Qed.
End EntryFacts.

(** *** Strings *)

Lemma string_app_assoc (a b c : string) : ((a ++ b) ++ c = a ++ (b ++ c))%string.
Proof. induction a as [|x a IH]; simpl; [reflexivity | now rewrite IH]. Qed.

Lemma string_length_app (a b : string) :
  String.length (a ++ b) = (String.length a + String.length b)%nat.
Proof. induction a as [|x a IH]; simpl; [reflexivity | now rewrite IH]. Qed.

Lemma string_app_cons_nonempty (a b : string) (c : ascii) :
  (a ++ String c b)%string <> "".
Proof. destruct a; simpl; discriminate. Qed.

Lemma all_chars_app p a b :
  all_chars p (a ++ b) = all_chars p a && all_chars p b.
Proof.
  induction a as [|x a IH]; simpl; [reflexivity|].
  now rewrite IH, andb_assoc.
Qed.

(** *** Values *)

Lemma skip_condition v :
  negb (truthy v) || strict_eq v (VStr "") || strict_eq v VUndefined
  || strict_eq v VNull = empty_value v.
Proof.
  destruct v as [| |[|]|[z| |c s]|s]; simpl; try reflexivity.
  - now rewrite negb_involutive, !orb_false_r.
  - rewrite negb_involutive. now destruct (s =? "")%string.
Qed.

Lemma empty_value_truthy v : empty_value v = negb (truthy v).
Proof.
  destruct v as [| |[|]|[z| |c s]|s]; simpl; try reflexivity;
    now rewrite negb_involutive.
Qed.

Lemma decimal_nonempty z : decimal z <> "".
Proof.
  unfold decimal.
  assert (Hu : forall p, NilEmpty.string_of_uint (Pos.to_uint p) <> "").
  { intros p. generalize (Unsigned.to_uint_nonnil p).
    destruct (Pos.to_uint p); simpl; congruence. }
  destruct z as [|p|p]; simpl; [discriminate | apply Hu | discriminate].
Qed.

Lemma toString_truthy v : truthy v = true -> toString v = Some (String_ v).
Proof. destruct v as [| |[|]|n|s]; simpl; congruence. Qed.

(** The text of a value that is not left out is never empty, so it is not
    left out when it comes back as a string. *)
Lemma String_truthy v : truthy v = true -> truthy (VStr (String_ v)) = true.
Proof.
  destruct v as [| |[|]|[z| |c s]|s]; simpl; try congruence; intros _.
  destruct (String.eqb_spec (decimal z) ""); [|reflexivity].
  now destruct (decimal_nonempty z).
Qed.

(** *** [URLSearchParams] *)

Lemma urlencoded_pair_nonempty kv : urlencoded_pair kv <> "".
Proof. unfold urlencoded_pair. apply string_app_cons_nonempty. Qed.

Lemma urlencoded_serialize_nonempty l : l <> [] -> urlencoded_serialize l <> "".
Proof.
  destruct l as [|kv [|kv' t]]; [congruence | |]; intros _.
  - apply urlencoded_pair_nonempty.
  - change (urlencoded_pair kv ++ String "&" (urlencoded_serialize (kv' :: t)) <> "")%string.
    apply string_app_cons_nonempty.
Qed.

Lemma urlencoded_serialize_snoc l kv :
  l <> [] ->
  urlencoded_serialize (l ++ [kv]) =
  (urlencoded_serialize l ++ "&" ++ urlencoded_pair kv)%string.
Proof.
  induction l as [|x [|y t] IH]; [congruence | reflexivity |].
  intros _.
  change (urlencoded_serialize ((x :: y :: t) ++ [kv]))
    with (urlencoded_pair x ++ "&" ++ urlencoded_serialize ((y :: t) ++ [kv]))%string.
  rewrite IH by discriminate.
  change (urlencoded_serialize (x :: y :: t))
    with (urlencoded_pair x ++ "&" ++ urlencoded_serialize (y :: t))%string.
  now rewrite !string_app_assoc.
Qed.

Lemma searchParams_append_query k v u :
  url_query (searchParams_append k v u) =
  Some (urlencoded_serialize (url_searchParams u ++ [(k, v)])).
Proof.
  unfold searchParams_append; simpl.
  destruct (String.eqb_spec (urlencoded_serialize (url_searchParams u ++ [(k, v)])) "")
    as [E|_]; [|reflexivity].
  apply urlencoded_serialize_nonempty in E; [contradiction|].
  destruct (url_searchParams u); discriminate.
Qed.

Lemma append_all_params l u :
  url_searchParams (append_all l u) = url_searchParams u ++ l.
Proof.
  unfold append_all. revert u.
  induction l as [|[k v] t IH]; intros u; simpl; [now rewrite app_nil_r|].
  rewrite IH. simpl. now rewrite <- app_assoc.
Qed.

Lemma append_all_base l u : url_base (append_all l u) = url_base u.
Proof.
  unfold append_all. revert u.
  induction l as [|kv t IH]; intros u; simpl; [reflexivity | now rewrite IH].
Qed.

Lemma append_all_fragment l u : url_fragment (append_all l u) = url_fragment u.
Proof.
  unfold append_all. revert u.
  induction l as [|kv t IH]; intros u; simpl; [reflexivity | now rewrite IH].
Qed.

Lemma append_all_snoc l kv u :
  append_all (l ++ [kv]) u = searchParams_append (fst kv) (snd kv) (append_all l u).
Proof. unfold append_all. now rewrite fold_left_app. Qed.

Lemma append_all_query l u :
  l <> [] ->
  url_query (append_all l u) = Some (urlencoded_serialize (url_searchParams u ++ l)).
Proof.
  intros Hl. destruct (exists_last Hl) as [l' [kv ->]].
  rewrite append_all_snoc, searchParams_append_query, append_all_params.
  destruct kv. now rewrite app_assoc.
Qed.

Lemma search_slice u q :
  url_query u = Some q -> q <> "" -> slice1 (URL_search u) = q.
Proof.
  unfold URL_search. intros -> Hq.
  destruct (String.eqb_spec q ""); [contradiction | reflexivity].
Qed.

(** Lowercase hexadecimal digits pass through the serializer unchanged. *)
Lemma lower_hex_unreserved c : lower_hex c = true -> unreserved c = true.
Proof.
  unfold lower_hex, unreserved. cbv zeta.
  set (n := Z.of_N (N_of_ascii c)).
  rewrite !orb_true_iff, !andb_true_iff, !Z.leb_le, !Z.eqb_eq. lia.
Qed.

Lemma urlencoded_lower_hex s :
  all_chars lower_hex s = true -> urlencoded_string s = s.
Proof.
  induction s as [|c t IH]; simpl; [reflexivity|].
  rewrite andb_true_iff. intros [Hc Ht].
  unfold urlencoded_byte. rewrite (lower_hex_unreserved _ Hc). simpl.
  now rewrite IH.
Qed.

End JSFacts.

Module CryptoFacts.
Import Crypto JS JSFacts.

(** The digest of abc (FIPS 180-4) and test case 2 of RFC 4231 *)
Example sha512_abc :
  hex_of_hash (sha512 (bytes_of_string "abc")) =
  "ddaf35a193617abacc417349ae20413112e6fa4e89a97ea20a9eeee64b55d39a2192992a274fc1a836ba3c23a3feebbd454d4423643ce80e2a9ac94fa54ca49f".
Proof. vm_compute. reflexivity. Qed.

Example hmac_rfc4231_case2 :
  hmac_sha512_hex "Jefe" "what do ya want for nothing?" =
  "164b7a7bfcf819e2e395fbe73b56e0a387bd64222e831fd610270cd7ea2505549758bf75c05a994a6d034f65f8f0e6fdcaeab1a34d4a6b4b636e070a38bce737".
Proof. vm_compute. reflexivity. Qed.

Lemma hex_digit_lower n : 0 <= n < 16 -> lower_hex (hex_digit n) = true.
Proof.
  intros Hn. rewrite <- (Z2Nat.id n) by lia.
  assert (Hm : (Z.to_nat n < 16)%nat) by lia.
  generalize dependent (Z.to_nat n). intros m Hm.
  do 16 (destruct m as [|m]; [reflexivity|]). lia.
Qed.

Lemma hex_nibbles_length n x : String.length (hex_nibbles n x) = n.
Proof. induction n; simpl; [reflexivity | now rewrite IHn]. Qed.

Lemma hex_nibbles_lower n x : all_chars lower_hex (hex_nibbles n x) = true.
Proof.
  induction n; simpl; [reflexivity|].
  rewrite IHn, andb_true_r. apply hex_digit_lower.
  apply Z.mod_pos_bound. lia.
Qed.

(** The digest text has 128 characters, all of them lowercase hexadecimal
    digits. *)
Lemma hmac_sha512_hex_length key msg :
  String.length (hmac_sha512_hex key msg) = 128%nat.
Proof.
  unfold hmac_sha512_hex, hex_of_hash, hash_words.
  cbn [fold_right]. rewrite !string_length_app, !hex_nibbles_length. reflexivity.
Qed.

Lemma hmac_sha512_hex_lower key msg :
  all_chars lower_hex (hmac_sha512_hex key msg) = true.
Proof.
  unfold hmac_sha512_hex, hex_of_hash, hash_words.
  cbn [fold_right]. rewrite !all_chars_app, !hex_nibbles_lower. reflexivity.
Qed.

End CryptoFacts.

(* ================================================================== *)
(** ** What the two methods compute *)
(* ================================================================== *)

Module Runs.
Import JS VNPay JSFacts.

(** One step of a promise body: the monad operations are unfolded, the
    calls into the platform are left as they are. *)
Ltac exec_step :=
  cbv beta iota zeta delta
    [bind ret return_ throw get_this get_arg put_arg resolve reject
     then_validated log settle st_this st_arg st_promise st_jobs st_trace
     fold_left app].

Section Runs.
Context `{Platform} `{Imports}.

Lemma build_param_run e u s :
  build_param e u s =
  (Normal (if empty_value (snd e) then u
           else searchParams_append (fst e) (String_ (snd e)) u), s).
Proof.
  destruct e as [k v]. unfold build_param.
  rewrite skip_condition. simpl fst; simpl snd.
  destruct (empty_value v) eqn:E; [reflexivity|].
  rewrite empty_value_truthy in E. apply negb_false_iff in E.
  unfold bind, toString_. now rewrite (toString_truthy _ E).
Qed.

Lemma verify_param_run e u s :
  verify_param e u s =
  (Normal (if empty_value (snd e) then u
           else searchParams_append (fst e) (String_ (snd e)) u), s).
Proof.
  destruct e as [k v]. unfold verify_param.
  rewrite skip_condition. simpl fst; simpl snd.
  destruct (empty_value v) eqn:E; [reflexivity|].
  rewrite empty_value_truthy in E. apply negb_false_iff in E.
  unfold bind, toString_. now rewrite (toString_truthy _ E).
Qed.

Lemma forEach_build_param l u s :
  forEach l build_param u s = (Normal (append_all (canonical l) u), s).
Proof.
  revert u. induction l as [|e t IH]; intros u; [reflexivity|].
  cbn [forEach]. unfold bind at 1. rewrite build_param_run, IH.
  unfold canonical. cbn [filter]. rewrite empty_value_truthy.
  destruct (truthy (snd e)); reflexivity.
Qed.

Lemma forEach_verify_param l u s :
  forEach l verify_param u s = (Normal (append_all (canonical l) u), s).
Proof.
  revert u. induction l as [|e t IH]; intros u; [reflexivity|].
  cbn [forEach]. unfold bind at 1. rewrite verify_param_run, IH.
  unfold canonical. cbn [filter]. rewrite empty_value_truthy.
  destruct (truthy (snd e)); reflexivity.
Qed.

(** A configuration that passes [validateGlobalConfig] has its three
    fields, none of them empty. *)
Lemma validateGlobalConfig_None this :
  validateGlobalConfig this = None ->
  exists k t g,
    secureSecret (globalConfig this) = Some k /\ k <> "" /\
    tmnCode (globalConfig this) = Some t /\ t <> "" /\
    paymentGateway (globalConfig this) = Some g /\ g <> "".
Proof.
  unfold validateGlobalConfig.
  destruct (secureSecret (globalConfig this)) as [k|]; simpl; [|discriminate].
  destruct (String.eqb_spec k ""); simpl; [discriminate|].
  destruct (tmnCode (globalConfig this)) as [t|]; simpl; [|discriminate].
  destruct (String.eqb_spec t ""); simpl; [discriminate|].
  destruct (paymentGateway (globalConfig this)) as [g|]; simpl; [|discriminate].
  destruct (String.eqb_spec g ""); simpl; [discriminate|].
  intros _. exists k, t, g. repeat split; assumption.
Qed.

(** A run of [buildPaymentUrl] on a configuration that passes the check
    and a gateway that parses. *)
Lemma buildPaymentUrl_run this payload clock k g u0 :
  validateGlobalConfig this = None ->
  secureSecret (globalConfig this) = Some k ->
  paymentGateway (globalConfig this) = Some g ->
  URL_parse g = Some u0 ->
  let data := build_data this payload clock in
  let u1 := with_params u0 data in
  let signed := Crypto.hmac_sha512_hex k (signed_text u1) in
  let url := URL_toString (searchParams_append "vnp_SecureHash" signed u1) in
  buildPaymentUrl this payload clock =
  mkState this (defaulted this payload) (Some (Fulfilled url)) []
          ([EvHmac k (signed_text u1) signed; EvResolve url]
           ++ validated_events (validate (BuildPaymentUrlDTO data))).
Proof.
  intros Hv Hk Hg Hu data u1 signed url.
  subst data u1 signed url.
  unfold build_data, with_params, signed_text, defaulted, validated_events.
  unfold buildPaymentUrl, new_Promise, buildPaymentUrl_executor.
  exec_step. rewrite Hv.
  destruct (negb (truthy (get "vnp_ReturnUrl" payload)));
    exec_step; unfold new_URL; rewrite Hg; cbn [field String_]; rewrite Hu;
    exec_step; rewrite forEach_build_param;
    unfold createHmac_digest; rewrite Hk;
    exec_step; unfold run_job, validated_callback;
    destruct (0 <? Z.of_nat (List.length _)); reflexivity.
Qed.

Lemma built_URL_run this payload clock k g u0 :
  secureSecret (globalConfig this) = Some k ->
  paymentGateway (globalConfig this) = Some g ->
  URL_parse g = Some u0 ->
  let u1 := with_params u0 (build_data this payload clock) in
  built_URL this payload clock =
  Some (searchParams_append "vnp_SecureHash"
          (Crypto.hmac_sha512_hex k (signed_text u1)) u1).
Proof.
  intros Hk Hg Hu. unfold built_URL.
  rewrite Hk, Hg. cbn [field String_]. now rewrite Hu.
Qed.

(** A configuration that fails the check: the promise is rejected with
    the error of the check and nothing else happens. *)
Lemma buildPaymentUrl_config_error this payload clock e :
  validateGlobalConfig this = Some e ->
  buildPaymentUrl this payload clock =
  mkState this payload (Some (Rejected e)) [] [EvReject e].
Proof.
  intros Hv. unfold buildPaymentUrl, new_Promise, buildPaymentUrl_executor.
  exec_step. now rewrite Hv.
Qed.

Lemma verifyReturnUrl_config_error this q e :
  validateGlobalConfig this = Some e ->
  verifyReturnUrl this q = mkState this q (Some (Rejected e)) [] [EvReject e].
Proof.
  intros Hv. unfold verifyReturnUrl, new_Promise, verifyReturnUrl_executor.
  exec_step. now rewrite Hv.
Qed.

Lemma getResponseByStatusCode_entry responseCode l :
  getResponseByStatusCode responseCode (Some l) =
  Some (at_locale (catalog_entry responseCode) l).
Proof.
  unfold getResponseByStatusCode, catalog_entry.
  destruct (lookup responseCode responseMap); reflexivity.
Qed.

(** A run of [verifyReturnUrl] that gets past the response code. *)
Lemma verifyReturnUrl_run this q k g u0 code :
  validateGlobalConfig this = None ->
  secureSecret (globalConfig this) = Some k ->
  paymentGateway (globalConfig this) = Some g ->
  URL_parse g = Some u0 ->
  toString (get "vnp_ResponseCode" (stripped q)) = Some code ->
  let signed := recomputed k u0 q in
  let result :=
    VerifyReturnUrlDTO (assign (assign [] (stripped q)) (output_results this q code signed)) in
  verifyReturnUrl this q =
  mkState this q (Some (Fulfilled result)) []
          [EvHmac k (signed_text (with_params u0 (stripped q))) signed; EvResolve result].
Proof.
  intros Hv Hk Hg Hu Hc signed result. subst signed result.
  unfold recomputed, output_results, with_params, signed_text.
  unfold verifyReturnUrl, new_Promise, verifyReturnUrl_executor.
  exec_step. rewrite Hv. exec_step.
  fold (stripped q). unfold toString_. rewrite Hc. exec_step.
  rewrite getResponseByStatusCode_entry. exec_step.
  unfold new_URL. rewrite Hg. cbn [field nullish String_]. rewrite Hu. exec_step.
  rewrite forEach_verify_param. unfold createHmac_digest. rewrite Hk.
  exec_step. reflexivity.
Qed.

(** A run of [verifyReturnUrl] on a query without a response code: the
    [toString()] call of line 205 throws. *)
Lemma verifyReturnUrl_no_code this q :
  validateGlobalConfig this = None ->
  toString (get "vnp_ResponseCode" (stripped q)) = None ->
  verifyReturnUrl this q =
  mkState this q
          (Some (Rejected (TypeError "Cannot read properties of undefined"))) [] [].
Proof.
  intros Hv Hc.
  unfold verifyReturnUrl, new_Promise, verifyReturnUrl_executor.
  exec_step. rewrite Hv. exec_step.
  fold (stripped q). unfold toString_. rewrite Hc. reflexivity.
Qed.
(** A gateway that does not parse: [new URL] throws in either method. *)
Lemma buildPaymentUrl_bad_gateway this payload clock g :
  validateGlobalConfig this = None ->
  paymentGateway (globalConfig this) = Some g ->
  URL_parse g = None ->
  buildPaymentUrl this payload clock =
  mkState this (defaulted this payload) (Some (Rejected (TypeError "Invalid URL"))) []
          (validated_events (validate (BuildPaymentUrlDTO (build_data this payload clock)))).
Proof.
  intros Hv Hg Hu.
  unfold build_data, defaulted, validated_events.
  unfold buildPaymentUrl, new_Promise, buildPaymentUrl_executor.
  exec_step. rewrite Hv.
  destruct (negb (truthy (get "vnp_ReturnUrl" payload)));
    exec_step; unfold new_URL; rewrite Hg; cbn [field String_]; rewrite Hu;
    exec_step; unfold run_job, validated_callback;
    destruct (0 <? Z.of_nat (List.length _)); reflexivity.
Qed.

Lemma verifyReturnUrl_bad_gateway this q g code :
  validateGlobalConfig this = None ->
  paymentGateway (globalConfig this) = Some g ->
  URL_parse g = None ->
  toString (get "vnp_ResponseCode" (stripped q)) = Some code ->
  verifyReturnUrl this q =
  mkState this q (Some (Rejected (TypeError "Invalid URL"))) [] [].
Proof.
  intros Hv Hg Hu Hc.
  unfold verifyReturnUrl, new_Promise, verifyReturnUrl_executor.
  exec_step. rewrite Hv. exec_step.
  fold (stripped q). unfold toString_. rewrite Hc. exec_step.
  rewrite getResponseByStatusCode_entry. exec_step.
  unfold new_URL. rewrite Hg. cbn [field nullish String_]. rewrite Hu. reflexivity.
Qed.

(** *** The property loop as sorting, filtering and mapping *)

Lemma by_key_total a b : by_key a b = Gt -> le by_key b a.
Proof. unfold le, by_key. apply localeCompare_total. Qed.

Lemma by_key_trans a b c : le by_key a b -> le by_key b c -> le by_key a c.
Proof. unfold le, by_key. apply localeCompare_trans. Qed.

Lemma unique_keys_NoDup {V : Type} (o : list (string * V)) :
  unique_keys o = true -> NoDup (map fst o).
Proof.
  induction o as [|[k v] t IH]; simpl; [constructor|].
  destruct (lookup k t) eqn:E; [discriminate|].
  intros Hu. constructor; [now apply lookup_None | now apply IH].
Qed.

(** Leaving entries out keeps the keys distinct. *)
Lemma filter_keeps_keys_distinct {V : Type} (keep : string * V -> bool)
      (o : list (string * V)) :
  NoDup (map fst o) -> NoDup (map fst (filter keep o)).
Proof.
  induction o as [|[k v] t IH]; cbn [filter map fst]; [constructor|].
  intros Hnd. apply NoDup_cons_iff in Hnd. destruct Hnd as [Hk Ht].
  destruct (keep (k, v)); [|now apply IH].
  cbn [map fst]. apply NoDup_cons; [|now apply IH].
  intros Hin. apply Hk. apply in_map_iff in Hin. destruct Hin as (e & He & Hin).
  apply filter_In in Hin. apply in_map_iff. exists e. tauto.
Qed.

Lemma canonical_keys l :
  map fst (canonical l) = map fst (filter (fun e => truthy (snd e)) l).
Proof. unfold canonical. rewrite map_map. reflexivity. Qed.

Lemma canonical_NoDup fields :
  NoDup (map fst fields) -> NoDup (map fst (canonical (Array_sort by_key fields))).
Proof.
  intros Hnd. rewrite canonical_keys. apply filter_keeps_keys_distinct.
  eapply Permutation_NoDup; [|exact Hnd].
  apply Permutation_map. symmetry. apply Array_sort_perm.
Qed.

Lemma canonical_In k v fields :
  In (k, v) fields -> truthy v = true ->
  In (k, String_ v) (canonical (Array_sort by_key fields)).
Proof.
  intros Hin Ht. unfold canonical.
  apply in_map_iff. exists (k, v). split; [reflexivity|].
  apply filter_In. split; [now apply Array_sort_In | exact Ht].
Qed.

Lemma canonical_In_inv k s fields :
  In (k, s) (canonical (Array_sort by_key fields)) ->
  exists v, In (k, v) fields /\ truthy v = true /\ s = String_ v.
Proof.
  unfold canonical. intros Hin.
  apply in_map_iff in Hin. destruct Hin as ([k' v] & Heq & Hin).
  cbn in Heq. injection Heq as Hk Hs. subst k s.
  apply filter_In in Hin. destruct Hin as [Hin Ht].
  apply Array_sort_In in Hin. now exists v.
Qed.

Lemma StronglySorted_map {A B : Type} (R : A -> A -> Prop) (S : B -> B -> Prop)
      (f : A -> B) (l : list A) :
  (forall x y, R x y -> S (f x) (f y)) ->
  StronglySorted R l -> StronglySorted S (map f l).
Proof.
  intros HRS. induction 1 as [|x t St IH Fx]; simpl; constructor; [exact IH|].
  apply Forall_forall. intros y Hy. apply in_map_iff in Hy.
  destruct Hy as (z & <- & Hz). rewrite Forall_forall in Fx. auto.
Qed.

(** What the loop appends is in key order. *)
Lemma canonical_sorted fields :
  StronglySorted key_le (canonical (Array_sort by_key fields)).
Proof.
  unfold canonical.
  apply StronglySorted_map with (R := le by_key); [intros x y Hxy; exact Hxy|].
  apply StronglySorted_filter.
  apply Array_sort_sorted; [apply by_key_total | apply by_key_trans].
Qed.

(** Parameters in key order with non-empty values, read back as the fields
    of a query, are appended again as they are. *)
Lemma canonical_as_fields P :
  StronglySorted key_le P ->
  (forall kv, In kv P -> truthy (VStr (snd kv)) = true) ->
  canonical (Array_sort by_key (as_fields P)) = P.
Proof.
  intros Hs Ht.
  rewrite Array_sort_id.
  - unfold canonical, as_fields. clear Hs.
    induction P as [|[k v] t IH]; [reflexivity|].
    cbn [map filter snd fst].
    pose proof (Ht (k, v) (or_introl eq_refl)) as Hkv. cbn [snd] in Hkv.
    rewrite Hkv. cbn [map fst snd String_].
    f_equal. apply IH. intros kv Hin. apply Ht. now right.
  - unfold as_fields.
    apply StronglySorted_map with (R := key_le); [intros x y Hxy; exact Hxy | exact Hs].
Qed.

(** *** The merged field set *)

Lemma lookup_assign_full {V : Type} (k : string) (t s : list (string * V)) :
  NoDup (map fst s) ->
  lookup k (assign t s) = match lookup k s with
                          | Some v => Some v
                          | None => lookup k t
                          end.
Proof.
  intros Hnd. destruct (lookup k s) as [v|] eqn:E.
  - now apply lookup_assign.
  - apply lookup_assign_other. now apply lookup_None.
Qed.

Lemma configDefault_NoDup this : NoDup (map fst (configDefault this)).
Proof. repeat constructor; cbn; intuition discriminate. Qed.

Lemma defaulted_NoDup this payload :
  NoDup (map fst payload) -> NoDup (map fst (defaulted this payload)).
Proof.
  intros Hnd. unfold defaulted.
  destruct (negb (truthy (get "vnp_ReturnUrl" payload))); [now apply NoDup_set | exact Hnd].
Qed.

Lemma defaulted_lookup this payload k :
  k <> "vnp_ReturnUrl" -> lookup k (defaulted this payload) = lookup k payload.
Proof.
  intros Hk. unfold defaulted.
  destruct (negb (truthy (get "vnp_ReturnUrl" payload))); [|reflexivity].
  now apply lookup_set_neq.
Qed.

Lemma defaulted_keys this payload k :
  In k (map fst (defaulted this payload)) -> k = "vnp_ReturnUrl" \/ In k (map fst payload).
Proof.
  unfold defaulted.
  destruct (negb (truthy (get "vnp_ReturnUrl" payload))); [|tauto].
  now rewrite keys_set.
Qed.

Lemma build_data_NoDup this payload clock :
  NoDup (map fst (build_data this payload clock)).
Proof.
  unfold build_data. repeat apply NoDup_set. repeat apply NoDup_assign. constructor.
Qed.

(** A payload field that the method does not compute itself reaches the
    merged field set. *)
Lemma build_data_lookup this payload clock k v :
  NoDup (map fst payload) ->
  lookup k payload = Some v ->
  k <> "vnp_ReturnUrl" -> k <> "vnp_CreateDate" -> k <> "vnp_Amount" -> k <> "vnp_TmnCode" ->
  lookup k (build_data this payload clock) = Some v.
Proof.
  intros Hnd Hl H1 H2 H3 H4. unfold build_data.
  rewrite !lookup_set_neq by assumption.
  rewrite lookup_assign_full by now apply defaulted_NoDup.
  now rewrite defaulted_lookup, Hl.
Qed.

(** The keys of the merged field set: the five defaults, the four computed
    fields, and the keys of the payload. *)
Lemma build_data_keys this payload clock k :
  In k (map fst (build_data this payload clock)) ->
  In k ["vnp_TmnCode"; "vnp_Amount"; "vnp_CreateDate"; "vnp_ReturnUrl";
        "vnp_Version"; "vnp_Command"; "vnp_CurrCode"; "vnp_Locale"; "vnp_OrderType"]
  \/ In k (map fst payload).
Proof.
  unfold build_data. rewrite !keys_set, !keys_assign.
  intros [->|[->|[->|[[[]|Hd]|Hp]]]].
  1-3: cbn; auto 12.
  - cbn in Hd. cbn. intuition.
  - apply defaulted_keys in Hp. cbn. intuition.
Qed.


Lemma build_data_tmnCode this payload clock :
  lookup "vnp_TmnCode" (build_data this payload clock) =
  Some (field (tmnCode (globalConfig this))).
Proof. unfold build_data. apply lookup_set_eq. Qed.

(** Deleting the two signature fields does not touch the response code. *)
Lemma stripped_response_code q :
  get "vnp_ResponseCode" (stripped q) = get "vnp_ResponseCode" q.
Proof.
  unfold stripped, ReturnQueryFromVNPayDTO, get.
  now rewrite !lookup_delete_neq by discriminate.
Qed.

Lemma strict_eq_VStr a s : strict_eq a (VStr s) = true <-> a = VStr s.
Proof.
  destruct a; simpl; try (split; [discriminate | congruence]).
  rewrite String.eqb_eq. split; congruence.
Qed.
End Runs.

End Runs.

(* ================================================================== *)
(** ** Properties of the class *)
(* ================================================================== *)

Module Properties.
Import JS VNPay JSFacts CryptoFacts Runs.

Section General.
Context `{Platform} `{Imports}.

(** C7. [getResponseByStatusCode] answers with the table entry stored under
    exactly the given code and, for a code that is no key of the table, with
    the entry stored under ["default"], each read at the requested locale
    (Vietnamese when none is given); for ["00"] this is "Giao dịch thành
    công" in Vietnamese and "Approved" in English, and the unknown code
    ["999"] gives "Failure" in English. *)
Theorem getResponseByStatusCode_catalog (responseCode : string) (l : VnpLocale) :
  (forall t, In (responseCode, t) responseMap ->
             getResponseByStatusCode responseCode (Some l) = Some (at_locale t l)) /\
  (~ In responseCode (map fst responseMap) ->
   exists t, lookup "default" responseMap = Some t /\
             getResponseByStatusCode responseCode (Some l) = Some (at_locale t l)) /\
  getResponseByStatusCode responseCode None = getResponseByStatusCode responseCode (Some VN) /\
  getResponseByStatusCode "00" (Some VN) = Some "Giao dịch thành công" /\
  getResponseByStatusCode "00" (Some EN) = Some "Approved" /\
  getResponseByStatusCode "999" (Some EN) = Some "Failure".
Proof.
  assert (Hnd : NoDup (map fst responseMap)).
  { apply NoDup_assign. constructor. }
  repeat split; try reflexivity.
  - intros t Hin. apply (In_lookup _ _ _ Hnd) in Hin.
    unfold getResponseByStatusCode. now rewrite Hin.
  - intros Hn. apply lookup_None in Hn.
    eexists. split; [reflexivity|].
    unfold getResponseByStatusCode. now rewrite Hn.
Qed.

(** C5. When the secret, the merchant code or the gateway URL of the
    configuration is missing, [buildPaymentUrl] rejects with the error that
    names the first missing one, looking at the secret, then the merchant
    code, then the gateway URL; no digest has been computed, [resolve] has
    not been called and the payload is as it was. *)
Theorem buildPaymentUrl_missing_config (this : VNPay) (payload : obj) (clock : value) :
  missing (secureSecret (globalConfig this))
  || missing (tmnCode (globalConfig this))
  || missing (paymentGateway (globalConfig this)) = true ->
  let final := buildPaymentUrl this payload clock in
  st_promise final =
    Some (Rejected (Error
      (if missing (secureSecret (globalConfig this)) then "Missing secure secret"
       else if missing (tmnCode (globalConfig this)) then "Missing merchant code"
       else "Missing payment gateway"))) /\
  digests (st_trace final) = [] /\
  (forall url, ~ In (EvResolve url) (st_trace final)) /\
  st_arg final = payload.
Proof.
  intros Hm final. subst final.
  set (e := Error (if missing (secureSecret (globalConfig this)) then "Missing secure secret"
                   else if missing (tmnCode (globalConfig this)) then "Missing merchant code"
                   else "Missing payment gateway")).
  assert (Hv : validateGlobalConfig this = Some e).
  { subst e. unfold validateGlobalConfig. unfold missing in *.
    destruct (negb (truthy (field (secureSecret (globalConfig this))))); [reflexivity|].
    destruct (negb (truthy (field (tmnCode (globalConfig this))))); [reflexivity|].
    destruct (negb (truthy (field (paymentGateway (globalConfig this)))));
      [reflexivity | discriminate]. }
  rewrite (buildPaymentUrl_config_error _ _ _ _ Hv). cbn.
  repeat split; try reflexivity.
  intros url [Hin|[]]. discriminate.
Qed.

(** C10. With a configuration that passes the check, a return query whose
    [vnp_ResponseCode] is absent or [undefined] makes [verifyReturnUrl]
    reject with the TypeError of the [toString()] call; [resolve] is never
    called. *)
Theorem verifyReturnUrl_without_response_code (this : VNPay) (q : obj) :
  validateGlobalConfig this = None ->
  get "vnp_ResponseCode" q = VUndefined ->
  let final := verifyReturnUrl this q in
  st_promise final = Some (Rejected (TypeError "Cannot read properties of undefined")) /\
  (forall r, ~ In (EvResolve r) (st_trace final)).
Proof.
  intros Hv Hc final. subst final.
  rewrite verifyReturnUrl_no_code; [| exact Hv |].
  - split; [reflexivity | intros r []].
  - rewrite stripped_response_code, Hc. reflexivity.
Qed.
(** C9, as the code has it.  Neither method changes the instance, and
    [verifyReturnUrl] leaves the caller's query object as it was.
    [buildPaymentUrl] leaves the caller's payload as it was when the
    configuration fails the check or the payload has a truthy
    [vnp_ReturnUrl]; otherwise it stores the configuration's [returnUrl]
    in the payload's [vnp_ReturnUrl] and changes nothing else. *)
Theorem calls_leave_instance_and_query (this : VNPay) (payload q : obj) (clock : value) :
  st_this (buildPaymentUrl this payload clock) = this /\
  st_this (verifyReturnUrl this q) = this /\
  st_arg (verifyReturnUrl this q) = q /\
  st_arg (buildPaymentUrl this payload clock) =
    match validateGlobalConfig this with
    | Some _ => payload
    | None =>
        if truthy (get "vnp_ReturnUrl" payload) then payload
        else set "vnp_ReturnUrl" (field (returnUrl (globalConfig this))) payload
    end.
Proof.
  assert (Hd : defaulted this payload =
               if truthy (get "vnp_ReturnUrl" payload) then payload
               else set "vnp_ReturnUrl" (field (returnUrl (globalConfig this))) payload).
  { unfold defaulted. now destruct (truthy (get "vnp_ReturnUrl" payload)). }
  destruct (validateGlobalConfig this) as [e|] eqn:Hv.
  - rewrite (buildPaymentUrl_config_error _ _ _ _ Hv),
            (verifyReturnUrl_config_error _ _ _ Hv). now cbn.
  - destruct (validateGlobalConfig_None _ Hv) as (k & t & g & Hk & _ & _ & _ & Hg & _).
    rewrite <- Hd. clear Hd.
    assert (Hb : st_this (buildPaymentUrl this payload clock) = this /\
                 st_arg (buildPaymentUrl this payload clock) = defaulted this payload).
    { destruct (URL_parse g) as [u0|] eqn:Hu.
      - rewrite (buildPaymentUrl_run _ _ _ _ _ _ Hv Hk Hg Hu). now cbn.
      - rewrite (buildPaymentUrl_bad_gateway _ _ _ _ Hv Hg Hu). now cbn. }
    assert (Hq : st_this (verifyReturnUrl this q) = this /\
                 st_arg (verifyReturnUrl this q) = q).
    { destruct (toString (get "vnp_ResponseCode" (stripped q))) as [code|] eqn:Hc.
      - destruct (URL_parse g) as [u0|] eqn:Hu.
        + rewrite (verifyReturnUrl_run _ _ _ _ _ _ Hv Hk Hg Hu Hc). now cbn.
        + rewrite (verifyReturnUrl_bad_gateway _ _ _ _ Hv Hg Hu Hc). now cbn.
      - rewrite (verifyReturnUrl_no_code _ _ Hv Hc). now cbn. }
    tauto.
Qed.

(** C4, as the code has it.  The callback that looks at the result of
    [validate] runs after the body of the promise: with a configuration
    that passes the check and a gateway that parses, the promise is
    fulfilled with the signed URL whatever [validate] reports, and when it
    reports violations the [reject] call comes after [resolve]. *)
Theorem buildPaymentUrl_resolves_before_validation
    (this : VNPay) (payload : obj) (clock : value) (k g : string) (u0 : URL) :
  validateGlobalConfig this = None ->
  secureSecret (globalConfig this) = Some k ->
  paymentGateway (globalConfig this) = Some g ->
  URL_parse g = Some u0 ->
  let errs := validate (BuildPaymentUrlDTO (build_data this payload clock)) in
  errs <> [] ->
  let final := buildPaymentUrl this payload clock in
  exists u digest,
    built_URL this payload clock = Some u /\
    st_promise final = Some (Fulfilled (URL_toString u)) /\
    st_trace final =
      [digest; EvResolve (URL_toString u); EvValidated errs;
       EvReject (ValidationErrors errs)].
Proof.
  intros Hv Hk Hg Hu errs Herrs final. subst final.
  rewrite (buildPaymentUrl_run _ _ _ _ _ _ Hv Hk Hg Hu).
  rewrite (built_URL_run _ _ _ _ _ _ Hk Hg Hu).
  eexists. eexists. split; [reflexivity|]. split; [reflexivity|].
  cbn [st_trace app]. unfold validated_events. fold errs.
  destruct errs; [congruence | reflexivity].
Qed.

(** C3, as the code has it.  With a configuration that passes the check
    and a gateway that parses, a return query that carries a response code
    (neither [undefined] nor [null]) and whose [vnp_SecureHash] is not the
    signature recomputed over the other fields makes [verifyReturnUrl]
    fulfil its promise with [isSuccess = false] and the message "Wrong
    checksum", whatever the response code is. *)
Theorem verifyReturnUrl_wrong_checksum
    (this : VNPay) (q : obj) (k g : string) (u0 : URL) (code : string) :
  validateGlobalConfig this = None ->
  secureSecret (globalConfig this) = Some k ->
  paymentGateway (globalConfig this) = Some g ->
  URL_parse g = Some u0 ->
  toString (get "vnp_ResponseCode" q) = Some code ->
  get "vnp_SecureHash" q <> VStr (recomputed k u0 q) ->
  let final := verifyReturnUrl this q in
  exists r,
    st_promise final = Some (Fulfilled r) /\
    get "isSuccess" r = VBool false /\
    get "message" r = VStr "Wrong checksum" /\
    digests (st_trace final) =
      [(k, signed_text (with_params u0 (stripped q)), recomputed k u0 q)].
Proof.
  intros Hv Hk Hg Hu Hc Hs final. subst final.
  rewrite <- stripped_response_code in Hc.
  rewrite (verifyReturnUrl_run _ _ _ _ _ _ Hv Hk Hg Hu Hc).
  eexists. split; [reflexivity|].
  unfold output_results, ReturnQueryFromVNPayDTO, VerifyReturnUrlDTO.
  destruct (strict_eq (get "vnp_SecureHash" q) (VStr (recomputed k u0 q))) eqn:E.
  { apply strict_eq_VStr in E. contradiction. }
  match goal with
  | |- context [assign ?first [("isSuccess", VBool false); ?m]] =>
      change (assign first [("isSuccess", VBool false); m])
        with [("isSuccess", VBool false); m]
  end.
  assert (Hnd : NoDup (map fst [("isSuccess", VBool false);
                                ("message", VStr "Wrong checksum")])).
  { repeat constructor; cbn; intuition discriminate. }
  repeat split.
  - unfold get. now rewrite (lookup_assign "isSuccess" (VBool false) _ _ Hnd).
  - unfold get. now rewrite (lookup_assign "message" (VStr "Wrong checksum") _ _ Hnd).
Qed.
(** The URL object that [buildPaymentUrl] serializes: the parameters of
    the gateway URL, then those of the loop, then the signature. *)
Lemma built_URL_parameters this payload clock k g u0 :
  secureSecret (globalConfig this) = Some k ->
  paymentGateway (globalConfig this) = Some g ->
  URL_parse g = Some u0 ->
  let data := build_data this payload clock in
  let appended := canonical (Array_sort by_key (entries data)) in
  let signed := Crypto.hmac_sha512_hex k (signed_text (with_params u0 data)) in
  exists u,
    built_URL this payload clock = Some u /\
    url_base u = url_base u0 /\
    url_fragment u = url_fragment u0 /\
    url_searchParams u = url_searchParams u0 ++ appended ++ [("vnp_SecureHash", signed)] /\
    url_query u = Some (urlencoded_serialize (url_searchParams u)).
Proof.
  intros Hk Hg Hu data appended signed.
  rewrite (built_URL_run _ _ _ _ _ _ Hk Hg Hu).
  eexists. split; [reflexivity|]. fold data. fold signed.
  unfold with_params. fold appended.
  rewrite searchParams_append_query.
  cbn [url_base url_fragment url_searchParams searchParams_append].
  rewrite append_all_base, append_all_fragment, append_all_params.
  rewrite <- app_assoc. repeat split; reflexivity.
Qed.

(** The URL a call resolves with, a configuration and a gateway being
    given: the object at line 175, its parameters, its query and its
    text. *)
Lemma built_URL_href this payload clock k g u0 :
  validateGlobalConfig this = None ->
  secureSecret (globalConfig this) = Some k ->
  paymentGateway (globalConfig this) = Some g ->
  URL_parse g = Some u0 ->
  exists u signed,
    built_URL this payload clock = Some u /\
    st_promise (buildPaymentUrl this payload clock) = Some (Fulfilled (URL_toString u)) /\
    url_searchParams u =
      url_searchParams u0
      ++ canonical (Array_sort by_key (entries (build_data this payload clock)))
      ++ [("vnp_SecureHash", signed)] /\
    url_query u = Some (urlencoded_serialize (url_searchParams u)) /\
    URL_toString u =
      (url_base u0 ++ "?" ++ urlencoded_serialize (url_searchParams u)
       ++ match url_fragment u0 with None => "" | Some f => "#" ++ f end)%string.
Proof.
  intros Hv Hk Hg Hu.
  destruct (built_URL_parameters this payload clock k g u0 Hk Hg Hu)
    as (u & Hb & Hbase & Hfrag & Hp & Hq).
  exists u. eexists. split; [exact Hb|]. split.
  { rewrite (buildPaymentUrl_run _ _ _ _ _ _ Hv Hk Hg Hu).
    rewrite (built_URL_run _ _ _ _ _ _ Hk Hg Hu) in Hb. injection Hb as <-. reflexivity. }
  split; [exact Hp|]. split; [exact Hq|].
  unfold URL_toString. now rewrite Hq, Hbase, Hfrag.
Qed.


(** C8, as the code has it.  The parameters of the URL that
    [buildPaymentUrl] returns are those of the gateway URL itself (none
    when it has no query), then the fields of the payload in ascending
    order of their keys under [localeCompare], then [vnp_SecureHash], whose
    value has 128 characters, all lowercase hexadecimal digits; the query
    text of the URL is the serialization of these parameters in this
    order. *)
Theorem buildPaymentUrl_parameters_sorted
    (this : VNPay) (payload : obj) (clock : value) (k g : string) (u0 : URL) :
  validateGlobalConfig this = None ->
  secureSecret (globalConfig this) = Some k ->
  paymentGateway (globalConfig this) = Some g ->
  URL_parse g = Some u0 ->
  exists u appended signed,
    built_URL this payload clock = Some u /\
    st_promise (buildPaymentUrl this payload clock) = Some (Fulfilled (URL_toString u)) /\
    url_searchParams u = url_searchParams u0 ++ appended ++ [("vnp_SecureHash", signed)] /\
    url_query u = Some (urlencoded_serialize (url_searchParams u)) /\
    Sorted key_le appended /\
    String.length signed = 128%nat /\
    all_chars lower_hex signed = true.
Proof.
  intros Hv Hk Hg Hu.
  destruct (built_URL_parameters this payload clock k g u0 Hk Hg Hu)
    as (u & Hb & _ & _ & Hp & Hq).
  exists u. eexists. eexists.
  split; [exact Hb|]. split.
  { rewrite (buildPaymentUrl_run _ _ _ _ _ _ Hv Hk Hg Hu).
    rewrite (built_URL_run _ _ _ _ _ _ Hk Hg Hu) in Hb. injection Hb as <-. reflexivity. }
  split; [exact Hp|]. split; [exact Hq|]. split; [|split].
  - apply StronglySorted_Sorted, canonical_sorted.
  - apply hmac_sha512_hex_length.
  - apply hmac_sha512_hex_lower.
Qed.
(** The loop of [buildPaymentUrl] appends at least the merchant code. *)
Lemma build_appends_something this payload clock :
  validateGlobalConfig this = None ->
  canonical (Array_sort by_key (entries (build_data this payload clock))) <> [].
Proof.
  intros Hv.
  destruct (validateGlobalConfig_None _ Hv) as (k & t & g & _ & _ & Ht & Htne & _).
  assert (Hin : In ("vnp_TmnCode", String_ (VStr t))
                   (canonical (Array_sort by_key (entries (build_data this payload clock))))).
  { apply canonical_In.
    - apply lookup_In. unfold entries. rewrite build_data_tmnCode, Ht. reflexivity.
    - cbn. now destruct (String.eqb_spec t ""). }
  intros E. rewrite E in Hin. exact Hin.
Qed.

(** The text that [buildPaymentUrl] signs is the serialization of the
    parameters present before the signature is appended. *)
Lemma build_signed_text this payload clock u0 :
  validateGlobalConfig this = None ->
  let data := build_data this payload clock in
  signed_text (with_params u0 data) =
  urlencoded_serialize (url_searchParams u0 ++ canonical (Array_sort by_key (entries data))).
Proof.
  intros Hv data. unfold signed_text, with_params.
  pose proof (build_appends_something this payload clock Hv) as Hne. fold data in Hne.
  apply search_slice.
  - now apply append_all_query.
  - apply urlencoded_serialize_nonempty.
    destruct (url_searchParams u0); [exact Hne | discriminate].
Qed.

(** The parameters of a URL built from a payload that carries the response
    code, handed to [verifyReturnUrl] as they are. *)
Lemma verify_built_parameters this payload clock k g u0 :
  validateGlobalConfig this = None ->
  secureSecret (globalConfig this) = Some k ->
  paymentGateway (globalConfig this) = Some g ->
  URL_parse g = Some u0 ->
  url_searchParams u0 = [] ->
  unique_keys payload = true ->
  lookup "vnp_ResponseCode" payload = Some (VStr "00") ->
  lookup "vnp_SecureHash" payload = None ->
  lookup "vnp_SecureHashType" payload = None ->
  let data := build_data this payload clock in
  let appended := canonical (Array_sort by_key (entries data)) in
  let signed := Crypto.hmac_sha512_hex k (signed_text (with_params u0 data)) in
  exists r,
    st_promise (verifyReturnUrl this (fromEntries (appended ++ [("vnp_SecureHash", signed)])))
    = Some (Fulfilled r) /\
    get "isSuccess" r = VBool true.
Proof.
  intros Hv Hk Hg Hu Hp0 Huk Hrc Hsh Hsht data appended signed.
  apply unique_keys_NoDup in Huk.
  pose proof (canonical_NoDup _ (build_data_NoDup this payload clock)) as Hnd.
  fold data in Hnd. change (NoDup (map fst appended)) in Hnd.
  assert (Hkeys : forall x, In x (map fst appended) -> In x (map fst data)).
  { intros x Hx. unfold appended in Hx. rewrite canonical_keys in Hx.
    apply in_map_iff in Hx. destruct Hx as (e & <- & He).
    apply filter_In in He. destruct He as [He _]. apply Array_sort_In in He.
    now apply in_map. }
  assert (Hfresh : forall x, lookup x payload = None ->
                     ~ In x ["vnp_TmnCode"; "vnp_Amount"; "vnp_CreateDate"; "vnp_ReturnUrl";
                             "vnp_Version"; "vnp_Command"; "vnp_CurrCode"; "vnp_Locale";
                             "vnp_OrderType"] ->
                     ~ In x (map fst (as_fields appended))).
  { intros x Hx Hnine Hin. unfold as_fields in Hin. rewrite map_map in Hin.
    cbn [fst] in Hin. change (In x (map fst appended)) in Hin.
    apply Hkeys in Hin. apply build_data_keys in Hin.
    apply lookup_None in Hx. tauto. }
  assert (Hnsh : ~ In "vnp_SecureHash" (map fst (as_fields appended))).
  { apply Hfresh; [exact Hsh | cbn; intuition discriminate]. }
  assert (Hnsht : ~ In "vnp_SecureHashType" (map fst (as_fields appended))).
  { apply Hfresh; [exact Hsht | cbn; intuition discriminate]. }
  assert (Hndf : NoDup (map fst (as_fields appended))).
  { unfold as_fields. rewrite map_map. exact Hnd. }
  set (rq := fromEntries (appended ++ [("vnp_SecureHash", signed)])).
  assert (Hrq : rq = as_fields appended ++ [("vnp_SecureHash", VStr signed)]).
  { unfold rq, fromEntries. fold (as_fields (appended ++ [("vnp_SecureHash", signed)])).
    unfold as_fields at 1. rewrite map_app. fold (as_fields appended).
    apply assign_fresh. rewrite map_app. cbn [map fst].
    apply NoDup_app; [exact Hndf | repeat constructor; intros [] |].
    intros x Hx [<-|[]]. contradiction. }
  assert (Hst : stripped rq = as_fields appended).
  { unfold stripped, ReturnQueryFromVNPayDTO. rewrite Hrq.
    rewrite (delete_app_last _ _ _ Hnsh). now apply delete_absent. }
  assert (Hcode : get "vnp_ResponseCode" (stripped rq) = VStr "00").
  { rewrite Hst. unfold get.
    rewrite (In_lookup "vnp_ResponseCode" (VStr "00") _ Hndf); [reflexivity|].
    unfold as_fields. apply in_map_iff. exists ("vnp_ResponseCode", "00").
    split; [reflexivity|].
    apply (canonical_In "vnp_ResponseCode" (VStr "00")); [|reflexivity].
    apply lookup_In. unfold entries.
    apply build_data_lookup; try assumption; discriminate. }
  assert (Hsame : with_params u0 (stripped rq) = with_params u0 data).
  { unfold with_params. rewrite Hst. unfold entries at 1.
    rewrite canonical_as_fields; [reflexivity | apply canonical_sorted |].
    intros [x v] Hin. apply canonical_In_inv in Hin.
    destruct Hin as (w & _ & Hw & ->). now apply String_truthy. }
  assert (Hsig : recomputed k u0 rq = signed).
  { unfold recomputed. now rewrite Hsame. }
  assert (Hc : toString (get "vnp_ResponseCode" (stripped rq)) = Some "00").
  { now rewrite Hcode. }
  rewrite (verifyReturnUrl_run _ _ _ _ _ _ Hv Hk Hg Hu Hc).
  eexists. split; [reflexivity|].
  unfold output_results, ReturnQueryFromVNPayDTO, VerifyReturnUrlDTO.
  rewrite Hsig, Hcode.
  assert (Hget : get "vnp_SecureHash" rq = VStr signed).
  { rewrite Hrq. unfold get. now rewrite (lookup_app_last _ _ _ Hnsh). }
  rewrite Hget. cbn [strict_eq]. rewrite !String.eqb_refl.
  match goal with
  | |- context [assign [?a; ?m] [?b]] =>
      change (assign [a; m] [b]) with [b; m];
      assert (Hout : NoDup (map fst [b; m]))
        by (repeat constructor; cbn; intuition discriminate)
  end.
  unfold get. now rewrite (lookup_assign "isSuccess" (VBool true) _ _ Hout).
Qed.

(** C1, as the code has it.  The URL that [buildPaymentUrl] returns ends
    its query with [vnp_SecureHash], and the value of that parameter is the
    HMAC-SHA512 hexadecimal digest, keyed with the secret, of the query
    text that precedes it.  When moreover the gateway URL has no query of
    its own and the payload itself carried [vnp_ResponseCode = "00"] (and
    neither signature field), handing the parameters of the built URL to
    [verifyReturnUrl] gives [isSuccess = true]. *)
Theorem buildPaymentUrl_signs_its_query
    (this : VNPay) (payload : obj) (clock : value) (k g : string) (u0 : URL) :
  validateGlobalConfig this = None ->
  secureSecret (globalConfig this) = Some k ->
  paymentGateway (globalConfig this) = Some g ->
  URL_parse g = Some u0 ->
  exists u params,
    let text := urlencoded_serialize params in
    let signed := Crypto.hmac_sha512_hex k text in
    built_URL this payload clock = Some u /\
    st_promise (buildPaymentUrl this payload clock) = Some (Fulfilled (URL_toString u)) /\
    url_searchParams u = params ++ [("vnp_SecureHash", signed)] /\
    url_query u = Some (text ++ "&vnp_SecureHash=" ++ signed)%string /\
    URL_toString u =
      (url_base u0 ++ "?" ++ text ++ "&vnp_SecureHash=" ++ signed
       ++ match url_fragment u0 with None => "" | Some f => "#" ++ f end)%string /\
    digests (st_trace (buildPaymentUrl this payload clock)) = [(k, text, signed)] /\
    (url_searchParams u0 = [] ->
     unique_keys payload = true ->
     lookup "vnp_ResponseCode" payload = Some (VStr "00") ->
     lookup "vnp_SecureHash" payload = None ->
     lookup "vnp_SecureHashType" payload = None ->
     exists r,
       st_promise (verifyReturnUrl this (fromEntries (url_searchParams u)))
       = Some (Fulfilled r) /\
       get "isSuccess" r = VBool true).
Proof.
  intros Hv Hk Hg Hu.
  destruct (built_URL_parameters this payload clock k g u0 Hk Hg Hu)
    as (u & Hb & Hbase & Hfrag & Hp & Hq).
  pose proof (build_signed_text this payload clock u0 Hv) as Htext. cbv zeta in Htext.
  pose proof (build_appends_something this payload clock Hv) as Hne.
  exists u.
  exists (url_searchParams u0 ++ canonical (Array_sort by_key (entries (build_data this payload clock)))).
  cbv zeta. rewrite <- Htext.
  split; [exact Hb|]. split.
  { rewrite (buildPaymentUrl_run _ _ _ _ _ _ Hv Hk Hg Hu).
    rewrite (built_URL_run _ _ _ _ _ _ Hk Hg Hu) in Hb. injection Hb as <-. reflexivity. }
  split; [now rewrite Hp, app_assoc|].
  assert (Hquery : url_query u =
                   Some (signed_text (with_params u0 (build_data this payload clock))
                         ++ "&vnp_SecureHash="
                         ++ Crypto.hmac_sha512_hex k
                              (signed_text (with_params u0 (build_data this payload clock))))%string).
  { rewrite Hq, Hp, app_assoc, urlencoded_serialize_snoc.
    - rewrite <- Htext. unfold urlencoded_pair. cbn [fst snd].
      rewrite (urlencoded_lower_hex _ (hmac_sha512_hex_lower _ _)). reflexivity.
    - destruct (url_searchParams u0); [exact Hne | discriminate]. }
  split; [exact Hquery|]. split.
  { unfold URL_toString. rewrite Hquery, Hbase, Hfrag.
    now rewrite !string_app_assoc. }
  split.
  { rewrite (buildPaymentUrl_run _ _ _ _ _ _ Hv Hk Hg Hu).
    cbn [st_trace app digests flat_map]. unfold validated_events.
    destruct (0 <? Z.of_nat (List.length _)); reflexivity. }
  intros Hp0 Huk Hrc Hsh Hsht.
  rewrite Hp, Hp0. cbn [app].
  now apply (verify_built_parameters this payload clock k g u0).
Qed.
(** Fields that are left out do not influence what a loop appends. *)
Lemma with_params_filter u0 (X Y : obj) :
  filter (fun e => truthy (snd e)) X = filter (fun e => truthy (snd e)) Y ->
  with_params u0 X = with_params u0 Y.
Proof.
  intros E. unfold with_params, canonical, entries.
  rewrite !(filter_Array_sort by_key by_key_total by_key_trans). now rewrite E.
Qed.

Lemma filter_stripped_delete k (q : obj) :
  (forall v, In (k, v) q -> truthy v = false) ->
  filter (fun e => truthy (snd e)) (stripped (delete k q)) =
  filter (fun e => truthy (snd e)) (stripped q).
Proof.
  unfold stripped, ReturnQueryFromVNPayDTO.
  induction q as [|[k' v'] t IH]; intros Hk; [reflexivity|].
  assert (IH' := IH (fun v Hin => Hk v (or_intror Hin))).
  cbn [delete].
  destruct (String.eqb_spec k' k) as [->|Hne].
  - rewrite IH'.
    destruct (String.eqb_spec k "vnp_SecureHash"); [reflexivity|].
    cbn [delete].
    destruct (String.eqb_spec k "vnp_SecureHashType"); [reflexivity|].
    cbn [filter snd]. now rewrite (Hk v' (or_introl eq_refl)).
  - cbn [delete].
    destruct (String.eqb_spec k' "vnp_SecureHash"); [exact IH'|].
    cbn [delete].
    destruct (String.eqb_spec k' "vnp_SecureHashType"); [exact IH'|].
    cbn [filter snd]. now rewrite IH'.
Qed.

(** C2, as the code has it.  Both property loops leave out an entry exactly
    when its value is [undefined], [null], [false], the number zero, NaN or
    the empty string, and append every other entry with the text of its
    value.  On the verify side, a field other than [vnp_ResponseCode] that
    holds such a value can be dropped from the query without changing the
    digests that the call computes. *)
Theorem empty_values_are_left_out (this : VNPay) (q : obj) (k : string) (v : value) :
  unique_keys q = true ->
  lookup k q = Some v ->
  empty_value v = true ->
  k <> "vnp_ResponseCode" ->
  (forall w, empty_value w = true <->
             w = VUndefined \/ w = VNull \/ w = VBool false \/ w = VNum (NInt 0) \/
             w = VNum NNaN \/ w = VStr "") /\
  (forall e u s,
      build_param e u s =
      (Normal (if empty_value (snd e) then u
               else searchParams_append (fst e) (String_ (snd e)) u), s)) /\
  (forall e u s,
      verify_param e u s =
      (Normal (if empty_value (snd e) then u
               else searchParams_append (fst e) (String_ (snd e)) u), s)) /\
  digests (st_trace (verifyReturnUrl this q)) =
  digests (st_trace (verifyReturnUrl this (delete k q))).
Proof.
  intros Huk Hl He Hk.
  split; [|split; [exact build_param_run | split; [exact verify_param_run|]]].
  { intros w. destruct w as [| |[|]|[z| |c s]|s]; cbn; split;
      try (intros; discriminate); try (intros _; tauto);
      try (intros [E|[E|[E|[E|[E|E]]]]]; discriminate).
    - intros E. apply Z.eqb_eq in E. subst. tauto.
    - intros [E|[E|[E|[E|[E|E]]]]]; try discriminate. now injection E as ->.
    - intros E. apply String.eqb_eq in E. subst. tauto.
    - intros [E|[E|[E|[E|[E|E]]]]]; try discriminate. now injection E as ->. }
  apply unique_keys_NoDup in Huk.
  assert (Hempty : forall w, In (k, w) q -> truthy w = false).
  { intros w Hin. apply (In_lookup _ _ _ Huk) in Hin.
    assert (w = v) by congruence. subst w.
    rewrite empty_value_truthy in He. now apply negb_true_iff in He. }
  assert (Hcode : get "vnp_ResponseCode" (stripped (delete k q)) =
                  get "vnp_ResponseCode" (stripped q)).
  { rewrite !stripped_response_code. unfold get.
    now rewrite lookup_delete_neq by congruence. }
  destruct (validateGlobalConfig this) as [e|] eqn:Hv.
  { now rewrite !(verifyReturnUrl_config_error _ _ _ Hv). }
  destruct (validateGlobalConfig_None _ Hv) as (k0 & t & g & Hk0 & _ & _ & _ & Hg & _).
  destruct (toString (get "vnp_ResponseCode" (stripped q))) as [code|] eqn:Hc.
  2: { rewrite (verifyReturnUrl_no_code _ q Hv Hc).
       rewrite <- Hcode in Hc. now rewrite (verifyReturnUrl_no_code _ _ Hv Hc). }
  assert (Hc' := Hc). rewrite <- Hcode in Hc'.
  destruct (URL_parse g) as [u0|] eqn:Hu.
  2: { now rewrite (verifyReturnUrl_bad_gateway _ _ _ _ Hv Hg Hu Hc),
                   (verifyReturnUrl_bad_gateway _ _ _ _ Hv Hg Hu Hc'). }
  rewrite (verifyReturnUrl_run _ _ _ _ _ _ Hv Hk0 Hg Hu Hc),
          (verifyReturnUrl_run _ _ _ _ _ _ Hv Hk0 Hg Hu Hc').
  cbn [st_trace digests flat_map app]. unfold recomputed.
  now rewrite (with_params_filter u0 _ _ (filter_stripped_delete k q Hempty)).
Qed.
End General.

(** *** The methods on the instance of the class comment *)

Import Demo.

(** The example of the class comment: amount 100000 is sent as 10000000. *)
Example buildPaymentUrl_example :
  st_promise (buildPaymentUrl vnpay payload clock) = Some (Fulfilled
    "https://sandbox.vnpayment.vn/paymentv2/vpcpay.html?vnp_Amount=10000000&vnp_Command=pay&vnp_CreateDate=20231104153000&vnp_CurrCode=VND&vnp_IpAddr=192.168.0.1&vnp_Locale=vn&vnp_OrderInfo=Thanh+toan+cho+ma+GD%3A+12345678&vnp_OrderType=other&vnp_ReturnUrl=http%3A%2F%2Flocalhost%3A8888%2Forder%2Fvnpay_return&vnp_TmnCode=TMNCODE&vnp_TxnRef=12345678&vnp_Version=2.1.0&vnp_SecureHash=552406bfe56d48d9674e10652423b6edccd576f130f17005065083cd0b7e7d2728eb77b7806eb09d2cd61f8fe78de6957b33d98c7bf49da147eec0bed03ce6df").
Proof. vm_compute. reflexivity. Qed.

(** C1: the parameters of a built URL with the response code set to "00"
    afterwards do not verify. *)
Lemma forced_response_code_fails_checksum :
  exists u r,
    built_URL vnpay payload clock = Some u /\
    st_promise (verifyReturnUrl vnpay
                  (set "vnp_ResponseCode" (VStr "00") (fromEntries (url_searchParams u))))
    = Some (Fulfilled r) /\
    get "isSuccess" r = VBool false /\
    get "message" r = VStr "Wrong checksum".
Proof.
  eexists. eexists.
  split; [vm_compute; reflexivity|].
  split; [vm_compute; reflexivity|].
  split; reflexivity.
Qed.

(** C1: a payload that carries the response code; the parameters of its
    URL verify. *)
Lemma built_parameters_verify :
  exists u r,
    built_URL vnpay paid_payload clock = Some u /\
    st_promise (verifyReturnUrl vnpay (fromEntries (url_searchParams u)))
    = Some (Fulfilled r) /\
    get "isSuccess" r = VBool true.
Proof.
  destruct (@buildPaymentUrl_signs_its_query platform imports vnpay paid_payload clock "SERCRET" gateway
              gateway_URL eq_refl eq_refl eq_refl eq_refl)
    as (u & params & Hb & _ & _ & _ & _ & _ & Hverify).
  destruct (Hverify eq_refl eq_refl eq_refl eq_refl eq_refl) as (r & Hr & Hs).
  exists u, r. repeat split; assumption.
Defined.

(** C2: an amount that is NaN is none of the five listed values, and the
    built URL has no [vnp_Amount]. *)
Lemma NaN_amount_is_left_out :
  get "vnp_Amount" (build_data vnpay nan_payload clock) = VNum NNaN /\
  ~ In (VNum NNaN) [VNull; VUndefined; VStr ""; VNum (NInt 0); VBool false] /\
  st_promise (buildPaymentUrl vnpay nan_payload clock) = Some (Fulfilled
    "https://sandbox.vnpayment.vn/paymentv2/vpcpay.html?vnp_Command=pay&vnp_CreateDate=20231104153000&vnp_CurrCode=VND&vnp_IpAddr=192.168.0.1&vnp_Locale=vn&vnp_OrderInfo=Thanh+toan+cho+ma+GD%3A+12345678&vnp_OrderType=other&vnp_ReturnUrl=http%3A%2F%2Flocalhost%3A8888%2Forder%2Fvnpay_return&vnp_TmnCode=TMNCODE&vnp_TxnRef=12345678&vnp_Version=2.1.0&vnp_SecureHash=8f7a37777932550a6b24fd497cbd9fddea628299ffa62a342a2259622972aa9213397b28b4b0100487d3aee803f990d7d6890c8071712b79e3226d3248263e96").
Proof.
  split; [reflexivity|]. split; [|vm_compute; reflexivity].
  cbn. intuition discriminate.
Qed.

(** C2: a query with an empty bank code, with and without that field. *)
Lemma empty_bank_code_keeps_digest :
  digests (st_trace (verifyReturnUrl vnpay query_with_empty_field)) =
  digests (st_trace (verifyReturnUrl vnpay (delete "vnp_BankCode" query_with_empty_field))).
Proof.
  refine (proj2 (proj2 (proj2
    (@empty_values_are_left_out platform imports vnpay query_with_empty_field "vnp_BankCode" (VStr "")
       eq_refl eq_refl eq_refl _)))).
  discriminate.
Defined.

(** C3: a query with a wrong signature and no response code is rejected. *)
Lemma wrong_checksum_without_code_rejects :
  get "vnp_SecureHash" codeless_query
    <> VStr (recomputed "SERCRET" gateway_URL codeless_query) /\
  st_promise (verifyReturnUrl vnpay codeless_query) =
  Some (Rejected (TypeError "Cannot read properties of undefined")).
Proof.
  split; [|vm_compute; reflexivity].
  vm_compute. discriminate.
Qed.

(** C3: a query with a wrong signature and response code "00". *)
Lemma tampered_query_is_wrong_checksum :
  exists r,
    st_promise (verifyReturnUrl vnpay tampered_query) = Some (Fulfilled r) /\
    get "isSuccess" r = VBool false /\
    get "message" r = VStr "Wrong checksum" /\
    digests (st_trace (verifyReturnUrl vnpay tampered_query)) =
      [("SERCRET", signed_text (with_params gateway_URL (stripped tampered_query)),
        recomputed "SERCRET" gateway_URL tampered_query)].
Proof.
  refine (@verifyReturnUrl_wrong_checksum platform imports vnpay tampered_query "SERCRET" gateway gateway_URL
            "00" eq_refl eq_refl eq_refl eq_refl eq_refl _).
  vm_compute. discriminate.
Defined.

(** C4: a payload that the schema refuses still gets its URL. *)
Lemma unreferenced_payload_gets_url :
  exists u digest,
    built_URL vnpay unreferenced_payload clock = Some u /\
    st_promise (buildPaymentUrl vnpay unreferenced_payload clock)
    = Some (Fulfilled (URL_toString u)) /\
    st_trace (buildPaymentUrl vnpay unreferenced_payload clock) =
      [digest; EvResolve (URL_toString u);
       EvValidated [mkValidationError "vnp_TxnRef" ["isNotEmpty"]];
       EvReject (ValidationErrors [mkValidationError "vnp_TxnRef" ["isNotEmpty"]])].
Proof.
  refine (@buildPaymentUrl_resolves_before_validation platform imports vnpay unreferenced_payload clock
            "SERCRET" gateway gateway_URL eq_refl eq_refl eq_refl eq_refl _).
  vm_compute. discriminate.
Defined.

(** C5: an instance without a merchant code. *)
Lemma missing_merchant_code_rejects :
  st_promise (buildPaymentUrl vnpay_without_tmnCode payload clock) =
    Some (Rejected (Error "Missing merchant code")) /\
  digests (st_trace (buildPaymentUrl vnpay_without_tmnCode payload clock)) = [] /\
  (forall url, ~ In (EvResolve url)
                    (st_trace (buildPaymentUrl vnpay_without_tmnCode payload clock))) /\
  st_arg (buildPaymentUrl vnpay_without_tmnCode payload clock) = payload.
Proof.
  exact (@buildPaymentUrl_missing_config platform imports vnpay_without_tmnCode payload clock eq_refl).
Defined.



(** C8: a gateway URL with a query of its own; its parameter comes first,
    ahead of keys that sort before it. *)
Lemma gateway_query_comes_first :
  st_promise (buildPaymentUrl vnpay_with_query payload clock) = Some (Fulfilled
    "https://sandbox.vnpayment.vn/paymentv2/vpcpay.html?zone=1&vnp_Amount=10000000&vnp_Command=pay&vnp_CreateDate=20231104153000&vnp_CurrCode=VND&vnp_IpAddr=192.168.0.1&vnp_Locale=vn&vnp_OrderInfo=Thanh+toan+cho+ma+GD%3A+12345678&vnp_OrderType=other&vnp_ReturnUrl=http%3A%2F%2Flocalhost%3A8888%2Forder%2Fvnpay_return&vnp_TmnCode=TMNCODE&vnp_TxnRef=12345678&vnp_Version=2.1.0&vnp_SecureHash=7f74ce291fc5134f5eb42b908fccd09057888762d7b9f00f4250590dcc081396d9786483ae2885ac62fe475d78105948c02506da95a6305dcb10055c22efb1b5") /\
  option_map (fun u => map fst (url_searchParams u))
             (built_URL vnpay_with_query payload clock) =
  Some ["zone"; "vnp_Amount"; "vnp_Command"; "vnp_CreateDate"; "vnp_CurrCode";
        "vnp_IpAddr"; "vnp_Locale"; "vnp_OrderInfo"; "vnp_OrderType"; "vnp_ReturnUrl";
        "vnp_TmnCode"; "vnp_TxnRef"; "vnp_Version"; "vnp_SecureHash"] /\
  localeCompare "zone" "vnp_Amount" = Gt.
Proof.
  split; [vm_compute; reflexivity|]. split; [vm_compute; reflexivity | reflexivity].
Qed.

(** C8: the URL of the class comment. *)
Lemma example_parameters_sorted :
  exists u appended signed,
    built_URL vnpay payload clock = Some u /\
    st_promise (buildPaymentUrl vnpay payload clock) = Some (Fulfilled (URL_toString u)) /\
    url_searchParams u = url_searchParams gateway_URL ++ appended
                         ++ [("vnp_SecureHash", signed)] /\
    url_query u = Some (urlencoded_serialize (url_searchParams u)) /\
    Sorted key_le appended /\
    String.length signed = 128%nat /\
    all_chars lower_hex signed = true.
Proof.
  exact (@buildPaymentUrl_parameters_sorted platform imports vnpay payload clock "SERCRET" gateway gateway_URL
           eq_refl eq_refl eq_refl eq_refl).
Defined.

(** C9: a payload without a return URL comes back with the one of the
    configuration. *)
Lemma payload_gains_return_url :
  lookup "vnp_ReturnUrl" bare_payload = None /\
  lookup "vnp_ReturnUrl" (st_arg (buildPaymentUrl vnpay_with_returnUrl bare_payload clock))
  = Some (VStr "http://localhost:8888/order/vnpay_return").
Proof. split; [reflexivity | vm_compute; reflexivity]. Qed.

(** C10: a query without a response code. *)
Lemma codeless_query_rejects :
  st_promise (verifyReturnUrl vnpay codeless_query) =
    Some (Rejected (TypeError "Cannot read properties of undefined")) /\
  (forall r, ~ In (EvResolve r) (st_trace (verifyReturnUrl vnpay codeless_query))).
Proof.
  exact (@verifyReturnUrl_without_response_code platform imports vnpay codeless_query eq_refl eq_refl).
Defined.

End Properties.

(* ================================================================== *)
(** ** Further properties of the class *)
(* ================================================================== *)

Module Coverage.
Import JS VNPay JSFacts CryptoFacts Runs.

Section Verify.
Context `{Platform} `{Imports}.

Lemma keys_delete {V : Type} (k x : string) (o : list (string * V)) :
  In x (map fst (delete k o)) -> In x (map fst o).
Proof.
  induction o as [|[k' v] t IH]; cbn [delete map fst]; [tauto|].
  destruct (k' =? k)%string; cbn [map fst In]; tauto.
Qed.

Lemma NoDup_delete {V : Type} (k : string) (o : list (string * V)) :
  NoDup (map fst o) -> NoDup (map fst (delete k o)).
Proof.
  induction o as [|[k' v] t IH]; cbn [delete map fst]; [constructor|].
  intros Hnd. apply NoDup_cons_iff in Hnd. destruct Hnd as [Hk Ht].
  destruct (k' =? k)%string; [now apply IH|].
  cbn [map fst]. apply NoDup_cons; [|now apply IH].
  intros Hin. apply Hk. now apply keys_delete in Hin.
Qed.

Lemma lookup_delete_eq {V : Type} (k : string) (o : list (string * V)) :
  lookup k (delete k o) = None.
Proof.
  induction o as [|[k' v] t IH]; cbn [delete lookup]; [reflexivity|].
  destruct (String.eqb_spec k' k) as [->|Hne]; [exact IH|].
  cbn [lookup]. destruct (String.eqb_spec k' k); [contradiction | exact IH].
Qed.

Lemma delete_set_eq {V : Type} (k : string) (v : V) (o : list (string * V)) :
  delete k (set k v o) = delete k o.
Proof.
  induction o as [|[k' v'] t IH]; cbn [set delete].
  - now rewrite String.eqb_refl.
  - destruct (String.eqb_spec k' k) as [->|Hne]; cbn [delete].
    + now rewrite String.eqb_refl.
    + destruct (String.eqb_spec k' k); [contradiction | now rewrite IH].
Qed.

Lemma delete_set_neq {V : Type} (k k' : string) (v : V) (o : list (string * V)) :
  k <> k' -> delete k (set k' v o) = set k' v (delete k o).
Proof.
  intros Hne. induction o as [|[k1 v1] t IH]; cbn [set delete].
  - destruct (String.eqb_spec k' k); [congruence | reflexivity].
  - destruct (String.eqb_spec k1 k') as [->|H1]; cbn [delete].
    + destruct (String.eqb_spec k' k); [congruence|].
      cbn [set]. now rewrite String.eqb_refl.
    + destruct (String.eqb_spec k1 k) as [->|H2]; [exact IH|].
      cbn [set]. destruct (String.eqb_spec k1 k'); [contradiction | now rewrite IH].
Qed.

(** X1.  With a configuration in which the secret, the merchant code or
    the gateway URL is missing, [verifyReturnUrl] rejects with the error
    naming the first missing one, whatever the query holds: no digest is
    computed, [resolve] is not called and the query is as it was. *)
Theorem verifyReturnUrl_missing_config (this : VNPay) (q : obj) :
  missing (secureSecret (globalConfig this))
  || missing (tmnCode (globalConfig this))
  || missing (paymentGateway (globalConfig this)) = true ->
  let final := verifyReturnUrl this q in
  st_promise final =
    Some (Rejected (Error
      (if missing (secureSecret (globalConfig this)) then "Missing secure secret"
       else if missing (tmnCode (globalConfig this)) then "Missing merchant code"
       else "Missing payment gateway"))) /\
  digests (st_trace final) = [] /\
  (forall r, ~ In (EvResolve r) (st_trace final)) /\
  st_arg final = q.
Proof.
  intros Hm final. subst final. unfold missing in *.
  assert (Hv : validateGlobalConfig this =
               Some (Error
                 (if negb (truthy (field (secureSecret (globalConfig this))))
                  then "Missing secure secret"
                  else if negb (truthy (field (tmnCode (globalConfig this))))
                  then "Missing merchant code" else "Missing payment gateway"))).
  { unfold validateGlobalConfig.
    destruct (negb (truthy (field (secureSecret (globalConfig this))))); [reflexivity|].
    destruct (negb (truthy (field (tmnCode (globalConfig this))))); [reflexivity|].
    destruct (negb (truthy (field (paymentGateway (globalConfig this)))));
      [reflexivity | discriminate]. }
  rewrite (verifyReturnUrl_config_error _ _ _ Hv). cbn.
  repeat split; try reflexivity.
  intros r [Hin|[]]. discriminate.
Qed.

(** The result object of a run that gets to the end *)
Lemma verify_result_fields this q code signed k :
  get k (VerifyReturnUrlDTO (assign (assign [] (stripped q))
                                    (output_results this q code signed))) =
  match lookup k (output_results this q code signed) with
  | Some v => v
  | None => get k (assign [] (stripped q))
  end.
Proof.
  unfold VerifyReturnUrlDTO, get.
  assert (Hnd : NoDup (map fst (output_results this q code signed))).
  { unfold output_results.
    destruct (strict_eq _ _); apply NoDup_assign;
      repeat constructor; cbn; intuition discriminate. }
  rewrite (lookup_assign_full _ _ _ Hnd).
  now destruct (lookup k (output_results this q code signed)).
Qed.

Lemma output_results_fields this q code signed :
  let matches := strict_eq (get "vnp_SecureHash" q) (VStr signed) in
  lookup "isSuccess" (output_results this q code signed) =
    Some (VBool (matches && strict_eq (get "vnp_ResponseCode" q) (VStr "00"))) /\
  lookup "message" (output_results this q code signed) =
    Some (VStr (if matches then at_locale (catalog_entry code) (vnp_Locale this)
                else "Wrong checksum")) /\
  forall k, k <> "isSuccess" -> k <> "message" ->
            lookup k (output_results this q code signed) = None.
Proof.
  cbv zeta. unfold output_results, ReturnQueryFromVNPayDTO.
  rewrite stripped_response_code.
  destruct (strict_eq (get "vnp_SecureHash" q) (VStr signed));
    (split; [reflexivity | split; [reflexivity|]]);
    intros k H1 H2;
    (rewrite lookup_assign_other by (cbn [map fst In]; intuition congruence));
    cbn [lookup];
    destruct (String.eqb_spec "isSuccess" k); try congruence;
    destruct (String.eqb_spec "message" k); congruence.
Qed.

(** A run that gets to the end fulfils the promise with the fields of
    [outputResults] laid over those of the stripped query. *)
Lemma verify_settles this q k g u0 code :
  validateGlobalConfig this = None ->
  secureSecret (globalConfig this) = Some k ->
  paymentGateway (globalConfig this) = Some g ->
  URL_parse g = Some u0 ->
  toString (get "vnp_ResponseCode" q) = Some code ->
  exists r,
    st_promise (verifyReturnUrl this q) = Some (Fulfilled r) /\
    forall f, get f r =
              match lookup f (output_results this q code (recomputed k u0 q)) with
              | Some v => v
              | None => get f (assign [] (stripped q))
              end.
Proof.
  intros Hv Hk Hg Hu Hc.
  rewrite <- stripped_response_code in Hc.
  rewrite (verifyReturnUrl_run _ _ _ _ _ _ Hv Hk Hg Hu Hc).
  eexists. split; [reflexivity|]. intros f. apply verify_result_fields.
Qed.

(** X2.  With a configuration that passes the check, a gateway that
    parses and a query that carries a response code, [verifyReturnUrl]
    fulfils its promise; [isSuccess] is true exactly when [vnp_SecureHash]
    is the recomputed digest and the response code is the string "00", and
    the message is the table's text for the response code at the locale of
    the instance when the digest matches, "Wrong checksum" otherwise.  A
    field [isSuccess] or [message] of the query itself has no say. *)
Theorem verifyReturnUrl_verdict
    (this : VNPay) (q : obj) (k g : string) (u0 : URL) (code : string) :
  validateGlobalConfig this = None ->
  secureSecret (globalConfig this) = Some k ->
  paymentGateway (globalConfig this) = Some g ->
  URL_parse g = Some u0 ->
  toString (get "vnp_ResponseCode" q) = Some code ->
  let matches := strict_eq (get "vnp_SecureHash" q) (VStr (recomputed k u0 q)) in
  exists r,
    st_promise (verifyReturnUrl this q) = Some (Fulfilled r) /\
    get "isSuccess" r =
      VBool (matches && strict_eq (get "vnp_ResponseCode" q) (VStr "00")) /\
    get "message" r =
      VStr (if matches then at_locale (catalog_entry code) (vnp_Locale this)
            else "Wrong checksum").
Proof.
  intros Hv Hk Hg Hu Hc matches. subst matches.
  destruct (verify_settles this q k g u0 code Hv Hk Hg Hu Hc) as (r & Hr & Hf).
  exists r. split; [exact Hr|].
  destruct (output_results_fields this q code (recomputed k u0 q)) as (Hs & Hm & _).
  rewrite !Hf, Hs, Hm. split; reflexivity.
Qed.

(** X3.  A response code that the table does not know does not make
    [verifyReturnUrl] fail: with a matching digest the promise is fulfilled
    with [isSuccess = false] and the text stored under "default", at the
    locale of the instance. *)
Theorem verifyReturnUrl_unknown_code
    (this : VNPay) (q : obj) (k g : string) (u0 : URL) (code : string) :
  validateGlobalConfig this = None ->
  secureSecret (globalConfig this) = Some k ->
  paymentGateway (globalConfig this) = Some g ->
  URL_parse g = Some u0 ->
  toString (get "vnp_ResponseCode" q) = Some code ->
  lookup code responseMap = None ->
  get "vnp_SecureHash" q = VStr (recomputed k u0 q) ->
  exists r,
    st_promise (verifyReturnUrl this q) = Some (Fulfilled r) /\
    get "isSuccess" r = VBool false /\
    get "message" r =
      VStr (match vnp_Locale this with VN => "Giao dịch thất bại" | EN => "Failure" end).
Proof.
  intros Hv Hk Hg Hu Hc Hcode Hs.
  destruct (verify_settles this q k g u0 code Hv Hk Hg Hu Hc) as (r & Hr & Hf).
  exists r. split; [exact Hr|].
  destruct (output_results_fields this q code (recomputed k u0 q)) as (Hi & Hm & _).
  cbv zeta in Hi, Hm.
  rewrite !Hf, Hi, Hm, Hs. cbn [strict_eq]. rewrite String.eqb_refl.
  unfold catalog_entry. rewrite Hcode. split; [|now destruct (vnp_Locale this)].
  destruct (strict_eq (get "vnp_ResponseCode" q) (VStr "00")) eqn:E; [|reflexivity].
  apply strict_eq_VStr in E. rewrite E in Hc. injection Hc as <-. discriminate.
Qed.

Lemma stripped_NoDup (q : obj) : NoDup (map fst q) -> NoDup (map fst (stripped q)).
Proof. intros Hnd. unfold stripped, ReturnQueryFromVNPayDTO. now repeat apply NoDup_delete. Qed.

(** X4.  The result that [verifyReturnUrl] resolves with has neither
    [vnp_SecureHash] nor [vnp_SecureHashType], and every other field of the
    query, [isSuccess] and [message] apart, with the value it has in the
    query. *)
Theorem verifyReturnUrl_result_fields
    (this : VNPay) (q : obj) (k g : string) (u0 : URL) (code : string) :
  validateGlobalConfig this = None ->
  secureSecret (globalConfig this) = Some k ->
  paymentGateway (globalConfig this) = Some g ->
  URL_parse g = Some u0 ->
  toString (get "vnp_ResponseCode" q) = Some code ->
  unique_keys q = true ->
  exists r,
    st_promise (verifyReturnUrl this q) = Some (Fulfilled r) /\
    lookup "vnp_SecureHash" r = None /\
    lookup "vnp_SecureHashType" r = None /\
    forall f, f <> "vnp_SecureHash" -> f <> "vnp_SecureHashType" ->
              f <> "isSuccess" -> f <> "message" ->
              lookup f r = lookup f q.
Proof.
  intros Hv Hk Hg Hu Hc Huk.
  apply unique_keys_NoDup in Huk. pose proof (stripped_NoDup q Huk) as Hnd.
  rewrite <- stripped_response_code in Hc.
  rewrite (verifyReturnUrl_run _ _ _ _ _ _ Hv Hk Hg Hu Hc).
  eexists. split; [reflexivity|].
  destruct (output_results_fields this q code (recomputed k u0 q)) as (_ & _ & Hother).
  assert (Hl : forall f, f <> "isSuccess" -> f <> "message" ->
                 lookup f (VerifyReturnUrlDTO
                             (assign (assign [] (stripped q))
                                     (output_results this q code (recomputed k u0 q))))
                 = lookup f (stripped q)).
  { intros f H1 H2. unfold VerifyReturnUrlDTO.
    rewrite lookup_assign_other by (apply lookup_None; now apply Hother).
    now rewrite (assign_fresh _ Hnd). }
  split; [|split].
  - rewrite Hl by discriminate. unfold stripped.
    rewrite lookup_delete_neq by discriminate. apply lookup_delete_eq.
  - rewrite Hl by discriminate. unfold stripped. apply lookup_delete_eq.
  - intros f H1 H2 H3 H4. rewrite (Hl f H3 H4). unfold stripped, ReturnQueryFromVNPayDTO.
    now rewrite !lookup_delete_neq by congruence.
Qed.

Lemma stripped_set_hash_type (q : obj) (v : value) :
  stripped (set "vnp_SecureHashType" v q) = stripped q.
Proof.
  unfold stripped, ReturnQueryFromVNPayDTO.
  rewrite delete_set_neq by discriminate. apply delete_set_eq.
Qed.

(** X5.  [vnp_SecureHashType] has no part in the verification: whatever
    value the query gives it, the promise of [verifyReturnUrl] settles to
    the same value and the same digest is computed. *)
Theorem verifyReturnUrl_ignores_hash_type (this : VNPay) (q : obj) (v : value) :
  st_promise (verifyReturnUrl this (set "vnp_SecureHashType" v q)) =
  st_promise (verifyReturnUrl this q) /\
  digests (st_trace (verifyReturnUrl this (set "vnp_SecureHashType" v q))) =
  digests (st_trace (verifyReturnUrl this q)).
Proof.
  set (q' := set "vnp_SecureHashType" v q).
  assert (Hst : stripped q' = stripped q) by apply stripped_set_hash_type.
  assert (Hsh : get "vnp_SecureHash" q' = get "vnp_SecureHash" q).
  { unfold q', get. now rewrite lookup_set_neq by discriminate. }
  destruct (validateGlobalConfig this) as [e|] eqn:Hv.
  { now rewrite !(verifyReturnUrl_config_error _ _ _ Hv). }
  destruct (validateGlobalConfig_None _ Hv) as (k & t & g & Hk & _ & _ & _ & Hg & _).
  destruct (toString (get "vnp_ResponseCode" (stripped q))) as [code|] eqn:Hc.
  2: { rewrite (verifyReturnUrl_no_code _ q Hv Hc).
       rewrite <- Hst in Hc. now rewrite (verifyReturnUrl_no_code _ q' Hv Hc). }
  assert (Hc' := Hc). rewrite <- Hst in Hc'.
  destruct (URL_parse g) as [u0|] eqn:Hu.
  2: { now rewrite (verifyReturnUrl_bad_gateway _ _ _ _ Hv Hg Hu Hc),
                   (verifyReturnUrl_bad_gateway _ _ _ _ Hv Hg Hu Hc'). }
  rewrite (verifyReturnUrl_run _ _ _ _ _ _ Hv Hk Hg Hu Hc),
          (verifyReturnUrl_run _ _ _ _ _ _ Hv Hk Hg Hu Hc').
  cbn [st_promise st_trace digests flat_map app].
  unfold recomputed, output_results, ReturnQueryFromVNPayDTO.
  now rewrite Hst, Hsh.
Qed.
End Verify.

Section Build.
Context `{Platform} `{Imports}.

(** A parameter is appended for exactly the fields of the merged set whose
    value is not left out. *)
Lemma build_params_iff this payload clock k s :
  In (k, s) (build_params this payload clock) <->
  exists v, lookup k (build_data this payload clock) = Some v /\
            truthy v = true /\ s = String_ v.
Proof.
  unfold build_params, entries. split.
  - intros Hin. apply canonical_In_inv in Hin. destruct Hin as (v & Hin & Ht & ->).
    exists v. split; [|tauto]. apply In_lookup; [apply build_data_NoDup | exact Hin].
  - intros (v & Hl & Ht & ->). apply canonical_In; [now apply lookup_In | exact Ht].
Qed.

(** What a call with a good configuration and gateway resolves with *)
Lemma build_outcome this payload clock k g u0 :
  validateGlobalConfig this = None ->
  secureSecret (globalConfig this) = Some k ->
  paymentGateway (globalConfig this) = Some g ->
  URL_parse g = Some u0 ->
  exists u signed,
    built_URL this payload clock = Some u /\
    st_promise (buildPaymentUrl this payload clock) = Some (Fulfilled (URL_toString u)) /\
    url_searchParams u =
      url_searchParams u0 ++ build_params this payload clock ++ [("vnp_SecureHash", signed)] /\
    url_query u = Some (urlencoded_serialize (url_searchParams u)) /\
    URL_toString u =
      (url_base u0 ++ "?" ++ urlencoded_serialize (url_searchParams u)
       ++ match url_fragment u0 with None => "" | Some f => "#" ++ f end)%string /\
    signed = Crypto.hmac_sha512_hex k
               (signed_text (with_params u0 (build_data this payload clock))).
Proof.
  intros Hv Hk Hg Hu.
  destruct (Properties.built_URL_href this payload clock k g u0 Hv Hk Hg Hu)
    as (u & signed & Hb & Hr & Hp & Hq & Ht).
  exists u, signed. repeat (split; [assumption|]).
  destruct (Properties.built_URL_parameters this payload clock k g u0 Hk Hg Hu)
    as (u' & Hb' & _ & _ & Hp' & _).
  rewrite Hb in Hb'. injection Hb' as <-. rewrite Hp in Hp'.
  apply app_inv_head in Hp'. apply app_inv_head in Hp'. now injection Hp'.
Qed.


(** A field that the method does not compute comes from the payload, or
    else from the defaults. *)
Lemma build_data_merged this payload clock k :
  NoDup (map fst payload) ->
  k <> "vnp_CreateDate" -> k <> "vnp_Amount" -> k <> "vnp_TmnCode" ->
  lookup k (build_data this payload clock) =
  match lookup k (defaulted this payload) with
  | Some v => Some v
  | None => lookup k (configDefault this)
  end.
Proof.
  intros Hnd H1 H2 H3. unfold build_data.
  rewrite !lookup_set_neq by assumption.
  rewrite lookup_assign_full by now apply defaulted_NoDup.
  now rewrite (assign_fresh _ (configDefault_NoDup this)).
Qed.


(** X7.  A payload field that the method does not compute itself reaches
    the URL with the payload's value, also when a default exists under the
    same key; it is left out when that value is empty. *)
Theorem buildPaymentUrl_payload_field
    (this : VNPay) (payload : obj) (clock : value) (k g : string) (u0 : URL)
    (f : string) (v : value) :
  validateGlobalConfig this = None ->
  secureSecret (globalConfig this) = Some k ->
  paymentGateway (globalConfig this) = Some g ->
  URL_parse g = Some u0 ->
  unique_keys payload = true ->
  lookup f payload = Some v ->
  f <> "vnp_ReturnUrl" -> f <> "vnp_CreateDate" -> f <> "vnp_Amount" -> f <> "vnp_TmnCode" ->
  exists u signed,
    built_URL this payload clock = Some u /\
    st_promise (buildPaymentUrl this payload clock) = Some (Fulfilled (URL_toString u)) /\
    url_searchParams u =
      url_searchParams u0 ++ build_params this payload clock ++ [("vnp_SecureHash", signed)] /\
    url_query u = Some (urlencoded_serialize (url_searchParams u)) /\
    URL_toString u =
      (url_base u0 ++ "?" ++ urlencoded_serialize (url_searchParams u)
       ++ match url_fragment u0 with None => "" | Some f => "#" ++ f end)%string /\
    (forall s, In (f, s) (build_params this payload clock) <->
               truthy v = true /\ s = String_ v).
Proof.
  intros Hv Hk Hg Hu Huk Hl H1 H2 H3 H4.
  apply unique_keys_NoDup in Huk.
  destruct (build_outcome this payload clock k g u0 Hv Hk Hg Hu)
    as (u & signed & Hb & Hr & Hp & Hq & Hh & _).
  exists u, signed. split; [exact Hb|]. split; [exact Hr|]. split; [exact Hp|].
  split; [exact Hq|]. split; [exact Hh|].
  intros s. rewrite build_params_iff.
  rewrite (build_data_lookup _ _ _ _ _ Huk Hl H1 H2 H3 H4). split.
  - intros (w & [= <-] & Ht & ->). tauto.
  - intros [Ht ->]. now exists v.
Qed.



End Build.

Section RoundTrip.
Context `{Platform} `{Imports}.

(** The parameters of a built URL, read back as a return query: the two
    signature fields removed, the fields are the appended parameters, and
    the signature recomputed over them is the one the URL carries. *)
Lemma built_query this payload clock k u0 :
  unique_keys payload = true ->
  lookup "vnp_SecureHash" payload = None ->
  lookup "vnp_SecureHashType" payload = None ->
  let appended := build_params this payload clock in
  let signed :=
    Crypto.hmac_sha512_hex k (signed_text (with_params u0 (build_data this payload clock))) in
  let rq := fromEntries (appended ++ [("vnp_SecureHash", signed)]) in
  NoDup (map fst (as_fields appended)) /\
  stripped rq = as_fields appended /\
  recomputed k u0 rq = signed /\
  get "vnp_SecureHash" rq = VStr signed.
Proof.
  intros Huk Hsh Hsht appended signed rq.
  apply unique_keys_NoDup in Huk.
  set (data := build_data this payload clock) in *.
  pose proof (canonical_NoDup _ (build_data_NoDup this payload clock)) as Hnd.
  fold data in Hnd. change (NoDup (map fst appended)) in Hnd.
  assert (Hndf : NoDup (map fst (as_fields appended))).
  { unfold as_fields. rewrite map_map. exact Hnd. }
  assert (Hfresh : forall x, lookup x payload = None ->
                     x <> "vnp_TmnCode" -> x <> "vnp_Amount" -> x <> "vnp_CreateDate" ->
                     x <> "vnp_ReturnUrl" -> ~ In x (map fst (configDefault this)) ->
                     ~ In x (map fst (as_fields appended))).
  { intros x Hx H1 H2 H3 H4 H5 Hin. unfold as_fields in Hin. rewrite map_map in Hin.
    cbn [fst] in Hin. change (In x (map fst appended)) in Hin.
    unfold appended, build_params in Hin. rewrite canonical_keys in Hin.
    apply in_map_iff in Hin. destruct Hin as (e & <- & He).
    apply filter_In in He. destruct He as [He _]. apply Array_sort_In in He.
    apply (in_map fst) in He. apply build_data_keys in He.
    apply lookup_None in Hx. cbn in H5. cbn in He. intuition congruence. }
  assert (Hnsh : ~ In "vnp_SecureHash" (map fst (as_fields appended))).
  { apply Hfresh; try discriminate; [exact Hsh | cbn; intuition discriminate]. }
  assert (Hnsht : ~ In "vnp_SecureHashType" (map fst (as_fields appended))).
  { apply Hfresh; try discriminate; [exact Hsht | cbn; intuition discriminate]. }
  assert (Hrq : rq = as_fields appended ++ [("vnp_SecureHash", VStr signed)]).
  { unfold rq, fromEntries. fold (as_fields (appended ++ [("vnp_SecureHash", signed)])).
    unfold as_fields at 1. rewrite map_app. fold (as_fields appended).
    apply assign_fresh. rewrite map_app. cbn [map fst].
    apply NoDup_app; [exact Hndf | repeat constructor; intros [] |].
    intros x Hx [<-|[]]. contradiction. }
  assert (Hst : stripped rq = as_fields appended).
  { unfold stripped, ReturnQueryFromVNPayDTO. rewrite Hrq.
    rewrite (delete_app_last _ _ _ Hnsh). now apply delete_absent. }
  split; [exact Hndf|]. split; [exact Hst|]. split.
  - unfold recomputed, with_params. rewrite Hst. unfold entries at 1.
    rewrite canonical_as_fields; [reflexivity | apply canonical_sorted |].
    intros [x v] Hin. apply canonical_In_inv in Hin.
    destruct Hin as (w & _ & Hw & ->). now apply String_truthy.
  - rewrite Hrq. unfold get. now rewrite (lookup_app_last _ _ _ Hnsh).
Qed.

(** The response code a built query carries is the text of the payload's,
    and none when the payload has none or an empty one. *)
Lemma built_query_code this payload clock :
  unique_keys payload = true ->
  get "vnp_ResponseCode" (as_fields (build_params this payload clock)) =
  match lookup "vnp_ResponseCode" payload with
  | Some c => if truthy c then VStr (String_ c) else VUndefined
  | None => VUndefined
  end.
Proof.
  intros Huk. apply unique_keys_NoDup in Huk.
  assert (Hnd : NoDup (map fst (as_fields (build_params this payload clock)))).
  { unfold as_fields. rewrite map_map. cbn [fst].
    apply (canonical_NoDup _ (build_data_NoDup this payload clock)). }
  assert (Hd : lookup "vnp_ResponseCode" (build_data this payload clock)
               = lookup "vnp_ResponseCode" payload).
  { rewrite (build_data_merged _ _ _ _ Huk) by discriminate.
    rewrite defaulted_lookup by discriminate.
    destruct (lookup "vnp_ResponseCode" payload); [reflexivity|].
    apply lookup_None. cbn. intuition discriminate. }
  unfold get.
  destruct (lookup "vnp_ResponseCode" (as_fields (build_params this payload clock)))
    as [w|] eqn:Hl.
  - apply lookup_In in Hl. unfold as_fields in Hl. apply in_map_iff in Hl.
    destruct Hl as ([x s] & Heq & Hin). cbn in Heq. injection Heq as -> <-.
    apply build_params_iff in Hin. destruct Hin as (v & Hv & Ht & ->).
    rewrite Hd in Hv. rewrite Hv, Ht. reflexivity.
  - destruct (lookup "vnp_ResponseCode" payload) as [c|] eqn:Hc; [|reflexivity].
    destruct (truthy c) eqn:Ht; [|reflexivity].
    exfalso. apply lookup_None in Hl. apply Hl.
    unfold as_fields. rewrite map_map. cbn [fst].
    change "vnp_ResponseCode" with (fst ("vnp_ResponseCode", String_ c)).
    apply in_map. apply build_params_iff. exists c. rewrite Hd. auto.
Qed.


(** X12.  Handing the parameters of a freshly built URL to
    [verifyReturnUrl] when the payload carried a response code: the
    recomputed signature is the one in the URL, so the result never says
    "Wrong checksum"; its message is the catalog text of the code, and
    [isSuccess] tells whether the text of the code is ["00"]. *)
Theorem built_URL_with_code_verifies
    (this : VNPay) (payload : obj) (clock : value) (k g : string) (u0 : URL) (c : value) :
  validateGlobalConfig this = None ->
  secureSecret (globalConfig this) = Some k ->
  paymentGateway (globalConfig this) = Some g ->
  URL_parse g = Some u0 ->
  url_searchParams u0 = [] ->
  unique_keys payload = true ->
  lookup "vnp_SecureHash" payload = None ->
  lookup "vnp_SecureHashType" payload = None ->
  lookup "vnp_ResponseCode" payload = Some c ->
  truthy c = true ->
  exists u r,
    built_URL this payload clock = Some u /\
    st_promise (buildPaymentUrl this payload clock) = Some (Fulfilled (URL_toString u)) /\
    url_query u = Some (urlencoded_serialize (url_searchParams u)) /\
    URL_toString u =
      (url_base u0 ++ "?" ++ urlencoded_serialize (url_searchParams u)
       ++ match url_fragment u0 with None => "" | Some f => "#" ++ f end)%string /\
    st_promise (verifyReturnUrl this (fromEntries (url_searchParams u)))
    = Some (Fulfilled r) /\
    get "isSuccess" r = VBool (String_ c =? "00")%string /\
    get "message" r = VStr (at_locale (catalog_entry (String_ c)) (vnp_Locale this)).
Proof.
  intros Hv Hk Hg Hu Hp0 Huk Hsh Hsht Hrc Ht.
  destruct (build_outcome this payload clock k g u0 Hv Hk Hg Hu)
    as (u & signed & Hb & Hr & Hp & Hquery & Hh & Hs).
  rewrite Hp0 in Hp. cbn [app] in Hp.
  destruct (built_query this payload clock k u0 Huk Hsh Hsht) as (_ & Hst & Hsig & Hget).
  cbv zeta in Hst, Hsig, Hget. rewrite <- Hs in Hst, Hsig, Hget.
  rewrite <- Hp in Hst, Hsig, Hget.
  set (rq := fromEntries (url_searchParams u)) in *.
  assert (Hcode : get "vnp_ResponseCode" (stripped rq) = VStr (String_ c)).
  { rewrite Hst, (built_query_code _ _ _ Huk), Hrc, Ht. reflexivity. }
  assert (Hq : get "vnp_ResponseCode" rq = VStr (String_ c)).
  { now rewrite <- stripped_response_code. }
  assert (Hc : toString (get "vnp_ResponseCode" rq) = Some (String_ c)).
  { now rewrite Hq. }
  destruct (verify_settles this rq k g u0 (String_ c) Hv Hk Hg Hu Hc) as (r & Hres & Hf).
  exists u, r. split; [exact Hb|]. split; [exact Hr|]. split; [exact Hquery|].
  split; [exact Hh|]. split; [exact Hres|].
  destruct (output_results_fields this rq (String_ c) (recomputed k u0 rq)) as (Hok & Hmsg & _).
  cbv zeta in Hok, Hmsg.
  rewrite !Hf, Hok, Hmsg, Hsig, Hget, Hq. cbn [strict_eq].
  rewrite String.eqb_refl. split; reflexivity.
Qed.
End RoundTrip.

Section FieldOrder.
Context `{Platform} `{Imports}.

Lemma distinguishes_incl (ks ks' : list string) :
  (forall x, In x ks' -> In x ks) -> distinguishes ks -> distinguishes ks'.
Proof. intros Hi D a b Ha Hb. apply D; auto. Qed.

(** Entries with distinct keys that [localeCompare] tells apart have one
    arrangement in key order only. *)
Lemma sorted_entries_unique (a b : list (string * value)) :
  StronglySorted (le by_key) a -> StronglySorted (le by_key) b ->
  Permutation a b -> NoDup (map fst a) -> distinguishes (map fst a) -> a = b.
Proof.
  revert b. induction a as [|x a IH]; intros b Sa Sb P Nd D.
  - apply Permutation_nil in P. now subst.
  - destruct b as [|y b].
    { symmetry in P. apply Permutation_nil in P. discriminate. }
    inversion Sa as [|? ? Sa' Fa]; inversion Sb as [|? ? Sb' Fb]; subst.
    rewrite Forall_forall in Fa, Fb.
    cbn [map] in Nd. inversion Nd as [|? ? Hx Nd']; subst.
    assert (E : x = y).
    { destruct (Permutation_in _ P (in_eq x a)) as [->|Hxb]; [reflexivity|].
      destruct (Permutation_in _ (Permutation_sym P) (in_eq y b)) as [->|Hya];
        [reflexivity|].
      exfalso. apply Hx.
      assert (Ek : fst x = fst y).
      { apply D; [now left | right; now apply in_map | now apply Fa | now apply Fb]. }
      rewrite Ek. now apply in_map. }
    subst y. f_equal. apply IH; try assumption.
    + now apply Permutation_cons_inv in P.
    + apply (distinguishes_incl (map fst (x :: a))); [intros k Hk; now right | exact D].
Qed.

Lemma same_lookup_perm (a b : obj) :
  NoDup (map fst a) -> NoDup (map fst b) ->
  (forall k, lookup k a = lookup k b) -> Permutation a b.
Proof.
  intros Na Nb Hl. apply NoDup_Permutation.
  - now apply NoDup_map_inv in Na.
  - now apply NoDup_map_inv in Nb.
  - intros [k v]. split; intros Hin.
    + apply (In_lookup _ _ _ Na) in Hin. rewrite Hl in Hin. now apply lookup_In.
    + apply (In_lookup _ _ _ Nb) in Hin. rewrite <- Hl in Hin. now apply lookup_In.
Qed.

Lemma perm_same_lookup (a b : obj) :
  Permutation a b -> NoDup (map fst a) -> forall k, lookup k a = lookup k b.
Proof.
  intros P Na k.
  assert (Nb : NoDup (map fst b)).
  { apply (Permutation_NoDup (Permutation_map fst P) Na). }
  destruct (lookup k a) as [v|] eqn:E.
  - apply lookup_In in E. apply (Permutation_in _ P) in E.
    symmetry. now apply In_lookup.
  - symmetry. apply lookup_None. apply lookup_None in E. intros Hin. apply E.
    apply (Permutation_in _ (Permutation_sym (Permutation_map fst P)) Hin).
Qed.

(** Two field sets with the same fields are visited by the property loop
    in the same order. *)
Lemma sort_same (a b : obj) :
  NoDup (map fst a) -> NoDup (map fst b) ->
  (forall k, lookup k a = lookup k b) -> distinguishes (map fst a) ->
  Array_sort by_key (entries a) = Array_sort by_key (entries b).
Proof.
  intros Na Nb Hl D. unfold entries.
  assert (Pa : Permutation (Array_sort by_key a) a) by apply Array_sort_perm.
  assert (Pb : Permutation (Array_sort by_key b) b) by apply Array_sort_perm.
  apply sorted_entries_unique.
  - apply Array_sort_sorted; [apply by_key_total | apply by_key_trans].
  - apply Array_sort_sorted; [apply by_key_total | apply by_key_trans].
  - rewrite Pa, Pb. now apply same_lookup_perm.
  - apply (Permutation_NoDup (Permutation_sym (Permutation_map fst Pa)) Na).
  - apply (distinguishes_incl (map fst a)); [|exact D].
    intros x Hx. apply (Permutation_in _ (Permutation_map fst Pa) Hx).
Qed.

Lemma stripped_same_lookup (q q' : obj) :
  (forall k, lookup k q = lookup k q') ->
  forall k, lookup k (stripped q) = lookup k (stripped q').
Proof.
  intros Hl k. unfold stripped, ReturnQueryFromVNPayDTO.
  destruct (string_dec k "vnp_SecureHashType") as [->|H1].
  { now rewrite !lookup_delete_eq. }
  rewrite !(lookup_delete_neq k "vnp_SecureHashType") by exact H1.
  destruct (string_dec k "vnp_SecureHash") as [->|H2].
  { now rewrite !lookup_delete_eq. }
  now rewrite !(lookup_delete_neq k "vnp_SecureHash") by exact H2.
Qed.

Lemma stripped_keys (q : obj) (x : string) :
  In x (map fst (stripped q)) -> In x (map fst q).
Proof.
  unfold stripped, ReturnQueryFromVNPayDTO. intros Hx. now do 2 apply keys_delete in Hx.
Qed.

(** X13.  The order in which the fields of the return query arrive has no
    part in the verification, as long as the query has no repeated key and
    [localeCompare] tells its keys apart: two queries with the same fields
    in different orders give the same rejection, or results with the same
    fields, and the same digest is computed. *)
Theorem verifyReturnUrl_field_order (this : VNPay) (q q' : obj) :
  Permutation q q' ->
  unique_keys q = true ->
  distinguishes (map fst q) ->
  same_outcome (st_promise (verifyReturnUrl this q)) (st_promise (verifyReturnUrl this q')) /\
  digests (st_trace (verifyReturnUrl this q)) = digests (st_trace (verifyReturnUrl this q')).
Proof.
  intros P Huk D. apply unique_keys_NoDup in Huk.
  assert (Huk' : NoDup (map fst q')).
  { apply (Permutation_NoDup (Permutation_map fst P) Huk). }
  pose proof (perm_same_lookup q q' P Huk) as Hl.
  pose proof (stripped_same_lookup q q' Hl) as Hst.
  assert (Hsort : Array_sort by_key (entries (stripped q))
                  = Array_sort by_key (entries (stripped q'))).
  { apply sort_same; try (now apply stripped_NoDup); [exact Hst|].
    apply (distinguishes_incl (map fst q)); [apply stripped_keys | exact D]. }
  assert (Hwp : forall u0, with_params u0 (stripped q) = with_params u0 (stripped q')).
  { intros u0. unfold with_params. now rewrite Hsort. }
  assert (Hsh : get "vnp_SecureHash" q = get "vnp_SecureHash" q').
  { unfold get. now rewrite Hl. }
  assert (Hrc : get "vnp_ResponseCode" (stripped q) = get "vnp_ResponseCode" (stripped q')).
  { unfold get. now rewrite Hst. }
  destruct (validateGlobalConfig this) as [e|] eqn:Hv.
  { rewrite !(verifyReturnUrl_config_error _ _ _ Hv). now split. }
  destruct (validateGlobalConfig_None _ Hv) as (k & t & g & Hk & _ & _ & _ & Hg & _).
  destruct (toString (get "vnp_ResponseCode" (stripped q))) as [code|] eqn:Hc.
  2: { rewrite (verifyReturnUrl_no_code _ q Hv Hc).
       rewrite Hrc in Hc. rewrite (verifyReturnUrl_no_code _ q' Hv Hc). now split. }
  assert (Hc' := Hc). rewrite Hrc in Hc'.
  destruct (URL_parse g) as [u0|] eqn:Hu.
  2: { rewrite (verifyReturnUrl_bad_gateway _ _ _ _ Hv Hg Hu Hc),
               (verifyReturnUrl_bad_gateway _ _ _ _ Hv Hg Hu Hc'). now split. }
  rewrite (verifyReturnUrl_run _ _ _ _ _ _ Hv Hk Hg Hu Hc),
          (verifyReturnUrl_run _ _ _ _ _ _ Hv Hk Hg Hu Hc').
  cbn [st_promise st_trace digests flat_map app same_outcome].
  assert (Hsig : recomputed k u0 q = recomputed k u0 q').
  { unfold recomputed. now rewrite Hwp. }
  assert (Hout : output_results this q code (recomputed k u0 q)
                 = output_results this q' code (recomputed k u0 q')).
  { unfold output_results, ReturnQueryFromVNPayDTO. now rewrite Hsig, Hsh, Hrc. }
  split; [|now rewrite Hwp, Hsig].
  intros f. unfold VerifyReturnUrlDTO. rewrite Hout.
  assert (Hnd : NoDup (map fst (output_results this q' code (recomputed k u0 q')))).
  { unfold output_results.
    destruct (strict_eq _ _); apply NoDup_assign;
      repeat constructor; cbn; intuition discriminate. }
  rewrite !(lookup_assign_full _ _ _ Hnd).
  rewrite !assign_fresh by now apply stripped_NoDup.
  now rewrite Hst.
Qed.

Lemma defaulted_same_lookup this (p p' : obj) :
  (forall k, lookup k p = lookup k p') ->
  forall k, lookup k (defaulted this p) = lookup k (defaulted this p').
Proof.
  intros Hl k. unfold defaulted.
  assert (Hr : get "vnp_ReturnUrl" p = get "vnp_ReturnUrl" p').
  { unfold get. now rewrite Hl. }
  rewrite <- Hr. destruct (negb (truthy (get "vnp_ReturnUrl" p))); [|apply Hl].
  destruct (string_dec k "vnp_ReturnUrl") as [->|Hk].
  - now rewrite !lookup_set_eq.
  - now rewrite !lookup_set_neq by exact Hk.
Qed.

Lemma build_data_same_lookup this (p p' : obj) clock :
  NoDup (map fst p) -> NoDup (map fst p') ->
  (forall k, lookup k p = lookup k p') ->
  forall k, lookup k (build_data this p clock) = lookup k (build_data this p' clock).
Proof.
  intros Np Np' Hl k.
  pose proof (defaulted_same_lookup this p p' Hl) as Hd.
  assert (Hm : forall x,
             lookup x (assign (assign [] (configDefault this)) (defaulted this p))
             = lookup x (assign (assign [] (configDefault this)) (defaulted this p'))).
  { intros x.
    rewrite (lookup_assign_full x _ (defaulted this p)) by now apply defaulted_NoDup.
    rewrite (lookup_assign_full x _ (defaulted this p')) by now apply defaulted_NoDup.
    now rewrite Hd. }
  unfold build_data.
  destruct (string_dec k "vnp_TmnCode") as [->|H1]; [now rewrite !lookup_set_eq|].
  rewrite !(lookup_set_neq k "vnp_TmnCode") by exact H1.
  destruct (string_dec k "vnp_Amount") as [->|H2].
  { rewrite !lookup_set_eq. unfold get.
    now rewrite !(lookup_set_neq "vnp_Amount" "vnp_CreateDate") by discriminate; rewrite Hm. }
  rewrite !(lookup_set_neq k "vnp_Amount") by exact H2.
  destruct (string_dec k "vnp_CreateDate") as [->|H3]; [now rewrite !lookup_set_eq|].
  rewrite !(lookup_set_neq k "vnp_CreateDate") by exact H3.
  apply Hm.
Qed.

Lemma digests_app {A : Type} (t t' : list (event A)) :
  digests (t ++ t') = (digests t ++ digests t')%list.
Proof. apply flat_map_app. Qed.

Lemma digests_validated_events (errs : list ValidationError) :
  digests (validated_events errs : list (event string)) = [].
Proof. unfold validated_events. now destruct (0 <? Z.of_nat (List.length errs)). Qed.

(** X14.  The order of the fields of the payload has no part in the URL:
    two payloads with the same fields in different orders, without
    repeated key and with keys that [localeCompare] tells apart, settle the
    promise of [buildPaymentUrl] to the same value, signed with the same
    digest. *)
Theorem buildPaymentUrl_field_order (this : VNPay) (p p' : obj) (clock : value) :
  Permutation p p' ->
  unique_keys p = true ->
  distinguishes (map fst (build_data this p clock)) ->
  st_promise (buildPaymentUrl this p clock) = st_promise (buildPaymentUrl this p' clock) /\
  digests (st_trace (buildPaymentUrl this p clock))
  = digests (st_trace (buildPaymentUrl this p' clock)).
Proof.
  intros P Huk D. apply unique_keys_NoDup in Huk.
  assert (Huk' : NoDup (map fst p')).
  { apply (Permutation_NoDup (Permutation_map fst P) Huk). }
  pose proof (perm_same_lookup p p' P Huk) as Hl.
  assert (Hsort : Array_sort by_key (entries (build_data this p clock))
                  = Array_sort by_key (entries (build_data this p' clock))).
  { apply sort_same; try apply build_data_NoDup; [|exact D].
    now apply build_data_same_lookup. }
  assert (Hwp : forall u0, with_params u0 (build_data this p clock)
                           = with_params u0 (build_data this p' clock)).
  { intros u0. unfold with_params. now rewrite Hsort. }
  destruct (validateGlobalConfig this) as [e|] eqn:Hv.
  { rewrite !(buildPaymentUrl_config_error _ _ _ _ Hv). now split. }
  destruct (validateGlobalConfig_None _ Hv) as (k & t & g & Hk & _ & _ & _ & Hg & _).
  destruct (URL_parse g) as [u0|] eqn:Hu.
  2: { rewrite !(buildPaymentUrl_bad_gateway _ _ _ _ Hv Hg Hu).
       cbn [st_promise st_trace]. now rewrite !digests_validated_events. }
  rewrite !(buildPaymentUrl_run _ _ _ _ _ _ Hv Hk Hg Hu).
  cbn [st_promise st_trace]. rewrite !digests_app, !digests_validated_events.
  cbn [digests flat_map app]. now rewrite Hwp.
Qed.
End FieldOrder.

Section Instances.
Context `{Platform} `{Imports}.

(** X15.  A gateway that is not empty but does not parse as a URL passes
    the configuration check and then fails every call: [buildPaymentUrl]
    rejects with the TypeError of [new URL], having computed no digest and
    not called [resolve]; so does [verifyReturnUrl] on a query that carries
    a response code. *)
Theorem unparsable_gateway_rejects (this : VNPay) (g : string) :
  validateGlobalConfig this = None ->
  paymentGateway (globalConfig this) = Some g ->
  URL_parse g = None ->
  (forall payload clock,
     let final := buildPaymentUrl this payload clock in
     st_promise final = Some (Rejected (TypeError "Invalid URL")) /\
     digests (st_trace final) = [] /\
     (forall url, ~ In (EvResolve url) (st_trace final))) /\
  (forall q code,
     toString (get "vnp_ResponseCode" q) = Some code ->
     let final := verifyReturnUrl this q in
     st_promise final = Some (Rejected (TypeError "Invalid URL")) /\
     st_trace final = []).
Proof.
  intros Hv Hg Hu. split.
  - intros payload clock final. subst final.
    rewrite (buildPaymentUrl_bad_gateway _ _ _ _ Hv Hg Hu). cbn [st_promise st_trace].
    split; [reflexivity|]. split; [apply digests_validated_events|].
    intros url. unfold validated_events.
    destruct (0 <? Z.of_nat (List.length _)); cbn; intuition discriminate.
  - intros q code Hc final. subst final.
    rewrite <- stripped_response_code in Hc.
    rewrite (verifyReturnUrl_bad_gateway _ _ _ _ Hv Hg Hu Hc). now split.
Qed.

(** No text of the response table is the text of a failed checksum. *)
Lemma catalog_not_wrong_checksum (code : string) (l : VnpLocale) :
  at_locale (catalog_entry code) l <> "Wrong checksum".
Proof.
  assert (Hall : forallb (fun e => negb (at_locale (snd e) VN =? "Wrong checksum")%string
                                   && negb (at_locale (snd e) EN =? "Wrong checksum")%string)
                         responseMap = true) by (vm_compute; reflexivity).
  rewrite forallb_forall in Hall.
  unfold catalog_entry. destruct (lookup code responseMap) as [t|] eqn:E.
  - apply lookup_In in E. apply Hall in E. cbn [snd] in E.
    apply andb_true_iff in E. destruct E as [E1 E2].
    apply negb_true_iff in E1, E2. apply String.eqb_neq in E1, E2.
    now destruct l.
  - now destruct l.
Qed.

(** X16.  The message of a result of [verifyReturnUrl] is "Wrong checksum"
    exactly when [vnp_SecureHash] is not the recomputed digest: no response
    code has this text in the table, in either language. *)
Theorem verifyReturnUrl_wrong_checksum_iff
    (this : VNPay) (q : obj) (k g : string) (u0 : URL) (code : string) :
  validateGlobalConfig this = None ->
  secureSecret (globalConfig this) = Some k ->
  paymentGateway (globalConfig this) = Some g ->
  URL_parse g = Some u0 ->
  toString (get "vnp_ResponseCode" q) = Some code ->
  exists r,
    st_promise (verifyReturnUrl this q) = Some (Fulfilled r) /\
    (get "message" r = VStr "Wrong checksum" <->
     get "vnp_SecureHash" q <> VStr (recomputed k u0 q)).
Proof.
  intros Hv Hk Hg Hu Hc.
  destruct (verify_settles this q k g u0 code Hv Hk Hg Hu Hc) as (r & Hr & Hf).
  exists r. split; [exact Hr|].
  destruct (output_results_fields this q code (recomputed k u0 q)) as (_ & Hm & _).
  cbv zeta in Hm. rewrite Hf, Hm.
  destruct (strict_eq (get "vnp_SecureHash" q) (VStr (recomputed k u0 q))) eqn:E.
  - apply strict_eq_VStr in E. split; [|congruence].
    intros [= Hw]. now apply catalog_not_wrong_checksum in Hw.
  - split; [|reflexivity]. intros _ Heq. apply strict_eq_VStr in Heq. congruence.
Qed.

(** X17.  Reading the defaults after setting them gives the former
    defaults with the given fields laid over them, as [Object.assign]
    would, a field that is not given keeping its value; the configuration
    and its check are as before. *)
Theorem set_configDefault_round_trip (this : VNPay) (config : ConfigDefault) :
  configDefault (set_configDefault this config)
  = assign (configDefault this) (ConfigDefault_fields config) /\
  globalConfig (set_configDefault this config) = globalConfig this /\
  validateGlobalConfig (set_configDefault this config) = validateGlobalConfig this.
Proof.
  split; [|split; reflexivity].
  destruct config as [[v|] [c|] [u|] [l|] [o|]]; reflexivity.
Qed.

(** X18.  Changing the defaults of an instance changes nothing in the
    verdict of [verifyReturnUrl]: the same digest is recomputed and
    [isSuccess] is the same; the message is read at the locale that was
    set, or at the former one when none was. *)
Theorem set_configDefault_keeps_verdict
    (this : VNPay) (config : ConfigDefault) (q : obj) (k g : string) (u0 : URL)
    (code : string) :
  validateGlobalConfig this = None ->
  secureSecret (globalConfig this) = Some k ->
  paymentGateway (globalConfig this) = Some g ->
  URL_parse g = Some u0 ->
  toString (get "vnp_ResponseCode" q) = Some code ->
  let this' := set_configDefault this config in
  exists r r',
    st_promise (verifyReturnUrl this q) = Some (Fulfilled r) /\
    st_promise (verifyReturnUrl this' q) = Some (Fulfilled r') /\
    digests (st_trace (verifyReturnUrl this' q)) = digests (st_trace (verifyReturnUrl this q)) /\
    get "isSuccess" r' = get "isSuccess" r /\
    get "message" r' =
      VStr (if strict_eq (get "vnp_SecureHash" q) (VStr (recomputed k u0 q))
            then at_locale (catalog_entry code)
                           (or_current (cd_Locale config) (vnp_Locale this))
            else "Wrong checksum").
Proof.
  intros Hv Hk Hg Hu Hc this'.
  assert (Hv' : validateGlobalConfig this' = None) by exact Hv.
  assert (Hk' : secureSecret (globalConfig this') = Some k) by exact Hk.
  assert (Hg' : paymentGateway (globalConfig this') = Some g) by exact Hg.
  assert (Hs := Hc). rewrite <- stripped_response_code in Hs.
  exists (VerifyReturnUrlDTO (assign (assign [] (stripped q))
                                     (output_results this q code (recomputed k u0 q)))).
  exists (VerifyReturnUrlDTO (assign (assign [] (stripped q))
                                     (output_results this' q code (recomputed k u0 q)))).
  rewrite (verifyReturnUrl_run this _ _ _ _ _ Hv Hk Hg Hu Hs).
  rewrite (verifyReturnUrl_run this' _ _ _ _ _ Hv' Hk' Hg' Hu Hs).
  cbn [st_promise st_trace].
  split; [reflexivity|]. split; [reflexivity|]. split; [reflexivity|].
  destruct (output_results_fields this q code (recomputed k u0 q)) as (Hi & _ & _).
  destruct (output_results_fields this' q code (recomputed k u0 q)) as (Hi' & Hm' & _).
  rewrite !verify_result_fields, Hi, Hi', Hm'. split; reflexivity.
Qed.

(** X19.  The sandbox gateway takes the place of a gateway that is not
    given, and of that only: an instance made with an empty gateway string
    keeps it, and its calls report the gateway missing. *)
Theorem constructor_gateway_default (init : ConfigVnpayDTO) :
  PAYMENT_GATEWAY_SANDBOX <> "" ->
  missing (secureSecret init) = false ->
  missing (tmnCode init) = false ->
  (paymentGateway init = None ->
   validateGlobalConfig (new_VNPay init) = None /\
   paymentGateway (globalConfig (new_VNPay init)) = Some PAYMENT_GATEWAY_SANDBOX) /\
  (paymentGateway init = Some "" ->
   forall payload clock q,
     st_promise (buildPaymentUrl (new_VNPay init) payload clock)
     = Some (Rejected (Error "Missing payment gateway")) /\
     st_promise (verifyReturnUrl (new_VNPay init) q)
     = Some (Rejected (Error "Missing payment gateway"))).
Proof.
  intros Hs Hsec Htmn. unfold missing in *. apply negb_false_iff in Hsec, Htmn.
  split.
  - intros Hg. split; [|unfold new_VNPay; cbn; now rewrite Hg].
    unfold validateGlobalConfig, new_VNPay. cbn [globalConfig secureSecret tmnCode paymentGateway].
    rewrite Hsec, Htmn, Hg. cbn.
    now destruct (String.eqb_spec PAYMENT_GATEWAY_SANDBOX "").
  - intros Hg payload clock q.
    assert (Hv : validateGlobalConfig (new_VNPay init)
                 = Some (Error "Missing payment gateway")).
    { unfold validateGlobalConfig, new_VNPay.
      cbn [globalConfig secureSecret tmnCode paymentGateway].
      now rewrite Hsec, Htmn, Hg. }
    now rewrite (buildPaymentUrl_config_error _ _ _ _ Hv), (verifyReturnUrl_config_error _ _ _ Hv).
Qed.

(** X20.  The parameters that [buildPaymentUrl] appends before the
    signature have distinct names and non-empty values, and none of them is
    called [vnp_SecureHash] unless the payload has a field of that name. *)
Theorem buildPaymentUrl_parameters_distinct
    (this : VNPay) (payload : obj) (clock : value) (k g : string) (u0 : URL) :
  validateGlobalConfig this = None ->
  secureSecret (globalConfig this) = Some k ->
  paymentGateway (globalConfig this) = Some g ->
  URL_parse g = Some u0 ->
  exists u signed,
    built_URL this payload clock = Some u /\
    st_promise (buildPaymentUrl this payload clock) = Some (Fulfilled (URL_toString u)) /\
    url_searchParams u =
      url_searchParams u0 ++ build_params this payload clock ++ [("vnp_SecureHash", signed)] /\
    url_query u = Some (urlencoded_serialize (url_searchParams u)) /\
    URL_toString u =
      (url_base u0 ++ "?" ++ urlencoded_serialize (url_searchParams u)
       ++ match url_fragment u0 with None => "" | Some f => "#" ++ f end)%string /\
    NoDup (map fst (build_params this payload clock)) /\
    (forall f s, In (f, s) (build_params this payload clock) -> s <> "") /\
    (lookup "vnp_SecureHash" payload = None ->
     ~ In "vnp_SecureHash" (map fst (build_params this payload clock))).
Proof.
  intros Hv Hk Hg Hu.
  destruct (build_outcome this payload clock k g u0 Hv Hk Hg Hu)
    as (u & signed & Hb & Hr & Hp & Hq & Hh & _).
  exists u, signed. split; [exact Hb|]. split; [exact Hr|]. split; [exact Hp|].
  split; [exact Hq|]. split; [exact Hh|]. split; [|split].
  - apply (canonical_NoDup _ (build_data_NoDup this payload clock)).
  - intros f s Hin ->. apply build_params_iff in Hin. destruct Hin as (v & _ & Ht & Hs).
    apply String_truthy in Ht. rewrite <- Hs in Ht. discriminate.
  - intros Hl Hin. unfold build_params in Hin. rewrite canonical_keys in Hin.
    apply in_map_iff in Hin. destruct Hin as (e & He & Hin).
    apply filter_In in Hin. destruct Hin as [Hin _]. apply Array_sort_In in Hin.
    apply (in_map fst) in Hin. rewrite He in Hin. apply build_data_keys in Hin.
    apply lookup_None in Hl. destruct Hin as [Hin|Hin]; [|contradiction].
    cbn in Hin. intuition discriminate.
Qed.
End Instances.

(** *** The properties on the example of the class comment *)

Import Demo.

(** Comparison by code units tells any two strings apart. *)
Lemma string_compare_distinguishes (keys : list string) : @distinguishes platform keys.
Proof.
  intros a b _ _ Hab Hba. cbn in Hab, Hba.
  rewrite String.compare_antisym in Hab.
  destruct (String.compare b a) eqn:E.
  - symmetry. now apply String.compare_eq_iff.
  - now cbn in Hab.
  - contradiction.
Qed.

(** X1: an instance without a merchant code, asked to verify a query. *)
Lemma unconfigured_instance_verifies_nothing :
  st_promise (verifyReturnUrl vnpay_without_tmnCode signed_query) =
    Some (Rejected (Error "Missing merchant code")) /\
  digests (st_trace (verifyReturnUrl vnpay_without_tmnCode signed_query)) = [] /\
  (forall r, ~ In (EvResolve r) (st_trace (verifyReturnUrl vnpay_without_tmnCode signed_query))) /\
  st_arg (verifyReturnUrl vnpay_without_tmnCode signed_query) = signed_query.
Proof.
  exact (@verifyReturnUrl_missing_config platform imports vnpay_without_tmnCode signed_query
           eq_refl).
Defined.

(** X2: a query signed with the secret, response code "00". *)
Lemma signed_query_is_approved :
  exists r,
    st_promise (verifyReturnUrl vnpay signed_query) = Some (Fulfilled r) /\
    get "isSuccess" r = VBool true /\
    get "message" r = VStr "Giao dịch thành công".
Proof.
  destruct (@verifyReturnUrl_verdict platform imports vnpay signed_query "SERCRET" gateway
              gateway_URL "00" eq_refl eq_refl eq_refl eq_refl eq_refl) as (r & Hr & Hi & Hm).
  exists r. split; [exact Hr|].
  rewrite Hi, Hm. split; vm_compute; reflexivity.
Defined.

(** X3: a signed query with the response code "9999". *)
Lemma unknown_code_query_fails_by_default :
  exists r,
    st_promise (verifyReturnUrl vnpay unknown_code_query) = Some (Fulfilled r) /\
    get "isSuccess" r = VBool false /\
    get "message" r = VStr "Giao dịch thất bại".
Proof.
  refine (@verifyReturnUrl_unknown_code platform imports vnpay unknown_code_query "SERCRET"
            gateway gateway_URL "9999" eq_refl eq_refl eq_refl eq_refl eq_refl eq_refl _).
  vm_compute. reflexivity.
Defined.

(** X4: the fields of the result for the signed query. *)
Lemma signed_query_result_fields :
  exists r,
    st_promise (verifyReturnUrl vnpay signed_query) = Some (Fulfilled r) /\
    lookup "vnp_SecureHash" r = None /\
    lookup "vnp_SecureHashType" r = None /\
    forall f, f <> "vnp_SecureHash" -> f <> "vnp_SecureHashType" ->
              f <> "isSuccess" -> f <> "message" ->
              lookup f r = lookup f signed_query.
Proof.
  exact (@verifyReturnUrl_result_fields platform imports vnpay signed_query "SERCRET" gateway
           gateway_URL "00" eq_refl eq_refl eq_refl eq_refl eq_refl eq_refl).
Defined.


(** X7: the locale of the payload is sent, not the default one. *)
Lemma payload_locale_is_sent :
  exists u signed,
    built_URL vnpay foreign_payload clock = Some u /\
    st_promise (buildPaymentUrl vnpay foreign_payload clock) = Some (Fulfilled (URL_toString u)) /\
    url_searchParams u =
      url_searchParams gateway_URL ++ build_params vnpay foreign_payload clock
      ++ [("vnp_SecureHash", signed)] /\
    url_query u = Some (urlencoded_serialize (url_searchParams u)) /\
    URL_toString u =
      (gateway ++ "?" ++ urlencoded_serialize (url_searchParams u) ++ "")%string /\
    (forall s, In ("vnp_Locale", s) (build_params vnpay foreign_payload clock)
               <-> truthy (VStr "en") = true /\ s = String_ (VStr "en")).
Proof.
  refine (@buildPaymentUrl_payload_field platform imports vnpay foreign_payload clock "SERCRET"
            gateway gateway_URL "vnp_Locale" (VStr "en")
            eq_refl eq_refl eq_refl eq_refl eq_refl eq_refl _ _ _ _); discriminate.
Defined.





(** X12: a payload that carries the response code "24". *)
Lemma cancelled_payload_verifies_as_cancelled :
  exists u r,
    built_URL vnpay cancelled_payload clock = Some u /\
    st_promise (buildPaymentUrl vnpay cancelled_payload clock)
    = Some (Fulfilled (URL_toString u)) /\
    url_query u = Some (urlencoded_serialize (url_searchParams u)) /\
    URL_toString u =
      (gateway ++ "?" ++ urlencoded_serialize (url_searchParams u) ++ "")%string /\
    st_promise (verifyReturnUrl vnpay (fromEntries (url_searchParams u)))
    = Some (Fulfilled r) /\
    get "isSuccess" r = VBool false /\
    get "message" r = VStr "Giao dịch không thành công do: Khách hàng hủy giao dịch".
Proof.
  exact (@built_URL_with_code_verifies platform imports vnpay cancelled_payload clock "SERCRET"
           gateway gateway_URL (VStr "24")
           eq_refl eq_refl eq_refl eq_refl eq_refl eq_refl eq_refl eq_refl eq_refl eq_refl).
Defined.

(** X13: the signed query with its fields in the reverse order. *)
Lemma reversed_query_verifies_alike :
  same_outcome (st_promise (verifyReturnUrl vnpay signed_query))
               (st_promise (verifyReturnUrl vnpay (rev signed_query))) /\
  digests (st_trace (verifyReturnUrl vnpay signed_query))
  = digests (st_trace (verifyReturnUrl vnpay (rev signed_query))).
Proof.
  exact (@verifyReturnUrl_field_order platform imports vnpay signed_query (rev signed_query)
           (Permutation_rev signed_query) eq_refl
           (string_compare_distinguishes (map fst signed_query))).
Defined.

(** X14: the payload of the class comment with its fields in the reverse
    order. *)
Lemma reversed_payload_builds_alike :
  st_promise (buildPaymentUrl vnpay payload clock)
  = st_promise (buildPaymentUrl vnpay (rev payload) clock) /\
  digests (st_trace (buildPaymentUrl vnpay payload clock))
  = digests (st_trace (buildPaymentUrl vnpay (rev payload) clock)).
Proof.
  exact (@buildPaymentUrl_field_order platform imports vnpay payload (rev payload) clock
           (Permutation_rev payload) eq_refl
           (string_compare_distinguishes (map fst (build_data vnpay payload clock)))).
Defined.

(** X15: a gateway without its scheme. *)
Lemma gateway_without_scheme_rejects :
  (forall payload clock,
     let final := buildPaymentUrl vnpay_with_bad_gateway payload clock in
     st_promise final = Some (Rejected (TypeError "Invalid URL")) /\
     digests (st_trace final) = [] /\
     (forall url, ~ In (EvResolve url) (st_trace final))) /\
  (forall q code,
     toString (get "vnp_ResponseCode" q) = Some code ->
     let final := verifyReturnUrl vnpay_with_bad_gateway q in
     st_promise final = Some (Rejected (TypeError "Invalid URL")) /\
     st_trace final = []).
Proof.
  exact (@unparsable_gateway_rejects platform imports vnpay_with_bad_gateway
           "sandbox.vnpayment.vn/paymentv2/vpcpay.html" eq_refl eq_refl eq_refl).
Defined.

(** X16: the message of the tampered query. *)
Lemma tampered_query_message :
  exists r,
    st_promise (verifyReturnUrl vnpay tampered_query) = Some (Fulfilled r) /\
    (get "message" r = VStr "Wrong checksum" <->
     get "vnp_SecureHash" tampered_query
     <> VStr (recomputed "SERCRET" gateway_URL tampered_query)).
Proof.
  exact (@verifyReturnUrl_wrong_checksum_iff platform imports vnpay tampered_query "SERCRET"
           gateway gateway_URL "00" eq_refl eq_refl eq_refl eq_refl eq_refl).
Defined.

(** X18: the signed query on the instance switched to English. *)
Lemma english_instance_approves :
  exists r r',
    st_promise (verifyReturnUrl vnpay signed_query) = Some (Fulfilled r) /\
    st_promise (verifyReturnUrl (set_configDefault vnpay english) signed_query)
    = Some (Fulfilled r') /\
    digests (st_trace (verifyReturnUrl (set_configDefault vnpay english) signed_query))
    = digests (st_trace (verifyReturnUrl vnpay signed_query)) /\
    get "isSuccess" r' = get "isSuccess" r /\
    get "message" r' = VStr "Approved".
Proof.
  destruct (@set_configDefault_keeps_verdict platform imports vnpay english signed_query
              "SERCRET" gateway gateway_URL "00" eq_refl eq_refl eq_refl eq_refl eq_refl)
    as (r & r' & Hr & Hr' & Hd & Hi & Hm).
  exists r, r'. repeat (split; [assumption|]).
  rewrite Hm. vm_compute. reflexivity.
Defined.

(** X19: a configuration whose gateway is the empty string. *)
Lemma empty_gateway_is_kept :
  (paymentGateway config_with_empty_gateway = None ->
   validateGlobalConfig (new_VNPay config_with_empty_gateway) = None /\
   paymentGateway (globalConfig (new_VNPay config_with_empty_gateway))
   = Some PAYMENT_GATEWAY_SANDBOX) /\
  (paymentGateway config_with_empty_gateway = Some "" ->
   forall payload clock q,
     st_promise (buildPaymentUrl (new_VNPay config_with_empty_gateway) payload clock)
     = Some (Rejected (Error "Missing payment gateway")) /\
     st_promise (verifyReturnUrl (new_VNPay config_with_empty_gateway) q)
     = Some (Rejected (Error "Missing payment gateway"))).
Proof.
  refine (@constructor_gateway_default platform imports config_with_empty_gateway
            _ eq_refl eq_refl).
  discriminate.
Defined.

(** X20: the parameters of the URL of the class comment. *)
Lemma example_parameters_distinct :
  exists u signed,
    built_URL vnpay payload clock = Some u /\
    st_promise (buildPaymentUrl vnpay payload clock) = Some (Fulfilled (URL_toString u)) /\
    url_searchParams u =
      url_searchParams gateway_URL ++ build_params vnpay payload clock
      ++ [("vnp_SecureHash", signed)] /\
    url_query u = Some (urlencoded_serialize (url_searchParams u)) /\
    URL_toString u =
      (gateway ++ "?" ++ urlencoded_serialize (url_searchParams u) ++ "")%string /\
    NoDup (map fst (build_params vnpay payload clock)) /\
    (forall f s, In (f, s) (build_params vnpay payload clock) -> s <> "") /\
    (lookup "vnp_SecureHash" payload = None ->
     ~ In "vnp_SecureHash" (map fst (build_params vnpay payload clock))).
Proof.
  exact (@buildPaymentUrl_parameters_distinct platform imports vnpay payload clock "SERCRET"
           gateway gateway_URL eq_refl eq_refl eq_refl eq_refl).
Defined.

End Coverage.
